(** * Double-entry accounting: a shallow embedding of the ledger code

    The development embeds the accounting logic of the repository
    ([models.py], [app.py], [double_entry.py], [storage.py]) and proves
    properties of it.

    Conventions of the embedding.

    - Monetary amounts are Python [Decimal]s, modelled by their value as
      an integer ([Z]).  In [models.py], [app.py] and [storage.py], where
      no amount is rounded on its way into an account, the unit is the
      cent: [Decimal("133.33")] is [13333].  In [double_entry.py], where
      [D] quantizes to cents and the accounts store the amounts they are
      given, quantized or not, the unit is the hundredth of a cent:
      [Decimal("133.33")] is [1333300] and [Decimal("0.005")] is [50].
      The 28-digit precision of the arithmetic context and the exponent of
      a [Decimal] (the number of decimals it is written with) are not
      modelled.
    - A Python [dict] is an insertion-ordered association list.
    - An operation that can raise returns a [result]; an operation that
      mutates shared state and can raise returns the state reached when the
      exception leaves the call together with the [result].
    - [date.today()] and [uuid.uuid4()] are inputs of the operations that
      call them. *)

From Stdlib Require Import ZArith List String Ascii Bool Lia Permutation Sorted.
From Stdlib Require Import DecimalString DecimalN DecimalPos.
Import ListNotations.
Set Warnings "-register-all".
Open Scope string_scope.
Open Scope list_scope.
Open Scope Z_scope.

(** ** Python values shared by every module *)

Definition Decimal := Z.

(** [sum(xs, start)]: a left fold from [start]. *)
Definition py_sum (xs : list Decimal) (start : Decimal) : Decimal :=
  fold_left Z.add xs start.

Inductive exn :=
| ValueError (msg : string)
| KeyError (key : string)
| TypeError
| InvalidOperation
| AttributeError
| UnicodeDecodeError.

Inductive result (A : Type) :=
| Ok (a : A)
| Raise (e : exn).
Arguments Ok {A} a.
Arguments Raise {A} e.

Definition is_ok {A} (r : result A) : bool :=
  match r with Ok _ => true | Raise _ => false end.

Definition bind {A B} (r : result A) (k : A -> result B) : result B :=
  match r with Ok a => k a | Raise e => Raise e end.

Notation "x <- e ;; k" := (bind e (fun x => k))
  (at level 61, e at next level, right associativity).

(** A loop whose body can raise: [for x in xs: acc = body(acc, x)]. *)
Fixpoint for_each {A S} (body : S -> A -> result S) (xs : list A) (acc : S)
  : result S :=
  match xs with
  | [] => Ok acc
  | x :: rest => acc' <- body acc x ;; for_each body rest acc'
  end.

(** [datetime.date]: compared as the triple (year, month, day). *)
Record date := mkdate { year : Z; month : Z; day : Z }.

Definition date_leb (a b : date) : bool :=
  if year a <? year b then true
  else if year b <? year a then false
  else if month a <? month b then true
  else if month b <? month a then false
  else day a <=? day b.

Definition date_eqb (a b : date) : bool :=
  (year a =? year b) && (month a =? month b) && (day a =? day b).

(** [x or default] on an optional date (a [date] object is always truthy). *)
Definition date_or (when : option date) (default : date) : date :=
  match when with Some d => d | None => default end.

(** *** Insertion-ordered dictionaries *)

Section Dict.
Context {V : Type}.

Definition dict := list (string * V).

Fixpoint dict_get (k : string) (d : dict) : option V :=
  match d with
  | [] => None
  | (k', v) :: d' => if String.eqb k k' then Some v else dict_get k d'
  end.

Definition dict_mem (k : string) (d : dict) : bool :=
  match dict_get k d with Some _ => true | None => false end.

(** [d[k] = v]: replaces in place, or appends a new key at the end. *)
Fixpoint dict_set (k : string) (v : V) (d : dict) : dict :=
  match d with
  | [] => [(k, v)]
  | (k', v') :: d' =>
      if String.eqb k k' then (k, v) :: d' else (k', v') :: dict_set k v d'
  end.

Definition dict_keys (d : dict) : list string := map fst d.
Definition dict_values (d : dict) : list V := map snd d.
End Dict.
Arguments dict V : clear implicits.

(** *** [sorted(xs, key=...)]: a stable sort *)

Section Sorted.
Context {A K : Type} (key : A -> K) (leb : K -> K -> bool).

Fixpoint insert_by (x : A) (l : list A) : list A :=
  match l with
  | [] => [x]
  | y :: ys => if leb (key x) (key y) then x :: l else y :: insert_by x ys
  end.

Definition sorted (l : list A) : list A := fold_right insert_by [] l.
End Sorted.

(** *** Account types ([ACCOUNT_TYPES] of [models.py] and [app.py]) *)

Inductive AccountType := Asset | Liability | Equity | Revenue | Expense.

Definition ACCOUNT_TYPES (t : AccountType) : string :=
  match t with
  | Asset => "debit"
  | Liability => "credit"
  | Equity => "credit"
  | Revenue => "credit"
  | Expense => "debit"
  end.

Definition type_name (t : AccountType) : string :=
  match t with
  | Asset => "Asset"
  | Liability => "Liability"
  | Equity => "Equity"
  | Revenue => "Revenue"
  | Expense => "Expense"
  end.

(** [account_type in ACCOUNT_TYPES], returning the key found. *)
Definition lookup_type (s : string) : option AccountType :=
  if String.eqb s "Asset" then Some Asset
  else if String.eqb s "Liability" then Some Liability
  else if String.eqb s "Equity" then Some Equity
  else if String.eqb s "Revenue" then Some Revenue
  else if String.eqb s "Expense" then Some Expense
  else None.

Definition is_credit_normal (t : AccountType) : bool :=
  String.eqb (ACCOUNT_TYPES t) "credit".

(** ** [models.py] *)

Module Models.

Record Account := mkAccount {
  name : string;
  type : AccountType;
  debits : list Decimal;
  credits : list Decimal
}.

(** [Account.__init__] *)
Definition new (name : string) (account_type : string) : result Account :=
  match lookup_type account_type with
  | None => Raise (ValueError "Invalid account type")
  | Some t => Ok (mkAccount name t [] [])
  end.

(** [Account.debit]: appends, whatever the amount. *)
Definition debit (a : Account) (amount : Decimal) (description : string)
  : result unit * Account :=
  (Ok tt, mkAccount (name a) (type a) (debits a ++ [amount]) (credits a)).

(** [Account.credit] *)
Definition credit (a : Account) (amount : Decimal) (description : string)
  : result unit * Account :=
  (Ok tt, mkAccount (name a) (type a) (debits a) (credits a ++ [amount])).

Definition total_debit (a : Account) : Decimal := py_sum (debits a) 0.
Definition total_credit (a : Account) : Decimal := py_sum (credits a) 0.
Definition raw_balance (a : Account) : Decimal := total_debit a - total_credit a.

Definition balance (a : Account) : Decimal :=
  let raw := raw_balance a in
  if String.eqb (ACCOUNT_TYPES (type a)) "credit" then - raw else raw.

(** [Account.validate_transaction]: reads nothing and writes nothing. *)
Definition validate_transaction (a : Account) (is_debit : bool) (amount : Decimal)
  : result unit * Account :=
  if amount <=? 0 then (Raise (ValueError "Amount must be positive"), a)
  else (Ok tt, a).

(** A history of calls on one account. *)
Inductive call := Debit (amount : Decimal) | Credit (amount : Decimal).

Definition apply_call (a : Account) (c : call) : Account :=
  match c with
  | Debit amt => snd (debit a amt "")
  | Credit amt => snd (credit a amt "")
  end.

End Models.

(** ** [app.py] and [storage.py] *)

(** Python objects held in the transaction history and in the data file:
    what [json.load] returns, extended with [Decimal] and [date] values. *)
Inductive pyobj :=
| PNone
| PInt (n : Z)
| PStr (s : string)
| PDecimal (d : Decimal)
| PDate (d : date)
| PList (xs : list pyobj)
| PDict (items : list (string * pyobj)).

(** [round(n / d)] to the nearest integer, ties to the even neighbour:
    [Decimal.quantize] under the default context ([ROUND_HALF_EVEN]). *)
Definition round_half_even (n d : Z) : Z :=
  let q := n / d in
  let r := n mod d in
  if 2 * r <? d then q
  else if d <? 2 * r then q + 1
  else if Z.even q then q else q + 1.

(** The same with ties away from zero ([ROUND_HALF_UP]). *)
Definition round_half_up (n d : Z) : Z :=
  let q := n / d in
  let r := n mod d in
  if 2 * r <? d then q
  else if d <? 2 * r then q + 1
  else if 0 <=? n then q + 1 else q.

Module App.

(** One stored entry: [{"amount": ..., "description": ..., "date": ...}]. *)
Record Entry := mkEntry {
  amount : Decimal;
  description : string;
  entry_date : date
}.

Record Account := mkAccount {
  name : string;
  type : AccountType;
  category : string;
  debits : list Entry;
  credits : list Entry;
  created_at : date
}.

(** [Account.__init__]; [today] is [date.today()]. *)
Definition new (today : date) (name account_type category : string)
  : result Account :=
  match lookup_type account_type with
  | None => Raise (ValueError "Invalid account type")
  | Some t => Ok (mkAccount name t category [] [] today)
  end.

Definition with_debits (a : Account) (ds : list Entry) : Account :=
  mkAccount (name a) (type a) (category a) ds (credits a) (created_at a).

Definition with_credits (a : Account) (cs : list Entry) : Account :=
  mkAccount (name a) (type a) (category a) (debits a) cs (created_at a).

(** [Account.debit]: appends, whatever the amount. *)
Definition debit (today : date) (a : Account) (amount : Decimal)
    (description : string) (when : option date) : result unit * Account :=
  (Ok tt, with_debits a (debits a ++ [mkEntry amount description (date_or when today)])).

(** [Account.credit] *)
Definition credit (today : date) (a : Account) (amount : Decimal)
    (description : string) (when : option date) : result unit * Account :=
  (Ok tt, with_credits a (credits a ++ [mkEntry amount description (date_or when today)])).

Definition total_debit (a : Account) : Decimal := py_sum (map amount (debits a)) 0.
Definition total_credit (a : Account) : Decimal := py_sum (map amount (credits a)) 0.

Definition balance (a : Account) : Decimal :=
  let raw_balance := total_debit a - total_credit a in
  if String.eqb (ACCOUNT_TYPES (type a)) "credit" then - raw_balance
  else raw_balance.

(** One line of [Account.entries]. *)
Record Line := mkLine {
  line_date : date;
  line_description : string;
  line_debit : Decimal;
  line_credit : Decimal;
  line_type : string
}.

Definition debit_line (e : Entry) : Line :=
  mkLine (entry_date e) (description e) (amount e) 0 "debit".

Definition credit_line (e : Entry) : Line :=
  mkLine (entry_date e) (description e) 0 (amount e) "credit".

(** The list [all_entries] before it is sorted. *)
Definition all_entries (a : Account) : list Line :=
  map debit_line (debits a) ++ map credit_line (credits a).

Definition entries (a : Account) : list Line :=
  sorted line_date date_leb (all_entries a).

(** One element of a statement: [{**entry, "balance": balance}]. *)
Record Row := mkRow { row_line : Line; row_balance : Decimal }.

Definition contribution (t : AccountType) (entry : Line) : Decimal :=
  if String.eqb (ACCOUNT_TYPES t) "credit"
  then line_credit entry - line_debit entry
  else line_debit entry - line_credit entry.

(** The running-balance loop of [Account.statement]. *)
Fixpoint running (t : AccountType) (balance : Decimal) (es : list Line)
  : list Row :=
  match es with
  | [] => []
  | entry :: rest =>
      let balance := balance + contribution t entry in
      mkRow entry balance :: running t balance rest
  end.

Definition statement (a : Account) (start_date end_date : option date)
  : list Row :=
  let entries := entries a in
  let entries :=
    match start_date with
    | Some s => filter (fun e => date_leb s (line_date e)) entries
    | None => entries
    end in
  let entries :=
    match end_date with
    | Some d => filter (fun e => date_leb (line_date e) d) entries
    | None => entries
    end in
  running (type a) 0 entries.

(** [INITIAL_ACCOUNTS] *)
Definition INITIAL_ACCOUNTS : list (string * (string * string)) :=
  [ ("Cash", ("Asset", "Current Assets"));
    ("Accounts Receivable", ("Asset", "Current Assets"));
    ("Inventory", ("Asset", "Current Assets"));
    ("Equipment", ("Asset", "Fixed Assets"));
    ("Accumulated Depreciation", ("Asset", "Fixed Assets"));
    ("Accounts Payable", ("Liability", "Current Liabilities"));
    ("Wages Payable", ("Liability", "Current Liabilities"));
    ("Bank Loan", ("Liability", "Long Term Liabilities"));
    ("Owner's Equity", ("Equity", "Owner's Equity"));
    ("Retained Earnings", ("Equity", "Retained Earnings"));
    ("Sales Revenue", ("Revenue", "Operating Revenue"));
    ("Service Revenue", ("Revenue", "Operating Revenue"));
    ("Interest Income", ("Revenue", "Other Revenue"));
    ("Cost of Goods Sold", ("Expense", "Operating Expenses"));
    ("Salary Expense", ("Expense", "Operating Expenses"));
    ("Rent Expense", ("Expense", "Operating Expenses"));
    ("Utilities Expense", ("Expense", "Operating Expenses"));
    ("Depreciation Expense", ("Expense", "Operating Expenses"));
    ("Interest Expense", ("Expense", "Other Expenses")) ].

(** *** [storage.py] *)
Module storage.

(** **** [str(Decimal)], [Decimal(str)], [date.isoformat], [fromisoformat] *)

Definition digit (n : Z) : ascii := ascii_of_N (Z.to_N (48 + n)).

Definition two_digits (n : Z) : string :=
  String (digit (n / 10)) (String (digit (n mod 10)) "").

Definition four_digits (n : Z) : string :=
  String (digit (n / 1000)) (String (digit (n / 100 mod 10))
    (two_digits (n mod 100))).

Definition str_nat (n : Z) : string :=
  NilZero.string_of_uint (N.to_uint (Z.to_N n)).

(** [str(d)] for an amount written with two decimals: sign, integer
    digits, point, two fraction digits.  A [Decimal] keeps the exponent it
    was made with ([str(Decimal("20000.0"))] is ["20000.0"]); an amount of
    the model is its value in cents, so the text is modelled for the
    two-decimal spelling of that value only, and no property below states
    the text of a saved amount. *)
Definition str_decimal (d : Decimal) : string :=
  ((if (d <? 0)%Z then "-" else "")
     ++ str_nat (Z.abs d / 100)%Z ++ "." ++ two_digits (Z.abs d mod 100)%Z)%string.

(** [d.isoformat()]: YYYY-MM-DD. *)
Definition isoformat (d : date) : string :=
  (four_digits (year d) ++ "-" ++ two_digits (month d) ++ "-"
     ++ two_digits (day d))%string.

Definition digit_value (c : ascii) : option Z :=
  let n := Z.of_N (N_of_ascii c) in
  if (48 <=? n) && (n <=? 57) then Some (n - 48) else None.

Fixpoint digits_value (acc : Z) (s : string) : option Z :=
  match s with
  | EmptyString => Some acc
  | String c rest =>
      match digit_value c with
      | Some v => digits_value (10 * acc + v) rest
      | None => None
      end
  end.

Definition parse_nat (s : string) : option Z :=
  option_map (fun u => Z.of_N (N.of_uint u)) (NilZero.uint_of_string s).

Fixpoint split_dot (s : string) : string * option string :=
  match s with
  | EmptyString => (EmptyString, None)
  | String c rest =>
      if Ascii.eqb c "." then (EmptyString, Some rest)
      else let (a, b) := split_dot rest in (String c a, b)
  end.

Definition fraction_cents (f : string) : option Z :=
  match String.length f with
  | 0%nat => Some 0
  | 1%nat => option_map (Z.mul 10) (digits_value 0 f)
  | 2%nat => digits_value 0 f
  | _ => None
  end.

Definition unsigned_cents (s : string) : option Z :=
  match split_dot s with
  | (ip, None) => option_map (Z.mul 100) (parse_nat ip)
  | (ip, Some f) =>
      if String.eqb ip "" && String.eqb f "" then None
      else
        match (if String.eqb ip "" then Some 0 else parse_nat ip),
              fraction_cents f with
        | Some n, Some c => Some (100 * n + c)
        | _, _ => None
        end
  end.

(** [Decimal(s)] on plain decimal numerals with at most two fraction
    digits, the numerals of the model's amounts.  The other spellings that
    [Decimal] reads (exponents, longer fractions, [Infinity], [NaN]) are
    outside the model: they are taken as not a numeral, and no property
    below rests on their rejection. *)
Definition parse_decimal (s : string) : result Decimal :=
  let signed :=
    match s with
    | String c rest =>
        if Ascii.eqb c "-" then option_map Z.opp (unsigned_cents rest)
        else if Ascii.eqb c "+" then unsigned_cents rest
        else unsigned_cents s
    | EmptyString => None
    end in
  match signed with Some d => Ok d | None => Raise InvalidOperation end.

Definition is_leap (y : Z) : bool :=
  ((y mod 4 =? 0) && negb (y mod 100 =? 0)) || (y mod 400 =? 0).

Definition days_in_month (y m : Z) : Z :=
  if m =? 2 then (if is_leap y then 29 else 28)
  else if (m =? 4) || (m =? 6) || (m =? 9) || (m =? 11) then 30
  else 31.

(** The dates [datetime.date] can hold. *)
Definition valid_date (d : date) : bool :=
  (1 <=? year d) && (year d <=? 9999)
  && (1 <=? month d) && (month d <=? 12)
  && (1 <=? day d) && (day d <=? days_in_month (year d) (month d)).

(** [datetime.fromisoformat(s).date()] on the YYYY-MM-DD form, the form
    [isoformat] writes.  The longer forms with a time of day are outside
    the model: they are taken as invalid, and no property below rests on
    their rejection. *)
Definition fromisoformat (s : string) : result date :=
  if (String.length s =? 10)%nat
     && String.eqb (substring 4 1 s) "-" && String.eqb (substring 7 1 s) "-"
  then
    match digits_value 0 (substring 0 4 s),
          digits_value 0 (substring 5 2 s),
          digits_value 0 (substring 8 2 s) with
    | Some y, Some m, Some d =>
        if valid_date (mkdate y m d) then Ok (mkdate y m d)
        else Raise (ValueError "Invalid isoformat string")
    | _, _, _ => Raise (ValueError "Invalid isoformat string")
    end
  else Raise (ValueError "Invalid isoformat string").

(** **** [json.dump(data, cls=DataEncoder)] *)

(** The document written for [data]: [DataEncoder.default] turns every
    [Decimal] into [str(obj)] and every date into [obj.isoformat()]. *)
Fixpoint encode (v : pyobj) : pyobj :=
  match v with
  | PDecimal d => PStr (str_decimal d)
  | PDate d => PStr (isoformat d)
  | PList xs => PList (map encode xs)
  | PDict items => PDict (map (fun kv => (fst kv, encode (snd kv))) items)
  | _ => v
  end.

Definition entry_data (e : Entry) : pyobj :=
  PDict [ ("amount", PDecimal (amount e));
          ("date", PStr (isoformat (entry_date e)));
          ("description", PStr (description e)) ].

Definition account_data (acc : Account) : pyobj :=
  PDict [ ("name", PStr (name acc));
          ("type", PStr (type_name (type acc)));
          ("category", PStr (category acc));
          ("debits", PList (map entry_data (debits acc)));
          ("credits", PList (map entry_data (credits acc))) ].

(** [save_data]: the document left in [DATA_FILE].  The backup copy of
    the previous file is not part of the model. *)
Definition save_data (accounts : dict Account) (transactions : list pyobj)
  : pyobj :=
  encode (PDict [ ("accounts",
                    PDict (map (fun na => (fst na, account_data (snd na)))
                             accounts));
                  ("transactions", PList transactions) ]).

(** **** [load_data] *)

(** What [load_data] finds at [DATA_FILE]: no file; bytes that are not
    text in the encoding [open] reads with; text that is not JSON; or a
    JSON document. *)
Inductive file_state :=
| Missing
| Garbled
| Document (data : pyobj)
| Undecodable.

(** [v[k]] *)
Definition subscript (v : pyobj) (k : string) : result pyobj :=
  match v with
  | PDict items =>
      match dict_get k items with
      | Some x => Ok x
      | None => Raise (KeyError k)
      end
  | _ => Raise TypeError
  end.

(** [v.items()]: only a dict has the method. *)
Definition items_of (v : pyobj) : result (list (string * pyobj)) :=
  match v with PDict items => Ok items | _ => Raise AttributeError end.

(** [v[k] = x] *)
Definition set_item (v : pyobj) (k : string) (x : pyobj) : result pyobj :=
  match v with
  | PDict items => Ok (PDict (dict_set k x items))
  | _ => Raise TypeError
  end.

Fixpoint chars (s : string) : list pyobj :=
  match s with
  | EmptyString => []
  | String c rest => PStr (String c "") :: chars rest
  end.

(** [for x in v] *)
Definition iterate (v : pyobj) : result (list pyobj) :=
  match v with
  | PList xs => Ok xs
  | PDict items => Ok (map (fun kv => PStr (fst kv)) items)
  | PStr s => Ok (chars s)
  | _ => Raise TypeError
  end.

Definition as_str (v : pyobj) : result string :=
  match v with PStr s => Ok s | _ => Raise TypeError end.

(** [Decimal(v)] *)
Definition to_Decimal (v : pyobj) : result Decimal :=
  match v with
  | PStr s => parse_decimal s
  | PInt n => Ok (100 * n)
  | PDecimal d => Ok d
  | _ => Raise TypeError
  end.

(** [datetime.fromisoformat(v).date()] *)
Definition to_date (v : pyobj) : result date :=
  match v with PStr s => fromisoformat s | _ => Raise TypeError end.

Definition replay (post : Account -> Decimal -> string -> option date
                          -> result unit * Account)
    (account : Account) (entry : pyobj) : result Account :=
  a <- subscript entry "amount" ;;
  a <- to_Decimal a ;;
  d <- subscript entry "description" ;;
  d <- as_str d ;;
  w <- subscript entry "date" ;;
  w <- to_date w ;;
  Ok (snd (post account a d (Some w))).

Definition load_account (today : date) (acc_data : pyobj) : result Account :=
  n <- subscript acc_data "name" ;;
  n <- as_str n ;;
  t <- subscript acc_data "type" ;;
  t <- as_str t ;;
  c <- subscript acc_data "category" ;;
  c <- as_str c ;;
  account <- new today n t c ;;
  ds <- subscript acc_data "debits" ;;
  ds <- iterate ds ;;
  account <- for_each (replay (debit today)) ds account ;;
  cs <- subscript acc_data "credits" ;;
  cs <- iterate cs ;;
  for_each (replay (credit today)) cs account.

Definition load_transaction (tx : pyobj) : result pyobj :=
  a <- subscript tx "amount" ;;
  a <- to_Decimal a ;;
  tx <- set_item tx "amount" (PDecimal a) ;;
  w <- subscript tx "date" ;;
  w <- to_date w ;;
  set_item tx "date" (PDate w).

Definition load_document (today : date) (data : pyobj)
  : result (dict Account * list pyobj) :=
  accts <- subscript data "accounts" ;;
  accts <- items_of accts ;;
  accounts <- for_each (fun accounts na =>
                          account <- load_account today (snd na) ;;
                          Ok (dict_set (fst na) account accounts))
                       accts [] ;;
  txs <- subscript data "transactions" ;;
  txs <- iterate txs ;;
  transactions <- for_each (fun done tx =>
                              tx' <- load_transaction tx ;;
                              Ok (done ++ [tx']))
                           txs [] ;;
  Ok (accounts, transactions).

(** [load_data]: no file gives the empty state, and so do the three
    exceptions of the [except] clause: the [JSONDecodeError] that
    [json.load] raises on text that is not JSON, [KeyError] and
    [TypeError].  Every other exception leaves the call, among them the
    [UnicodeDecodeError] of a file that is not text, the [AttributeError] of
    [.items()] on a value that is no dict, [ValueError] and
    [InvalidOperation]. *)
Definition load_data (today : date) (f : file_state)
  : result (dict Account * list pyobj) :=
  match f with
  | Missing => Ok ([], [])
  | Garbled => Ok ([], [])
  | Undecodable => Raise UnicodeDecodeError
  | Document data =>
      match load_document today data with
      | Raise (KeyError _) => Ok ([], [])
      | Raise TypeError => Ok ([], [])
      | r => r
      end
  end.

End storage.

(** *** The ledger of [app.py]: module-level state and helper functions *)

(** The globals [accounts] and [transactions], and the data file that
    [storage] reads and writes. *)
Record World := mkWorld {
  accounts : dict Account;
  transactions : list pyobj;
  data_file : storage.file_state
}.

Definition is_empty {A} (l : list A) : bool :=
  match l with [] => true | _ => false end.

(** The comprehension over [INITIAL_ACCOUNTS]. *)
Definition initial_accounts (today : date) : result (dict Account) :=
  for_each (fun accounts entry =>
              let '(name, (type_, category)) := entry in
              account <- new today name type_ category ;;
              Ok (dict_set name account accounts))
           INITIAL_ACCOUNTS [].

(** Module initialisation: load, and seed the chart on a first run. *)
Definition startup (today : date) (f : storage.file_state) : result World :=
  loaded <- storage.load_data today f ;;
  if is_empty (fst loaded)
  then accounts <- initial_accounts today ;; Ok (mkWorld accounts [] f)
  else Ok (mkWorld (fst loaded) (snd loaded) f).

Definition validate_transaction (debits credits : dict Decimal) : result unit :=
  if is_empty debits || is_empty credits
  then Raise (ValueError "Both debit and credit entries are required")
  else
    let total_debit := py_sum (dict_values debits) 0 in
    let total_credit := py_sum (dict_values credits) 0 in
    if negb (total_debit =? total_credit)
    then Raise (ValueError "Transaction not balanced")
    else Ok tt.

(** [for acct, amt in lines.items(): accounts[acct].post(amt, ...)]; a
    missing key raises [KeyError] at the line that names it, after the
    lines before it have been applied. *)
Fixpoint post_lines
    (post : Account -> Decimal -> string -> option date -> result unit * Account)
    (lines : dict Decimal) (description : string) (tx_date : date)
    (accounts : dict Account) : result unit * dict Account :=
  match lines with
  | [] => (Ok tt, accounts)
  | (acct, amt) :: rest =>
      match dict_get acct accounts with
      | None => (Raise (KeyError acct), accounts)
      | Some a =>
          post_lines post rest description tx_date
            (dict_set acct (snd (post a amt description (Some tx_date))) accounts)
      end
  end.

Definition line_items (lines : dict Decimal) : pyobj :=
  PList (map (fun kv => PDict [("account", PStr (fst kv));
                               ("amount", PDecimal (snd kv))]) lines).

Section Environment.
(** [date.today()] and [date.strftime]. *)
Variable today : date.
Variable strftime : string -> date -> string.

Definition post_transaction (debits credits : dict Decimal)
    (description : string) (transaction_date : option date) (w : World)
  : result pyobj * World :=
  match validate_transaction debits credits with
  | Raise e => (Raise e, w)
  | Ok _ =>
      let tx_date := date_or transaction_date today in
      let (r, accts) :=
        post_lines (debit today) debits description tx_date (accounts w) in
      match r with
      | Raise _ =>
          (Raise (ValueError "Account not found"),
           mkWorld accts (transactions w) (data_file w))
      | Ok _ =>
          let (r, accts) :=
            post_lines (credit today) credits description tx_date accts in
          match r with
          | Raise _ =>
              (Raise (ValueError "Account not found"),
               mkWorld accts (transactions w) (data_file w))
          | Ok _ =>
              let tx :=
                PDict [ ("id", PInt (Z.of_nat (List.length (transactions w)) + 1));
                        ("date", PDate tx_date);
                        ("description", PStr description);
                        ("amount", PDecimal (py_sum (dict_values debits) 0));
                        ("debit_entries", line_items debits);
                        ("credit_entries", line_items credits) ] in
              let txs := tx :: transactions w in
              (Ok tx,
               mkWorld accts txs
                 (storage.Document (storage.save_data accts txs)))
          end
      end
  end.

Definition calculate_depreciation (as_of_date : option date) (w : World)
  : result unit * World :=
  let entry_date := date_or as_of_date today in
  match dict_get "Equipment" (accounts w) with
  | None => (Raise (KeyError "Equipment"), w)
  | Some equipment =>
      let equipment_cost := balance equipment in
      let annual_depreciation := round_half_even equipment_cost 5 in
      let monthly_depreciation := round_half_even annual_depreciation 12 in
      let description :=
        ("Monthly depreciation for " ++ strftime "%B %Y" entry_date)%string in
      match dict_get "Depreciation Expense" (accounts w) with
      | None => (Raise (KeyError "Depreciation Expense"), w)
      | Some expense =>
          let accts :=
            dict_set "Depreciation Expense"
              (snd (debit today expense monthly_depreciation description
                      (Some entry_date)))
              (accounts w) in
          match dict_get "Accumulated Depreciation" accts with
          | None =>
              (Raise (KeyError "Accumulated Depreciation"),
               mkWorld accts (transactions w) (data_file w))
          | Some accumulated =>
              (Ok tt,
               mkWorld
                 (dict_set "Accumulated Depreciation"
                    (snd (credit today accumulated monthly_depreciation
                            description (Some entry_date)))
                    accts)
                 (transactions w) (data_file w))
          end
      end
  end.
End Environment.

(** *** [trial_balance] *)

Record TrialRow := mkTrialRow {
  tr_name : string;
  tr_type : string;
  tr_category : string;
  tr_debit : Decimal;
  tr_credit : Decimal
}.

Record TrialData := mkTrialData {
  tb_accounts : list TrialRow;
  total_debits : Decimal;
  total_credits : Decimal;
  is_balanced : bool
}.

(** Order of the keys [(x.type, x.name)]. *)
Definition key_leb (a b : string * string) : bool :=
  match String.compare (fst a) (fst b) with
  | Lt => true
  | Gt => false
  | Eq => String.leb (snd a) (snd b)
  end.

Definition balance_as_of (as_of_date : option date) (account : Account)
  : Decimal :=
  match as_of_date with
  | Some d =>
      let entries := statement account None (Some d) in
      if is_empty entries then 0 else last (map row_balance entries) 0
  | None => balance account
  end.

(** The debit and credit amounts shown for one account. *)
Definition presentation (t : AccountType) (balance : Decimal)
  : Decimal * Decimal :=
  let debit_amt := if balance >? 0 then balance else 0 in
  let credit_amt := if balance <? 0 then - balance else 0 in
  if String.eqb (ACCOUNT_TYPES t) "credit" then (credit_amt, debit_amt)
  else (debit_amt, credit_amt).

Definition trial_step (as_of_date : option date)
    (acc : list TrialRow * Decimal * Decimal) (account : Account)
  : list TrialRow * Decimal * Decimal :=
  let '(rows, total_debits, total_credits) := acc in
  let balance := balance_as_of as_of_date account in
  let (debit_amt, credit_amt) := presentation (type account) balance in
  (rows ++ [mkTrialRow (name account) (type_name (type account))
              (category account) debit_amt credit_amt],
   total_debits + debit_amt, total_credits + credit_amt).

Definition trial_balance (as_of_date : option date) (accounts : dict Account)
  : TrialData :=
  let '(rows, total_debits, total_credits) :=
    fold_left (trial_step as_of_date)
      (sorted (fun x => (type_name (type x), name x)) key_leb
         (dict_values accounts))
      ([], 0, 0) in
  mkTrialData rows total_debits total_credits (total_debits =? total_credits).

(** *** [income_statement] *)

(** [entries[-1]["balance"] if entries else Decimal("0")] over the
    statement of a period. *)
Definition period_balance (start_date end_date : option date) (account : Account)
  : Decimal :=
  let entries := statement account start_date end_date in
  if is_empty entries then 0 else last (map row_balance entries) 0.

Record IncomeStatement := mkIncomeStatement {
  period_start : option string;
  period_end : option string;
  operating_revenue : Decimal;
  operating_expenses : Decimal;
  operating_income : Decimal;
  other_revenue : Decimal;
  other_expenses : Decimal;
  total_revenue : Decimal;
  total_expenses : Decimal;
  net_income : Decimal;
  detail_revenue : list (string * string * Decimal);
  detail_expenses : list (string * string * Decimal)
}.

(** One turn of the loop that sums the four sections. *)
Definition income_step (start_date end_date : option date)
    (acc : Decimal * Decimal * Decimal * Decimal) (account : Account)
  : Decimal * Decimal * Decimal * Decimal :=
  let '(operating_revenue, other_revenue, operating_expenses, other_expenses) := acc in
  if String.eqb (type_name (type account)) "Revenue" then
    let balance := period_balance start_date end_date account in
    if String.eqb (category account) "Operating Revenue"
    then (operating_revenue + balance, other_revenue, operating_expenses, other_expenses)
    else (operating_revenue, other_revenue + balance, operating_expenses, other_expenses)
  else if String.eqb (type_name (type account)) "Expense" then
    let balance := period_balance start_date end_date account in
    if String.eqb (category account) "Operating Expenses"
    then (operating_revenue, other_revenue, operating_expenses + balance, other_expenses)
    else (operating_revenue, other_revenue, operating_expenses, other_expenses + balance)
  else acc.

Definition detail (start_date end_date : option date) (kind : string)
    (accounts : dict Account) : list (string * string * Decimal) :=
  map (fun acc => (name acc, category acc, period_balance start_date end_date acc))
    (filter (fun acc => String.eqb (type_name (type acc)) kind) (dict_values accounts)).

Definition income_statement (start_date end_date : option date)
    (accounts : dict Account) : IncomeStatement :=
  let '(operating_revenue, other_revenue, operating_expenses, other_expenses) :=
    fold_left (income_step start_date end_date) (dict_values accounts) (0, 0, 0, 0) in
  let total_revenue := operating_revenue + other_revenue in
  let total_expenses := operating_expenses + other_expenses in
  let operating_income := operating_revenue - operating_expenses in
  let net_income := total_revenue - total_expenses in
  mkIncomeStatement
    (option_map storage.isoformat start_date) (option_map storage.isoformat end_date)
    operating_revenue operating_expenses operating_income
    other_revenue other_expenses
    total_revenue total_expenses net_income
    (detail start_date end_date "Revenue" accounts)
    (detail start_date end_date "Expense" accounts).

(** *** [balance_sheet] *)

(** The sections of one side of the sheet: category to list of
    [{"name": ..., "balance": ...}]. *)
Definition Sections := dict (list (string * Decimal)).

(** [sections[category].append(entry)] *)
Definition file_entry (sections : Sections) (category : string)
    (entry : string * Decimal) : result Sections :=
  match dict_get category sections with
  | None => Raise (KeyError category)
  | Some l => Ok (dict_set category (l ++ [entry]) sections)
  end.

Definition sheet_step (as_of_date : option date)
    (acc : Sections * Sections * Sections) (account : Account)
  : result (Sections * Sections * Sections) :=
  let '(assets, liabilities, equity) := acc in
  let balance := balance_as_of as_of_date account in
  let entry := (name account, balance) in
  if String.eqb (type_name (type account)) "Asset" then
    assets <- file_entry assets (category account) entry ;;
    Ok (assets, liabilities, equity)
  else if String.eqb (type_name (type account)) "Liability" then
    liabilities <- file_entry liabilities (category account) entry ;;
    Ok (assets, liabilities, equity)
  else if String.eqb (type_name (type account)) "Equity" then
    equity <- file_entry equity (category account) entry ;;
    Ok (assets, liabilities, equity)
  else Ok acc.

(** [sum(entry["balance"] for section in s.values() for entry in section)] *)
Definition section_total (s : Sections) : Decimal :=
  py_sum (map snd (List.concat (dict_values s))) 0.

Record BalanceSheet := mkBalanceSheet {
  as_of : string;
  assets : Sections;
  liabilities : Sections;
  equity : Sections;
  sheet_assets : Decimal;
  sheet_liabilities : Decimal;
  sheet_equity : Decimal;
  liabilities_and_equity : Decimal;
  sheet_is_balanced : bool
}.

Definition balance_sheet (today : date) (as_of_date : option date)
    (accounts : dict Account) : result BalanceSheet :=
  sections <- for_each (sheet_step as_of_date) (dict_values accounts)
                ([("Current Assets", []); ("Fixed Assets", []); ("Other Assets", [])],
                 [("Current Liabilities", []); ("Long Term Liabilities", [])],
                 [("Owner's Equity", []); ("Retained Earnings", [])]) ;;
  let '(assets, liabilities, equity) := sections in
  let total_assets := section_total assets in
  let total_liabilities := section_total liabilities in
  let total_equity := section_total equity in
  let net_income :=
    match as_of_date with
    | Some d => net_income (income_statement None (Some d) accounts)
    | None => net_income (income_statement None None accounts)
    end in
  Ok (mkBalanceSheet
        (storage.isoformat (date_or as_of_date today))
        assets liabilities equity
        total_assets total_liabilities (total_equity + net_income)
        (total_liabilities + total_equity + net_income)
        (total_assets =? total_liabilities + total_equity + net_income)).

(** [get_accounts_by_type] *)
Definition get_accounts_by_type (account_type : string) (accounts : dict Account)
  : dict Account :=
  filter (fun kv => String.eqb (type_name (type (snd kv))) account_type) accounts.

(** *** The [/reports] route *)

Section Reports.
Variable today : date.
Variable strftime : string -> date -> string.

(** The handler posts the depreciation of the month and then builds the
    three reports; the result is the context handed to the template, or the
    exception that escapes. *)
Definition reports (w : World)
  : result (TrialData * IncomeStatement * BalanceSheet) * World :=
  let (r, w) := calculate_depreciation today strftime None w in
  match r with
  | Raise e => (Raise e, w)
  | Ok _ =>
      let tb := trial_balance None (accounts w) in
      let isr := income_statement None None (accounts w) in
      match balance_sheet today None (accounts w) with
      | Raise e => (Raise e, w)
      | Ok bs => (Ok (tb, isr, bs), w)
      end
  end.
End Reports.

End App.

(** ** [double_entry.py] *)

Module DoubleEntry.

(** Amounts of this module are counted in hundredths of a cent: an
    [EntryLine] holds the amount it is given, and only [D] brings an amount
    to whole cents.  Amounts with more than four decimals are outside the
    model. *)

(** [CENT = Decimal('0.01')] *)
Definition CENT : Decimal := 100.

(** [val.quantize(CENT, rounding=ROUND_HALF_UP)] *)
Definition quantize (val : Decimal) : Decimal := round_half_up val CENT * CENT.

(** [D(x)]: convert to [Decimal] and quantize to cents. *)
Definition D (x : Decimal) : Decimal := quantize x.

(** [(x / Decimal(n)).quantize(CENT, ROUND_HALF_UP)]: the quotient counts
    [x / (n * CENT)] cents. *)
Definition divide_quantize (x : Decimal) (n : Z) : Decimal :=
  round_half_up x (n * CENT) * CENT.

Record EntryLine := mkEntryLine {
  account : string;
  amount : Decimal;
  is_debit : bool
}.

Record JournalEntry := mkJournalEntry {
  id : string;
  entry_date : date;
  description : string;
  lines : list EntryLine;
  posted : bool
}.

Record Account := mkAccount {
  code : string;
  name : string;
  type : string;
  debits : list (string * Decimal);
  credits : list (string * Decimal)
}.

(** [self.type in ('Asset', 'Expense')] *)
Definition debit_normal (t : string) : bool :=
  String.eqb t "Asset" || String.eqb t "Expense".

Definition balance (a : Account) : Decimal :=
  let total_debits := py_sum (map snd (debits a)) (D 0) in
  let total_credits := py_sum (map snd (credits a)) (D 0) in
  if debit_normal (type a) then total_debits - total_credits
  else total_credits - total_debits.

(** The ledger object; [draws] counts the identifiers taken from
    [uuid.uuid4()] so far. *)
Record Ledger := mkLedger {
  accounts : dict Account;
  journal : dict JournalEntry;
  draws : nat
}.

Definition with_accounts (L : Ledger) (accts : dict Account) : Ledger :=
  mkLedger accts (journal L) (draws L).

Definition create_account (L : Ledger) (code name typ : string) : Ledger :=
  if dict_mem code (accounts L) then L
  else with_accounts L (dict_set code (mkAccount code name typ [] []) (accounts L)).

Definition SEED : list (string * string * string) :=
  [ ("1000", "Cash", "Asset");
    ("1010", "Bank", "Asset");
    ("1020", "Accounts Receivable", "Asset");
    ("1030", "Inventory", "Asset");
    ("1040", "Equipment", "Asset");
    ("1045", "Accumulated Depreciation", "Asset");
    ("2000", "Accounts Payable", "Liability");
    ("2100", "Wages Payable", "Liability");
    ("2200", "Bank Loan", "Liability");
    ("3000", "Equity", "Equity");
    ("4000", "Revenue", "Revenue");
    ("4100", "Sales Returns", "Revenue");
    ("5000", "COGS", "Expense");
    ("5100", "Wages Expense", "Expense");
    ("5200", "Rent & SG&A", "Expense");
    ("5300", "Depreciation Expense", "Expense");
    ("5400", "Interest Expense", "Expense");
    ("6000", "Tax Expense", "Expense") ].

Definition _seed_accounts (L : Ledger) : Ledger :=
  fold_left (fun L s => let '(code, name, typ) := s in create_account L code name typ)
    SEED L.

(** [Ledger()] *)
Definition new_ledger : Ledger := _seed_accounts (mkLedger [] [] 0).

Definition get_account (L : Ledger) (code : string) : result Account :=
  match dict_get code (accounts L) with
  | Some a => Ok a
  | None => Raise (KeyError code)
  end.

(** The loop of [post_entry]; a missing account raises at the line that
    names it, after the lines before it have been appended. *)
Fixpoint apply_lines (je_id : string) (ls : list EntryLine)
    (accts : dict Account) : result unit * dict Account :=
  match ls with
  | [] => (Ok tt, accts)
  | l :: rest =>
      match dict_get (account l) accts with
      | None => (Raise (KeyError (account l)), accts)
      | Some acct =>
          let acct' :=
            if is_debit l
            then mkAccount (code acct) (name acct) (type acct)
                   (debits acct ++ [(je_id, amount l)]) (credits acct)
            else mkAccount (code acct) (name acct) (type acct)
                   (debits acct) (credits acct ++ [(je_id, amount l)]) in
          apply_lines je_id rest (dict_set (account l) acct' accts)
      end
  end.

Definition str_int (n : Z) : string := NilZero.string_of_int (Z.to_int n).

Section Environment.
(** [date.today()], and the successive values of
    [str(uuid.uuid4())[:8]]. *)
Variable today : date.
Variable uuid4 : nat -> string.

Definition new_journal_entry (L : Ledger) (description : string)
    (lines : list EntryLine) : result JournalEntry * Ledger :=
  if existsb (fun l => amount l <=? 0) lines
  then (Raise (ValueError "All line amounts must be positive"), L)
  else
    let deb := py_sum (map amount (filter is_debit lines)) (D 0) in
    let cre := py_sum (map amount (filter (fun l => negb (is_debit l)) lines)) (D 0) in
    if negb (deb =? cre)
    then (Raise (ValueError "Journal entry unbalanced"), L)
    else
      let je := mkJournalEntry (uuid4 (draws L)) today description lines false in
      (Ok je, mkLedger (accounts L) (dict_set (id je) je (journal L)) (S (draws L))).

Definition post_entry (L : Ledger) (je_id : string)
  : result JournalEntry * Ledger :=
  match dict_get je_id (journal L) with
  | None => (Raise (KeyError "Journal entry not found"), L)
  | Some je =>
      if posted je then (Raise (ValueError "Entry already posted"), L)
      else
        let (r, accts) := apply_lines (id je) (lines je) (accounts L) in
        match r with
        | Raise e => (Raise e, with_accounts L accts)
        | Ok _ =>
            let je' := mkJournalEntry (id je) (entry_date je) (description je)
                         (lines je) true in
            (Ok je', mkLedger accts (dict_set je_id je' (journal L)) (draws L))
        end
  end.

Definition post_transaction (L : Ledger) (description : string)
    (lines : list EntryLine) : result JournalEntry * Ledger :=
  match new_journal_entry L description lines with
  | (Raise e, L') => (Raise e, L')
  | (Ok je, L') => post_entry L' (id je)
  end.

(** The loop of [close_books] over the expense accounts. *)
Fixpoint close_expenses (L : Ledger) (items : list (string * Account))
  : result unit * Ledger :=
  match items with
  | [] => (Ok tt, L)
  | (code, snapshot) :: rest =>
      match dict_get code (accounts L) with
      | None => close_expenses L rest
      | Some acct =>
          if String.eqb (type acct) "Expense" then
            let amt := balance acct in
            if negb (amt =? D 0) then
              match post_transaction L ("Close Expense " ++ name acct)%string
                      [ mkEntryLine "3000" (D amt) true;
                        mkEntryLine code (D amt) false ] with
              | (Raise e, L') => (Raise e, L')
              | (Ok _, L') => close_expenses L' rest
              end
            else close_expenses L rest
          else close_expenses L rest
      end
  end.

Definition close_books (L : Ledger) : result Decimal * Ledger :=
  let total_revenue :=
    match dict_get "4000" (accounts L) with
    | Some a => balance a
    | None => D 0
    end in
  let total_expense :=
    fold_left (fun total kv =>
                 if String.eqb (type (snd kv)) "Expense"
                 then total + balance (snd kv) else total)
      (accounts L) (D 0) in
  let net_income := total_revenue - total_expense in
  let (r, L1) :=
    if negb (total_revenue =? D 0) then
      match post_transaction L "Close Revenue"
              [ mkEntryLine "4000" (D total_revenue) true;
                mkEntryLine "3000" (D total_revenue) false ] with
      | (Raise e, L') => (Raise e, L')
      | (Ok _, L') => (Ok tt, L')
      end
    else (Ok tt, L) in
  match r with
  | Raise e => (Raise e, L1)
  | Ok _ =>
      match close_expenses L1 (accounts L1) with
      | (Raise e, L2) => (Raise e, L2)
      | (Ok _, L2) => (Ok (D net_income), L2)
      end
  end.

Definition calculate_depreciation (L : Ledger)
    (equipment_account_code accum_depr_code depr_expense_code : string)
    (months life_years : Z) (salvage : Decimal) : result Decimal * Ledger :=
  match get_account L equipment_account_code with
  | Raise e => (Raise e, L)
  | Ok equip =>
      match get_account L accum_depr_code with
      | Raise e => (Raise e, L)
      | Ok accum =>
          let cost := if String.eqb (type equip) "Asset" then balance equip else D 0 in
          let total_cost := cost in
          let total_months := life_years * 12 in
          if total_months <=? 0
          then (Raise (ValueError "life_years must be > 0"), L)
          else
            let depreciable := total_cost - D salvage in
            if depreciable <=? D 0 then (Ok (D 0), L)
            else
              let monthly := divide_quantize depreciable total_months in
              let amt := monthly * months in
              if amt >? D 0 then
                match post_transaction L
                        ("Depreciation for " ++ str_int months ++ " month(s)")%string
                        [ mkEntryLine depr_expense_code (D amt) true;
                          mkEntryLine accum_depr_code (D amt) false ] with
                | (Raise e, L') => (Raise e, L')
                | (Ok _, L') => (Ok (D amt), L')
                end
              else (Ok (D amt), L)
      end
  end.
End Environment.

(** *** [trial_balance] *)

Record TrialRow := mkTrialRow {
  row_code : string;
  row_name : string;
  row_type : string;
  row_debit : Decimal;
  row_credit : Decimal
}.

Definition trial_row (code : string) (acct : Account) : TrialRow :=
  let bal := balance acct in
  let (debit, credit) :=
    if debit_normal (type acct)
    then (if bal >=? 0 then (bal, D 0) else (D 0, - bal))
    else (if bal >=? 0 then (D 0, bal) else (- bal, D 0)) in
  mkTrialRow code (name acct) (type acct) (D debit) (D credit).

(** The rows follow [sorted(self.accounts.keys())]; a key of a dict names
    one account, so the rows are the items in the order of their keys. *)
Definition trial_balance (L : Ledger) : list TrialRow * Decimal * Decimal :=
  let rows :=
    map (fun kv => trial_row (fst kv) (snd kv))
      (sorted fst String.leb (accounts L)) in
  let total_debit := py_sum (map row_debit rows) (D 0) in
  let total_credit := py_sum (map row_credit rows) (D 0) in
  (rows, D total_debit, D total_credit).

(** *** [t_accounts_report], [balance_sheet], [income_statement] *)

Definition t_accounts_report (L : Ledger)
  : list (Account * list (string * Decimal) * list (string * Decimal) * Decimal) :=
  map (fun kv => let acct := snd kv in (acct, debits acct, credits acct, balance acct))
    (sorted fst String.leb (accounts L)).

Definition SheetLine : Type := string * string * Decimal.

Definition sheet_step (acc : list SheetLine * list SheetLine * list SheetLine)
    (acct : Account) : list SheetLine * list SheetLine * list SheetLine :=
  let '(assets, liabilities, equity) := acc in
  let bal := balance acct in
  if String.eqb (type acct) "Asset"
  then (assets ++ [(code acct, name acct, bal)], liabilities, equity)
  else if String.eqb (type acct) "Liability"
  then (assets, liabilities ++ [(code acct, name acct, bal)], equity)
  else if String.eqb (type acct) "Equity"
  then (assets, liabilities, equity ++ [(code acct, name acct, bal)])
  else acc.

Definition balance_sheet (L : Ledger)
  : list SheetLine * list SheetLine * list SheetLine :=
  fold_left sheet_step (dict_values (accounts L)) ([], [], []).

Record IncomeStatement := mkIncomeStatement {
  revenue : Decimal;
  cogs : Decimal;
  gross_profit : Decimal;
  wages : Decimal;
  sga : Decimal;
  depreciation : Decimal;
  ebit : Decimal;
  interest : Decimal;
  tax : Decimal;
  net_income : Decimal
}.

(** [self.accounts[c].balance() if c in self.accounts else D('0.00')] *)
Definition balance_or_zero (L : Ledger) (c : string) : Decimal :=
  match dict_get c (accounts L) with
  | Some a => balance a
  | None => D 0
  end.

(** The first assignments to [revenue] and [cogs] are overwritten by the
    look-ups by code before they are read. *)
Definition income_statement (L : Ledger) : IncomeStatement :=
  let revenue :=
    py_sum (map balance
              (filter (fun a => String.eqb (type a) "Revenue") (dict_values (accounts L))))
      (D 0) in
  let cogs :=
    fold_left (fun cogs kv =>
                 if String.eqb (type (snd kv)) "Expense"
                    && String.eqb (name (snd kv)) "COGS"
                 then cogs + balance (snd kv) else cogs)
      (accounts L) (D 0) in
  let revenue := balance_or_zero L "4000" in
  let cogs := balance_or_zero L "5000" in
  let wages := balance_or_zero L "5100" in
  let sga := balance_or_zero L "5200" in
  let depreciation := balance_or_zero L "5300" in
  let interest := balance_or_zero L "5400" in
  let tax := balance_or_zero L "6000" in
  let gross_profit := revenue - cogs in
  let sg_and_a := wages + sga in
  let ebit := gross_profit - sg_and_a - depreciation in
  let pre_tax := ebit - interest in
  let net_income := pre_tax - tax in
  mkIncomeStatement (D revenue) (D cogs) (D gross_profit) (D wages) (D sga)
    (D depreciation) (D ebit) (D interest) (D tax) (D net_income).

End DoubleEntry.

(** * Vocabulary of the statements *)

(** The sum of a list of amounts. *)
Definition sigma (l : list Decimal) : Decimal := fold_right Z.add 0 l.

(** The credit-normal account types of the data model. *)
Definition credit_normal_type (t : AccountType) : bool :=
  match t with
  | Liability | Equity | Revenue => true
  | Asset | Expense => false
  end.

(** [Σdebits − Σcredits], negated for a credit-normal account. *)
Definition signed (flip : bool) (total_debits total_credits : Decimal) : Decimal :=
  if flip then - (total_debits - total_credits) else total_debits - total_credits.

Module ModelsHistory.
Import Models.

Definition debited (cs : list call) : Decimal :=
  sigma (flat_map (fun c => match c with Debit x => [x] | Credit _ => [] end) cs).

Definition credited (cs : list call) : Decimal :=
  sigma (flat_map (fun c => match c with Debit _ => [] | Credit x => [x] end) cs).
End ModelsHistory.

Module AppHistory.
Import App.

(** A history of calls on one account of [app.py]. *)
Inductive call :=
| Debit (amount : Decimal) (description : string) (when : option date)
| Credit (amount : Decimal) (description : string) (when : option date).

Definition apply_call (today : date) (a : Account) (c : call) : Account :=
  match c with
  | Debit amt d w => snd (debit today a amt d w)
  | Credit amt d w => snd (credit today a amt d w)
  end.

Definition debited (cs : list call) : Decimal :=
  sigma (flat_map (fun c => match c with Debit x _ _ => [x] | Credit _ _ _ => [] end) cs).

Definition credited (cs : list call) : Decimal :=
  sigma (flat_map (fun c => match c with Debit _ _ _ => [] | Credit x _ _ => [x] end) cs).
End AppHistory.

(** Concrete inputs used in examples. *)
Definition day0 : date := mkdate 2024 1 1.

Definition ids (n : nat) : string := DoubleEntry.str_int (Z.of_nat n).

Definition month_year (fmt : string) (d : date) : string :=
  (fmt ++ " " ++ App.storage.isoformat d)%string.

Definition models_cash : Models.Account := Models.mkAccount "Cash" Asset [] [].

Definition app_cash : App.Account :=
  App.mkAccount "Cash" Asset "Current Assets" [] [] day0.

(** Totals of the debit lines and of the credit lines of an entry. *)
Definition debit_total (lines : list DoubleEntry.EntryLine) : Decimal :=
  sigma (map DoubleEntry.amount (filter DoubleEntry.is_debit lines)).

Definition credit_total (lines : list DoubleEntry.EntryLine) : Decimal :=
  sigma (map DoubleEntry.amount
           (filter (fun l => negb (DoubleEntry.is_debit l)) lines)).

(** The seeded chart of [app.py] and the state of a first run. *)
Definition app_seed (today : date) : dict App.Account :=
  match App.initial_accounts today with Ok a => a | Raise _ => [] end.

Definition app_world0 (today : date) : App.World :=
  App.mkWorld (app_seed today) [] App.storage.Missing.

(** States of [app.py] reached from the seeded chart by successful calls of
    [post_transaction] and [calculate_depreciation]. *)
Inductive app_reachable (strftime : string -> date -> string) : App.World -> Prop :=
| app_reach_seed today :
    app_reachable strftime (app_world0 today)
| app_reach_post today debits credits description when w tx w' :
    app_reachable strftime w ->
    App.post_transaction today debits credits description when w = (Ok tx, w') ->
    app_reachable strftime w'
| app_reach_depreciation today as_of_date w w' :
    app_reachable strftime w ->
    App.calculate_depreciation today strftime as_of_date w = (Ok tt, w') ->
    app_reachable strftime w'.

(** States of a [Ledger] reached from the seeded chart by [create_account]
    and by successful calls of [new_journal_entry] and [post_entry]
    ([post_transaction] is one of each). *)
Inductive ledger_reachable (uuid4 : nat -> string) : DoubleEntry.Ledger -> Prop :=
| ledger_reach_seed :
    ledger_reachable uuid4 DoubleEntry.new_ledger
| ledger_reach_create L code name typ :
    ledger_reachable uuid4 L ->
    ledger_reachable uuid4 (DoubleEntry.create_account L code name typ)
| ledger_reach_new today L description lines je L' :
    ledger_reachable uuid4 L ->
    DoubleEntry.new_journal_entry today uuid4 L description lines = (Ok je, L') ->
    ledger_reachable uuid4 L'
| ledger_reach_post L je_id je L' :
    ledger_reachable uuid4 L ->
    DoubleEntry.post_entry L je_id = (Ok je, L') ->
    ledger_reachable uuid4 L'.

(** An entry date falls under an optional cut-off date. *)
Definition under (cut : option date) (d : date) : bool :=
  match cut with Some c => date_leb d c | None => true end.

(** Debits minus credits of an account of [app.py], over the entries dated
    under the cut-off. *)
Definition app_net (cut : option date) (a : App.Account) : Decimal :=
  sigma (map App.amount (filter (fun e => under cut (App.entry_date e)) (App.debits a)))
  - sigma (map App.amount (filter (fun e => under cut (App.entry_date e)) (App.credits a))).

(** Debits minus credits of an account of [double_entry.py]. *)
Definition ledger_net (a : DoubleEntry.Account) : Decimal :=
  sigma (map snd (DoubleEntry.debits a)) - sigma (map snd (DoubleEntry.credits a)).

(** A date lies within optional inclusive bounds. *)
Definition within (start_date end_date : option date) (d : date) : bool :=
  match start_date with Some s => date_leb s d | None => true end
  && match end_date with Some e => date_leb d e | None => true end.

(** Two elements are in the order of their keys. *)
Definition key_le {A K : Type} (key : A -> K) (leb : K -> K -> bool) (x y : A) : Prop :=
  leb (key x) (key y) = true.

(** The double-entry invariant of [app.py]: under every cut-off date the
    debits and the credits of all accounts sum to the same amount. *)
Definition app_double_entry (accounts : dict App.Account) : Prop :=
  forall cut : option date, sigma (map (app_net cut) (dict_values accounts)) = 0.

(** The double-entry invariant of a [Ledger]: debits and credits of all
    accounts sum to the same amount, and every journal entry is balanced. *)
Definition ledger_double_entry (L : DoubleEntry.Ledger) : Prop :=
  sigma (map ledger_net (dict_values (DoubleEntry.accounts L))) = 0
  /\ forall je, In je (dict_values (DoubleEntry.journal L)) ->
                debit_total (DoubleEntry.lines je) = credit_total (DoubleEntry.lines je).

(** A first posting on each seeded ledger, used in examples. *)
Definition app_world1 : App.World :=
  snd (App.post_transaction day0 [("Cash", 2000000)] [("Owner's Equity", 2000000)]
         "Owner investment" None (app_world0 day0)).

Definition ledger1 : DoubleEntry.Ledger :=
  snd (DoubleEntry.post_transaction day0 ids DoubleEntry.new_ledger
         "Owner investment"
         [ DoubleEntry.mkEntryLine "1000" 200000000 true;
           DoubleEntry.mkEntryLine "3000" 200000000 false ]).

(** The seeded ledgers after a purchase of equipment for 8000.00. *)
Definition app_world_equipment : App.World :=
  snd (App.post_transaction day0 [("Equipment", 800000)] [("Cash", 800000)]
         "Buy equipment with cash" None (app_world0 day0)).

Definition ledger_equipment (cost : Decimal) : DoubleEntry.Ledger :=
  snd (DoubleEntry.post_transaction day0 ids DoubleEntry.new_ledger
         "Buy equipment with cash"
         [ DoubleEntry.mkEntryLine "1040" cost true;
           DoubleEntry.mkEntryLine "1000" cost false ]).

(** The monthly amount as the specification words it, in the unit of
    [double_entry.py]: the balance over 5, rounded to the cent, and that
    over 12, rounded to the cent. *)
Definition spec_monthly_depreciation (balance : Decimal) : Decimal :=
  DoubleEntry.divide_quantize (DoubleEntry.divide_quantize balance 5) 12.

(** The lines of a history of calls on an account of [app.py], in the order
    of the calls. *)
Definition lines_in_call_order (today : date) (cs : list AppHistory.call)
  : list App.Line :=
  map (fun c =>
         match c with
         | AppHistory.Debit amt d w => App.debit_line (App.mkEntry amt d (date_or w today))
         | AppHistory.Credit amt d w => App.credit_line (App.mkEntry amt d (date_or w today))
         end) cs.

(** A credit followed by a debit on the same day. *)
Definition same_day_calls : list AppHistory.call :=
  [ AppHistory.Credit 50000 "paid out" (Some day0);
    AppHistory.Debit 30000 "received" (Some day0) ].

Definition same_day_account : App.Account :=
  fold_left (AppHistory.apply_call day0) same_day_calls app_cash.

(** The chart of a [Ledger]: codes name one account each, 3000 is the
    equity account and 4000 the revenue account. *)
Definition ledger_chart_ok (L : DoubleEntry.Ledger) : Prop :=
  NoDup (dict_keys (DoubleEntry.accounts L))
  /\ (exists equity, dict_get "3000" (DoubleEntry.accounts L) = Some equity
                     /\ DoubleEntry.type equity = "Equity")
  /\ (exists revenue, dict_get "4000" (DoubleEntry.accounts L) = Some revenue
                      /\ DoubleEntry.type revenue = "Revenue").

Definition is_expense (a : DoubleEntry.Account) : bool :=
  String.eqb (DoubleEntry.type a) "Expense".

(** The balance of the account under a code; 0 when there is none. *)
Definition balance_of (accts : dict DoubleEntry.Account) (code : string) : Decimal :=
  match dict_get code accts with
  | Some a => DoubleEntry.balance a
  | None => 0
  end.

(** The balance under a code when it names an expense account, else 0. *)
Definition expense_of (accts : dict DoubleEntry.Account) (code : string) : Decimal :=
  match dict_get code accts with
  | Some a => if is_expense a then DoubleEntry.balance a else 0
  | None => 0
  end.

(** The total of the balances of the expense accounts. *)
Definition expense_total (accts : dict DoubleEntry.Account) : Decimal :=
  sigma (map DoubleEntry.balance (filter is_expense (dict_values accts))).

(** An amount of [double_entry.py] in whole cents: [D] leaves it as it is. *)
Definition whole_cents (x : Decimal) : Prop := DoubleEntry.D x = x.

(** Every amount that the accounts of the ledger hold is in whole cents, as
    the amounts are that the console reads with [input_decimal]. *)
Definition ledger_whole_cents (L : DoubleEntry.Ledger) : Prop :=
  Forall (fun a => Forall (fun e => whole_cents (snd e))
                     (DoubleEntry.debits a ++ DoubleEntry.credits a))
    (dict_values (DoubleEntry.accounts L)).

(** The test of a non-negative amount in whole cents. *)
Definition in_cents (x : Decimal) : bool := (0 <=? x) && (DoubleEntry.D x =? x).

(** Every expense account and account 4000 have a non-negative balance in
    whole cents. *)
Definition closable (L : DoubleEntry.Ledger) : Prop :=
  (0 <= balance_of (DoubleEntry.accounts L) "4000"
   /\ whole_cents (balance_of (DoubleEntry.accounts L) "4000"))
  /\ forall code, 0 <= expense_of (DoubleEntry.accounts L) code
                  /\ whole_cents (expense_of (DoubleEntry.accounts L) code).

(** The demonstration scenario: capital, wages, a sale, cost of goods. *)
Definition ledger_demo : DoubleEntry.Ledger :=
  let post L description lines :=
    snd (DoubleEntry.post_transaction day0 ids L description lines) in
  let L := post DoubleEntry.new_ledger "Owner invests capital"
             [ DoubleEntry.mkEntryLine "1000" 200000000 true;
               DoubleEntry.mkEntryLine "3000" 200000000 false ] in
  let L := post L "Accrue wages"
             [ DoubleEntry.mkEntryLine "5100" 12000000 true;
               DoubleEntry.mkEntryLine "2100" 12000000 false ] in
  let L := post L "Sale on credit"
             [ DoubleEntry.mkEntryLine "1020" 60000000 true;
               DoubleEntry.mkEntryLine "4000" 60000000 false ] in
  post L "Record COGS"
    [ DoubleEntry.mkEntryLine "5000" 25000000 true;
      DoubleEntry.mkEntryLine "1030" 25000000 false ].

(** A seeded ledger with 100.00 credited to Sales Returns (4100). *)
Definition ledger_returns : DoubleEntry.Ledger :=
  snd (DoubleEntry.post_transaction day0 ids DoubleEntry.new_ledger "Other income"
         [ DoubleEntry.mkEntryLine "1000" 1000000 true;
           DoubleEntry.mkEntryLine "4100" 1000000 false ]).

(** A seeded ledger with a sale of 0.005 for cash. *)
Definition ledger_half_cent_sale : DoubleEntry.Ledger :=
  snd (DoubleEntry.post_transaction day0 ids DoubleEntry.new_ledger "Sale"
         [ DoubleEntry.mkEntryLine "1000" 50 true;
           DoubleEntry.mkEntryLine "4000" 50 false ]).

(** An account after one more debit, or one more credit, of a journal entry. *)
Definition debited (je_id : string) (amt : Decimal) (a : DoubleEntry.Account)
  : DoubleEntry.Account :=
  DoubleEntry.mkAccount (DoubleEntry.code a) (DoubleEntry.name a) (DoubleEntry.type a)
    (DoubleEntry.debits a ++ [(je_id, amt)]) (DoubleEntry.credits a).

Definition credited (je_id : string) (amt : Decimal) (a : DoubleEntry.Account)
  : DoubleEntry.Account :=
  DoubleEntry.mkAccount (DoubleEntry.code a) (DoubleEntry.name a) (DoubleEntry.type a)
    (DoubleEntry.debits a) (DoubleEntry.credits a ++ [(je_id, amt)]).

(** An account as [load_data] rebuilds it: the same name, type, category and
    entries, created on the day of the load. *)
Definition reloaded (today : date) (a : App.Account) : App.Account :=
  App.mkAccount (App.name a) (App.type a) (App.category a)
    (App.debits a) (App.credits a) today.


(** Every entry of the account carries a calendar date. *)
Definition dates_valid (a : App.Account) : Prop :=
  Forall (fun e => App.storage.valid_date (App.entry_date e) = true)
    (App.debits a ++ App.credits a).

(** A record of the history with a [Decimal] amount and a calendar date, as
    [post_transaction] builds it and as [load_data] leaves it. *)
Definition history_ok (tx : pyobj) : Prop :=
  exists fields d w,
    tx = PDict fields
    /\ dict_get "amount" fields = Some (PDecimal d)
    /\ dict_get "date" fields = Some (PDate w)
    /\ App.storage.valid_date w = true.

(** The application of a function to the values of a dictionary. *)
Definition dict_map {V W : Type} (f : V -> W) (d : dict V) : dict W :=
  map (fun kv => (fst kv, f (snd kv))) d.

(** A state of [app.py] that [storage] can save and load back: names key one
    account each, entries carry calendar dates, and the history holds
    records with a [Decimal] amount and a calendar date. *)
Definition world_ok (w : App.World) : Prop :=
  NoDup (dict_keys (App.accounts w))
  /\ Forall dates_valid (dict_values (App.accounts w))
  /\ Forall history_ok (App.transactions w).

(** A data file that gives [load_data] no accounts: there is no file, the
    file is text that is not JSON, or the top-level value of the document
    has no ["accounts"] entry.  A file that is not text is not among them:
    its [UnicodeDecodeError] leaves [load_data]. *)
Definition unusable (f : App.storage.file_state) : Prop :=
  match f with
  | App.storage.Missing => True
  | App.storage.Garbled => True
  | App.storage.Undecodable => False
  | App.storage.Document (PDict items) => dict_get "accounts" items = None
  | App.storage.Document _ => True
  end.

(** The history record that [post_transaction] builds. *)
Definition posted_record (id : Z) (tx_date : date) (description : string)
    (debits credits : dict Decimal) : pyobj :=
  PDict [ ("id", PInt id);
          ("date", PDate tx_date);
          ("description", PStr description);
          ("amount", PDecimal (py_sum (dict_values debits) 0));
          ("debit_entries", App.line_items debits);
          ("credit_entries", App.line_items credits) ].

(** The lines of a history record after [encode]: the amounts are the
    strings that the encoder writes. *)
Definition line_items_loaded (lines : dict Decimal) : pyobj :=
  PList (map (fun kv => PDict [("account", PStr (fst kv));
                               ("amount", PStr (App.storage.str_decimal (snd kv)))])
           lines).

(** A line of a history record as [load_data] leaves it: the amount is
    still a string, and that string denotes the amount of the line. *)
Definition loaded_line (kv : string * Decimal) (item : pyobj) : Prop :=
  exists s,
    item = PDict [("account", PStr (fst kv)); ("amount", PStr s)]
    /\ App.storage.to_Decimal (PStr s) = Ok (snd kv).

(** The entries that the lines naming [name] append to that account. *)
Definition entries_for (name : string) (lines : dict Decimal)
    (description : string) (d : date) : list App.Entry :=
  map (fun kv => App.mkEntry (snd kv) description d)
    (filter (fun kv => String.eqb (fst kv) name) lines).

(** The ["id"] of a history record. *)
Definition subscript_id (tx : pyobj) : option Z :=
  match tx with
  | PDict items =>
      match dict_get "id" items with
      | Some (PInt n) => Some n
      | _ => None
      end
  | _ => None
  end.

(** Successive calls of [calculate_depreciation], one per cut-off date of
    the list, as the reports page makes them. *)
Fixpoint depreciations (today : date) (strftime : string -> date -> string)
    (dates : list (option date)) (w : App.World) : result unit * App.World :=
  match dates with
  | [] => (Ok tt, w)
  | d :: rest =>
      match App.calculate_depreciation today strftime d w with
      | (Ok _, w1) => depreciations today strftime rest w1
      | (Raise e, w1) => (Raise e, w1)
      end
  end.

(** The monthly amount that [calculate_depreciation] takes from a balance. *)
Definition monthly_of (equipment_cost : Decimal) : Decimal :=
  round_half_even (round_half_even equipment_cost 5) 12.

(** A chart with Equipment and Depreciation Expense but without Accumulated
    Depreciation. *)
Definition world_without_accumulated : App.World :=
  App.mkWorld
    [ ("Equipment",
       App.mkAccount "Equipment" Asset "Fixed Assets"
         [App.mkEntry 800000 "Buy equipment with cash" day0] [] day0);
      ("Depreciation Expense",
       App.mkAccount "Depreciation Expense" Expense "Operating Expenses" [] [] day0) ]
    [] App.storage.Missing.

(** The row of the trial balance of [app.py] for one account, read from its
    debits minus credits under the cut-off. *)
Definition app_row (cut : option date) (a : App.Account) : App.TrialRow :=
  App.mkTrialRow (App.name a) (type_name (App.type a)) (App.category a)
    (Z.max (app_net cut a) 0) (Z.max (- app_net cut a) 0).

(** The row of [Ledger.trial_balance] for one account: the two columns
    are rounded to the cent. *)
Definition ledger_row (kv : string * DoubleEntry.Account) : DoubleEntry.TrialRow :=
  DoubleEntry.mkTrialRow (fst kv) (DoubleEntry.name (snd kv))
    (DoubleEntry.type (snd kv))
    (DoubleEntry.D (Z.max (ledger_net (snd kv)) 0))
    (DoubleEntry.D (Z.max (- ledger_net (snd kv)) 0)).

(** Two debits of half a cent against a credit of one cent, posted on the
    seeded ledger. *)
Definition ledger_half_cents : DoubleEntry.Ledger :=
  snd (DoubleEntry.post_transaction day0 ids DoubleEntry.new_ledger "Half cents"
         [ DoubleEntry.mkEntryLine "1000" 50 true;
           DoubleEntry.mkEntryLine "1010" 50 true;
           DoubleEntry.mkEntryLine "3000" 100 false ]).

(** Debits minus credits of an account of [app.py], over the entries dated
    within a period. *)
Definition app_period_net (start_date end_date : option date) (a : App.Account)
  : Decimal :=
  sigma (map App.amount
           (filter (fun e => within start_date end_date (App.entry_date e))
              (App.debits a)))
  - sigma (map App.amount
             (filter (fun e => within start_date end_date (App.entry_date e))
                (App.credits a))).

(** Selecting the accounts of one type, and those in one category. *)
Definition has_type (kind : AccountType) (a : App.Account) : bool :=
  String.eqb (type_name (App.type a)) (type_name kind).

Definition in_category (c : string) (a : App.Account) : bool :=
  String.eqb (App.category a) c.

(** The sections that [balance_sheet] opens for the accounts of a type. *)
Definition sheet_sections (t : AccountType) : list string :=
  match t with
  | Asset => ["Current Assets"; "Fixed Assets"; "Other Assets"]
  | Liability => ["Current Liabilities"; "Long Term Liabilities"]
  | Equity => ["Owner's Equity"; "Retained Earnings"]
  | Revenue | Expense => []
  end.

(** The account has a place on the balance sheet: it is a revenue or
    expense account, which the sheet does not list, or its category is one
    of the sections of its type. *)
Definition filed (a : App.Account) : bool :=
  match App.type a with
  | Revenue | Expense => true
  | t => existsb (String.eqb (App.category a)) (sheet_sections t)
  end.

(** The seeded chart with two more accounts, each in a category of its
    own: an asset account and, after it, a liability account. *)
Definition app_chart_goodwill : dict App.Account :=
  dict_set "Deferred Tax"
    (App.mkAccount "Deferred Tax" Liability "Other Liabilities" [] [] day0)
    (dict_set "Goodwill"
       (App.mkAccount "Goodwill" Asset "Intangible Assets" [] [] day0)
       (app_seed day0)).

(** The first-run chart and every state reached from it keep the nineteen
    account names, and every account keeps its place on the balance sheet. *)
Definition chart_kept (accounts : dict App.Account) : Prop :=
  dict_keys accounts = dict_keys (app_seed day0)
  /\ Forall (fun a => filed a = true) (dict_values accounts).

(** The entries that posting the lines of a journal entry appends to the
    account under a code, on the debit side or on the credit side. *)
Definition ledger_entries_for (je_id code : string) (side : bool)
    (lines : list DoubleEntry.EntryLine) : list (string * Decimal) :=
  map (fun l => (je_id, DoubleEntry.amount l))
    (filter (fun l => String.eqb (DoubleEntry.account l) code
                      && Bool.eqb (DoubleEntry.is_debit l) side) lines).

(** The account under a code after the lines of a journal entry have been
    applied. *)
Definition ledger_posted (je_id code : string) (lines : list DoubleEntry.EntryLine)
    (a : DoubleEntry.Account) : DoubleEntry.Account :=
  DoubleEntry.mkAccount (DoubleEntry.code a) (DoubleEntry.name a) (DoubleEntry.type a)
    (DoubleEntry.debits a ++ ledger_entries_for je_id code true lines)
    (DoubleEntry.credits a ++ ledger_entries_for je_id code false lines).

(** An entry of two lines, recorded on the seeded ledger but not posted. *)
Definition ledger_recorded : DoubleEntry.Ledger :=
  snd (DoubleEntry.new_journal_entry day0 ids DoubleEntry.new_ledger "Owner investment"
         [ DoubleEntry.mkEntryLine "1000" 200000000 true;
           DoubleEntry.mkEntryLine "3000" 200000000 false ]).

(** Successive calls of [Ledger.calculate_depreciation] with its default
    arguments: equipment 1040, accumulated depreciation 1045, expense 5300,
    one month, a life of five years, no salvage value. *)
Fixpoint ledger_depreciations (today : date) (uuid4 : nat -> string) (n : nat)
    (L : DoubleEntry.Ledger) : result unit * DoubleEntry.Ledger :=
  match n with
  | O => (Ok tt, L)
  | S n' =>
      match DoubleEntry.calculate_depreciation today uuid4 L
              "1040" "1045" "5300" 1 5 0 with
      | (Ok _, L1) => ledger_depreciations today uuid4 n' L1
      | (Raise e, L1) => (Raise e, L1)
      end
  end.

(** The cost that [Ledger.calculate_depreciation] reads from the equipment
    account. *)
Definition equipment_cost (equip : DoubleEntry.Account) : Decimal :=
  if String.eqb (DoubleEntry.type equip) "Asset" then DoubleEntry.balance equip else 0.

(** The seeded ledger after a purchase of equipment for 8000.00 in cash, and
    the same ledger without the depreciation expense account: a chart of
    its own with accounts 1000, 1040 and 1045. *)
Definition ledger_machine : DoubleEntry.Ledger :=
  snd (DoubleEntry.post_transaction day0 ids DoubleEntry.new_ledger
         "Buy equipment with cash"
         [ DoubleEntry.mkEntryLine "1040" 80000000 true;
           DoubleEntry.mkEntryLine "1000" 80000000 false ]).

Definition ledger_no_expense : DoubleEntry.Ledger :=
  DoubleEntry.mkLedger
    [ ("1000", DoubleEntry.mkAccount "1000" "Cash" "Asset" [] [("0", 80000000)]);
      ("1040", DoubleEntry.mkAccount "1040" "Equipment" "Asset" [("0", 80000000)] []);
      ("1045", DoubleEntry.mkAccount "1045" "Accumulated Depreciation" "Asset" [] []) ]
    [] 1.

(** Selecting the accounts of a [Ledger] by type.  A type is any string:
    an account that is neither on the balance sheet nor an expense (a
    revenue account, or an account of a type of its own) counts as income. *)
Definition ledger_has_type (t : string) (a : DoubleEntry.Account) : bool :=
  String.eqb (DoubleEntry.type a) t.

Definition ledger_income_type (a : DoubleEntry.Account) : bool :=
  negb (ledger_has_type "Asset" a) && negb (ledger_has_type "Liability" a)
  && negb (ledger_has_type "Equity" a) && negb (ledger_has_type "Expense" a).

(** The line of [Ledger.balance_sheet] for an account, and the total of a
    side. *)
Definition sheet_line (a : DoubleEntry.Account) : DoubleEntry.SheetLine :=
  (DoubleEntry.code a, DoubleEntry.name a, DoubleEntry.balance a).

Definition side_total (rows : list DoubleEntry.SheetLine) : Decimal :=
  sigma (map snd rows).

(** The codes of a ledger with the type of each account, and the ledgers
    that have the seeded chart: the eighteen seeded codes, in order, with
    their seeded types. *)
Definition ledger_chart (L : DoubleEntry.Ledger) : list (string * string) :=
  map (fun kv => (fst kv, DoubleEntry.type (snd kv))) (DoubleEntry.accounts L).

Definition seeded_chart (L : DoubleEntry.Ledger) : Prop :=
  ledger_chart L = ledger_chart DoubleEntry.new_ledger.

(** Two ledgers with the same codes and the same type under every code. *)
Definition same_chart (L L' : DoubleEntry.Ledger) : Prop :=
  dict_keys (DoubleEntry.accounts L') = dict_keys (DoubleEntry.accounts L)
  /\ forall k, option_map DoubleEntry.type (dict_get k (DoubleEntry.accounts L'))
               = option_map DoubleEntry.type (dict_get k (DoubleEntry.accounts L)).

(** An income statement with 0 on every line. *)
Definition income_zero : DoubleEntry.IncomeStatement :=
  DoubleEntry.mkIncomeStatement 0 0 0 0 0 0 0 0 0 0.

(** A source of identifiers that draws the same one every time. *)
Definition same_id (n : nat) : string := "1f0c9a3e".

(** Capital paid in, and then a loan taken, posted with that source. *)
Definition ledger_first : DoubleEntry.Ledger :=
  snd (DoubleEntry.post_transaction day0 same_id DoubleEntry.new_ledger
         "Owner investment"
         [ DoubleEntry.mkEntryLine "1000" 200000000 true;
           DoubleEntry.mkEntryLine "3000" 200000000 false ]).

Definition ledger_collision : DoubleEntry.Ledger :=
  snd (DoubleEntry.post_transaction day0 same_id ledger_first
         "Bank loan taken"
         [ DoubleEntry.mkEntryLine "1000" 50000000 true;
           DoubleEntry.mkEntryLine "2200" 50000000 false ]).

(** * Properties *)

(** ** Sums *)

Lemma py_sum_start (xs : list Decimal) (s : Decimal) :
  py_sum xs s = s + sigma xs.
Proof.
  unfold py_sum. revert s.
  induction xs as [|x xs IH]; intros s; simpl.
  - lia.
  - rewrite IH. lia.
Qed.

Lemma py_sum_sigma (xs : list Decimal) : py_sum xs 0 = sigma xs.
Proof. rewrite py_sum_start. lia. Qed.

Lemma sigma_app (xs ys : list Decimal) : sigma (xs ++ ys) = sigma xs + sigma ys.
Proof. induction xs as [|x xs IH]; simpl; lia. Qed.

Lemma sigma_perm (xs ys : list Decimal) :
  Permutation xs ys -> sigma xs = sigma ys.
Proof. induction 1; simpl; lia. Qed.

Lemma credit_normal_type_spec (t : AccountType) :
  String.eqb (ACCOUNT_TYPES t) "credit" = credit_normal_type t.
Proof. destruct t; reflexivity. Qed.

(** ** Quantizing to cents ([D] of [double_entry.py]) *)

Lemma round_half_up_multiple (k d : Z) : 0 < d -> round_half_up (k * d) d = k.
Proof.
  intros Hd. unfold round_half_up.
  rewrite Z.div_mul, Z.mod_mul by lia.
  destruct (Z.ltb_spec (2 * 0) d); [reflexivity | lia].
Qed.

Lemma round_half_up_nonneg (n d : Z) : 0 < d -> 0 <= n -> 0 <= round_half_up n d.
Proof.
  intros Hd Hn. unfold round_half_up.
  pose proof (Z.div_pos n d Hn Hd).
  destruct (2 * (n mod d) <? d); [lia|].
  destruct (d <? 2 * (n mod d)); [lia|].
  destruct (0 <=? n); lia.
Qed.

Lemma D_zero : DoubleEntry.D 0 = 0.
Proof. reflexivity. Qed.

Lemma D_cents (k : Z) : DoubleEntry.D (k * DoubleEntry.CENT) = k * DoubleEntry.CENT.
Proof.
  unfold DoubleEntry.D, DoubleEntry.quantize.
  rewrite round_half_up_multiple by reflexivity. reflexivity.
Qed.

Lemma D_nonneg (x : Decimal) : 0 <= x -> 0 <= DoubleEntry.D x.
Proof.
  intros H. unfold DoubleEntry.D, DoubleEntry.quantize, DoubleEntry.CENT.
  pose proof (round_half_up_nonneg x 100 ltac:(lia) H). lia.
Qed.

Lemma whole_cents_iff (x : Decimal) : whole_cents x <-> x mod DoubleEntry.CENT = 0.
Proof.
  unfold whole_cents. split.
  - intros H. rewrite <- H. unfold DoubleEntry.D, DoubleEntry.quantize.
    apply Z.mod_mul. discriminate.
  - intros H. apply Z.div_exact in H; [|discriminate].
    rewrite H at 1. rewrite Z.mul_comm, D_cents. lia.
Qed.

Lemma whole_cents_D (x : Decimal) : whole_cents (DoubleEntry.D x).
Proof.
  unfold whole_cents at 1. unfold DoubleEntry.D at 2, DoubleEntry.quantize.
  apply D_cents.
Qed.

Lemma whole_cents_zero : whole_cents 0.
Proof. reflexivity. Qed.

Lemma whole_cents_add (x y : Decimal) :
  whole_cents x -> whole_cents y -> whole_cents (x + y).
Proof.
  rewrite !whole_cents_iff. unfold DoubleEntry.CENT. intros Hx Hy.
  rewrite Z.add_mod, Hx, Hy by lia. reflexivity.
Qed.

Lemma whole_cents_opp (x : Decimal) : whole_cents x -> whole_cents (- x).
Proof.
  rewrite !whole_cents_iff. unfold DoubleEntry.CENT. intros Hx.
  apply Z.mod_divide in Hx; [|lia]. apply Z.mod_divide; [lia|].
  apply Z.divide_opp_r. exact Hx.
Qed.

Lemma whole_cents_sub (x y : Decimal) :
  whole_cents x -> whole_cents y -> whole_cents (x - y).
Proof.
  intros Hx Hy. unfold Z.sub. apply whole_cents_add; [exact Hx|].
  apply whole_cents_opp. exact Hy.
Qed.

Lemma whole_cents_max (x : Decimal) : whole_cents x -> whole_cents (Z.max x 0).
Proof.
  intros H. destruct (Z.max_spec x 0) as [[_ ->]|[_ ->]];
    [apply whole_cents_zero | exact H].
Qed.

Lemma whole_cents_sigma (xs : list Decimal) :
  Forall whole_cents xs -> whole_cents (sigma xs).
Proof.
  induction 1 as [|x xs Hx _ IH]; [apply whole_cents_zero|].
  change (sigma (x :: xs)) with (x + sigma xs). apply whole_cents_add; assumption.
Qed.

(** ** Balances *)

Lemma models_balance_lists (a : Models.Account) :
  Models.balance a =
  signed (credit_normal_type (Models.type a))
    (sigma (Models.debits a)) (sigma (Models.credits a)).
Proof.
  unfold Models.balance, Models.raw_balance, Models.total_debit,
    Models.total_credit, signed.
  rewrite credit_normal_type_spec, !py_sum_sigma. reflexivity.
Qed.

Lemma models_history (cs : list Models.call) (a : Models.Account) :
  let a' := fold_left Models.apply_call cs a in
  Models.type a' = Models.type a
  /\ sigma (Models.debits a') = sigma (Models.debits a) + ModelsHistory.debited cs
  /\ sigma (Models.credits a') = sigma (Models.credits a) + ModelsHistory.credited cs.
Proof.
  revert a. induction cs as [|c cs IH]; intros a; simpl.
  - unfold ModelsHistory.debited, ModelsHistory.credited. simpl.
    repeat split; lia.
  - destruct (IH (Models.apply_call a c)) as (Ht & Hd & Hc).
    rewrite Ht, Hd, Hc.
    unfold ModelsHistory.debited, ModelsHistory.credited.
    destruct c; simpl; rewrite ?sigma_app; simpl; repeat split; try reflexivity; lia.
Qed.

Lemma app_balance_lists (a : App.Account) :
  App.balance a =
  signed (credit_normal_type (App.type a))
    (sigma (map App.amount (App.debits a)))
    (sigma (map App.amount (App.credits a))).
Proof.
  unfold App.balance, App.total_debit, App.total_credit, signed.
  rewrite credit_normal_type_spec, !py_sum_sigma. reflexivity.
Qed.

Lemma app_history (today : date) (cs : list AppHistory.call) (a : App.Account) :
  let a' := fold_left (AppHistory.apply_call today) cs a in
  App.type a' = App.type a
  /\ sigma (map App.amount (App.debits a'))
     = sigma (map App.amount (App.debits a)) + AppHistory.debited cs
  /\ sigma (map App.amount (App.credits a'))
     = sigma (map App.amount (App.credits a)) + AppHistory.credited cs.
Proof.
  revert a. induction cs as [|c cs IH]; intros a; simpl.
  - unfold AppHistory.debited, AppHistory.credited. simpl.
    repeat split; lia.
  - destruct (IH (AppHistory.apply_call today a c)) as (Ht & Hd & Hc).
    rewrite Ht, Hd, Hc.
    unfold AppHistory.debited, AppHistory.credited.
    destruct c; simpl; rewrite ?map_app, ?sigma_app; simpl; repeat split;
      try reflexivity; lia.
Qed.

Lemma ledger_balance_lists (a : DoubleEntry.Account) :
  DoubleEntry.balance a =
  signed (negb (DoubleEntry.debit_normal (DoubleEntry.type a)))
    (sigma (map snd (DoubleEntry.debits a)))
    (sigma (map snd (DoubleEntry.credits a))).
Proof.
  unfold DoubleEntry.balance, signed, DoubleEntry.D.
  rewrite !py_sum_sigma.
  destruct (DoubleEntry.debit_normal (DoubleEntry.type a)); simpl; lia.
Qed.

(** C3.  For each of the three account classes, [balance] is the sum of the
    stored debit amounts minus the sum of the stored credit amounts, negated
    exactly for the credit-normal types Liability, Equity and Revenue; it is
    determined by the type and the two entry lists, and after any history of
    debit and credit calls it is the signed sum of what the lists held plus
    what the calls appended. *)
Theorem C3_balance_is_signed_sum_of_entries :
  (forall (a : Models.Account) (cs : list Models.call),
      Models.balance (fold_left Models.apply_call cs a) =
      signed (credit_normal_type (Models.type a))
        (sigma (Models.debits a) + ModelsHistory.debited cs)
        (sigma (Models.credits a) + ModelsHistory.credited cs))
  /\ (forall (today : date) (a : App.Account) (cs : list AppHistory.call),
      App.balance (fold_left (AppHistory.apply_call today) cs a) =
      signed (credit_normal_type (App.type a))
        (sigma (map App.amount (App.debits a)) + AppHistory.debited cs)
        (sigma (map App.amount (App.credits a)) + AppHistory.credited cs))
  /\ (forall (a : DoubleEntry.Account),
      DoubleEntry.balance a =
      signed (negb (DoubleEntry.debit_normal (DoubleEntry.type a)))
        (sigma (map snd (DoubleEntry.debits a)))
        (sigma (map snd (DoubleEntry.credits a))))
  /\ (forall t : AccountType,
      negb (DoubleEntry.debit_normal (type_name t)) = credit_normal_type t).
Proof.
  split; [|split; [|split]].
  - intros a cs. rewrite models_balance_lists.
    destruct (models_history cs a) as (-> & -> & ->). reflexivity.
  - intros today a cs. rewrite app_balance_lists.
    destruct (app_history today cs a) as (-> & -> & ->). reflexivity.
  - apply ledger_balance_lists.
  - intros []; reflexivity.
Qed.

(** ** Account-level posting and validation *)

(** C6, as stated, fails: a debit of -5.00 and a credit of 0.00 return
    normally and are stored, in [models.py] and in [app.py]. *)
Lemma C6_debit_credit_accept_nonpositive :
  Models.debit models_cash (-500) "refund"
    = (Ok tt, Models.mkAccount "Cash" Asset [-500] [])
  /\ Models.credit models_cash 0 "nothing"
    = (Ok tt, Models.mkAccount "Cash" Asset [] [0])
  /\ App.debits (snd (App.debit day0 app_cash (-500) "refund" None))
    = [App.mkEntry (-500) "refund" day0]
  /\ fst (App.debit day0 app_cash (-500) "refund" None) = Ok tt
  /\ App.credits (snd (App.credit day0 app_cash 0 "nothing" None))
    = [App.mkEntry 0 "nothing" day0]
  /\ fst (App.credit day0 app_cash 0 "nothing" None) = Ok tt.
Proof. repeat split. Qed.

(** C6, amended.  For every amount <= 0, [Account.debit] and
    [Account.credit] return normally and append the amount to the debit or
    credit list (in [models.py] and in [app.py]); the check for a positive
    amount is the separate [Account.validate_transaction] of [models.py],
    which raises "Amount must be positive" and leaves the account as it
    was. *)
Theorem C6_nonpositive_amount_is_appended_and_only_validate_rejects
    (amount : Decimal) (description : string) (Hle : amount <= 0) :
  (forall a : Models.Account,
      Models.debit a amount description
        = (Ok tt, Models.mkAccount (Models.name a) (Models.type a)
                    (Models.debits a ++ [amount]) (Models.credits a))
      /\ Models.credit a amount description
        = (Ok tt, Models.mkAccount (Models.name a) (Models.type a)
                    (Models.debits a) (Models.credits a ++ [amount]))
      /\ forall is_debit,
          Models.validate_transaction a is_debit amount
          = (Raise (ValueError "Amount must be positive"), a))
  /\ (forall (today : date) (a : App.Account) (when : option date),
      fst (App.debit today a amount description when) = Ok tt
      /\ App.debits (snd (App.debit today a amount description when))
         = App.debits a ++ [App.mkEntry amount description (date_or when today)]
      /\ fst (App.credit today a amount description when) = Ok tt
      /\ App.credits (snd (App.credit today a amount description when))
         = App.credits a ++ [App.mkEntry amount description (date_or when today)]).
Proof.
  split.
  - intros a. repeat split.
    intros is_debit. unfold Models.validate_transaction.
    destruct (Z.leb_spec amount 0); [reflexivity | lia].
  - intros today a when. repeat split.
Qed.

Lemma C6_nonpositive_amount_witness :
  Models.validate_transaction models_cash true (-500)
  = (Raise (ValueError "Amount must be positive"), models_cash).
Proof.
  apply (C6_nonpositive_amount_is_appended_and_only_validate_rejects (-500) "refund").
  lia.
Defined.

(** ** Dictionaries *)

Section DictFacts.
Context {V : Type}.
Implicit Types (d : dict V) (k : string) (v : V).

Lemma dict_get_in_keys k d : In k (dict_keys d) <-> dict_get k d <> None.
Proof.
  induction d as [|[k' v'] d IH]; simpl.
  - split; [tauto | congruence].
  - destruct (String.eqb_spec k k') as [->|Hne].
    + split; [congruence | auto].
    + rewrite <- IH. split; [intros [?|?]; [congruence | assumption] | auto].
Qed.

Lemma dict_mem_in_keys k d : dict_mem k d = true <-> In k (dict_keys d).
Proof.
  rewrite dict_get_in_keys. unfold dict_mem.
  destruct (dict_get k d); split; congruence.
Qed.

Lemma dict_get_set_same k v d : dict_get k (dict_set k v d) = Some v.
Proof.
  induction d as [|[k' v'] d IH]; simpl.
  - rewrite String.eqb_refl. reflexivity.
  - destruct (String.eqb_spec k k') as [->|Hne]; simpl.
    + rewrite String.eqb_refl. reflexivity.
    + destruct (String.eqb_spec k k'); [contradiction | assumption].
Qed.

Lemma dict_get_set_other k k' v d :
  k' <> k -> dict_get k' (dict_set k v d) = dict_get k' d.
Proof.
  intros Hne. induction d as [|[k0 v0] d IH]; simpl.
  - destruct (String.eqb_spec k' k); [contradiction | reflexivity].
  - destruct (String.eqb_spec k k0) as [->|Hk]; simpl.
    + destruct (String.eqb_spec k' k0); [contradiction | reflexivity].
    + destruct (String.eqb_spec k' k0); [reflexivity | assumption].
Qed.

Lemma dict_keys_set_present k v d :
  dict_get k d <> None -> dict_keys (dict_set k v d) = dict_keys d.
Proof.
  induction d as [|[k0 v0] d IH]; simpl; intros H.
  - congruence.
  - destruct (String.eqb_spec k k0) as [->|Hk]; simpl.
    + reflexivity.
    + f_equal. apply IH. assumption.
Qed.

Lemma dict_keys_set_absent k v d :
  dict_get k d = None -> dict_keys (dict_set k v d) = dict_keys d ++ [k].
Proof.
  induction d as [|[k0 v0] d IH]; simpl; intros H.
  - reflexivity.
  - destruct (String.eqb_spec k k0) as [->|Hk]; simpl.
    + discriminate.
    + f_equal. apply IH. assumption.
Qed.

(** Replacing the value of a present key changes a sum over the values by
    the difference of the two summands. *)
Lemma sigma_dict_set (f : V -> Decimal) k v v0 d :
  dict_get k d = Some v0 ->
  sigma (map f (dict_values (dict_set k v d)))
  = sigma (map f (dict_values d)) + f v - f v0.
Proof.
  unfold dict_values.
  induction d as [|[k0 w] d IH]; simpl; intros H.
  - discriminate.
  - destruct (String.eqb_spec k k0) as [->|Hk]; simpl.
    + injection H as ->. lia.
    + rewrite IH by assumption. lia.
Qed.

Lemma sigma_dict_set_new (f : V -> Decimal) k v d :
  dict_get k d = None ->
  sigma (map f (dict_values (dict_set k v d)))
  = sigma (map f (dict_values d)) + f v.
Proof.
  unfold dict_values.
  induction d as [|[k0 w] d IH]; simpl; intros H.
  - lia.
  - destruct (String.eqb_spec k k0) as [->|Hk]; simpl.
    + discriminate.
    + rewrite IH by assumption. lia.
Qed.

Lemma dict_values_set_in k v d x :
  In x (dict_values (dict_set k v d)) -> x = v \/ In x (dict_values d).
Proof.
  induction d as [|[k0 w] d IH]; simpl.
  - intros [?|[]]; auto.
  - destruct (String.eqb_spec k k0) as [->|Hk]; simpl.
    + intros [?|?]; auto.
    + intros [?|?]; auto. destruct (IH H); auto.
Qed.

Lemma dict_get_in_values k v d : dict_get k d = Some v -> In v (dict_values d).
Proof.
  induction d as [|[k0 w] d IH]; simpl.
  - discriminate.
  - destruct (String.eqb_spec k k0) as [->|Hk].
    + intros [= ->]. auto.
    + auto.
Qed.
End DictFacts.

(** C10.  [create_account] with a code that is already a key of the account
    map returns without error and leaves the ledger as it was: the account
    under that code, with its debit and credit entries, is unchanged,
    whatever name and type are passed. *)
Theorem C10_create_account_keeps_existing_code
    (L : DoubleEntry.Ledger) (code name typ : string)
    (Hpresent : In code (dict_keys (DoubleEntry.accounts L))) :
  DoubleEntry.create_account L code name typ = L
  /\ dict_get code (DoubleEntry.accounts (DoubleEntry.create_account L code name typ))
     = dict_get code (DoubleEntry.accounts L).
Proof.
  assert (E : DoubleEntry.create_account L code name typ = L).
  { unfold DoubleEntry.create_account.
    apply dict_mem_in_keys in Hpresent. rewrite Hpresent. reflexivity. }
  rewrite E. split; reflexivity.
Qed.

Lemma C10_create_account_witness :
  DoubleEntry.create_account DoubleEntry.new_ledger "1000" "Petty cash" "Expense"
  = DoubleEntry.new_ledger.
Proof.
  apply (C10_create_account_keeps_existing_code
           DoubleEntry.new_ledger "1000" "Petty cash" "Expense").
  vm_compute. auto.
Defined.

(** ** Validation of an entry before posting *)

Lemma app_validate_empty (debits credits : dict Decimal) :
  debits = [] \/ credits = [] ->
  App.validate_transaction debits credits
  = Raise (ValueError "Both debit and credit entries are required").
Proof.
  unfold App.validate_transaction.
  intros [-> | ->]; [reflexivity|].
  destruct debits; reflexivity.
Qed.

Lemma app_validate_unbalanced (debits credits : dict Decimal) :
  debits <> [] -> credits <> [] ->
  sigma (dict_values debits) <> sigma (dict_values credits) ->
  App.validate_transaction debits credits
  = Raise (ValueError "Transaction not balanced").
Proof.
  unfold App.validate_transaction. intros Hd Hc Hne.
  destruct debits as [|x xs]; [contradiction|].
  destruct credits as [|y ys]; [contradiction|].
  cbn [App.is_empty orb]. rewrite !py_sum_sigma.
  destruct (Z.eqb_spec (sigma (dict_values (x :: xs))) (sigma (dict_values (y :: ys))));
    [contradiction | reflexivity].
Qed.

Lemma app_validate_ok (debits credits : dict Decimal) :
  App.validate_transaction debits credits = Ok tt <->
  debits <> [] /\ credits <> []
  /\ sigma (dict_values debits) = sigma (dict_values credits).
Proof.
  split.
  - intros H.
    destruct debits as [|x xs].
    { rewrite app_validate_empty in H by auto. discriminate. }
    destruct credits as [|y ys].
    { rewrite app_validate_empty in H by auto. discriminate. }
    repeat split; try discriminate.
    destruct (Z.eq_dec (sigma (dict_values (x :: xs))) (sigma (dict_values (y :: ys))))
      as [E|E]; [assumption|].
    rewrite app_validate_unbalanced in H by (assumption || discriminate).
    discriminate.
  - intros (Hd & Hc & E). unfold App.validate_transaction.
    destruct debits as [|x xs]; [contradiction|].
    destruct credits as [|y ys]; [contradiction|].
    cbn [App.is_empty orb]. rewrite !py_sum_sigma, E, Z.eqb_refl. reflexivity.
Qed.

Lemma app_post_rejected_unchanged (today : date) (debits credits : dict Decimal)
    (description : string) (when : option date) (w : App.World) (e : exn) :
  App.validate_transaction debits credits = Raise e ->
  App.post_transaction today debits credits description when w = (Raise e, w).
Proof. intros H. unfold App.post_transaction. rewrite H. reflexivity. Qed.

Lemma existsb_nonpositive (lines : list DoubleEntry.EntryLine) :
  existsb (fun l => DoubleEntry.amount l <=? 0) lines = false <->
  Forall (fun l => 0 < DoubleEntry.amount l) lines.
Proof.
  induction lines as [|l ls IH]; simpl.
  - split; auto.
  - rewrite orb_false_iff, IH. split.
    + intros [H1 H2]. constructor; [|assumption].
      apply Z.leb_gt. assumption.
    + intros H. inversion H; subst. split; [|assumption].
      apply Z.leb_gt. assumption.
Qed.

Lemma ledger_new_entry_ok (today : date) (uuid4 : nat -> string)
    (L : DoubleEntry.Ledger) (description : string)
    (lines : list DoubleEntry.EntryLine) :
  Forall (fun l => 0 < DoubleEntry.amount l) lines ->
  debit_total lines = credit_total lines ->
  DoubleEntry.new_journal_entry today uuid4 L description lines
  = (Ok (DoubleEntry.mkJournalEntry (uuid4 (DoubleEntry.draws L)) today
           description lines false),
     DoubleEntry.mkLedger (DoubleEntry.accounts L)
       (dict_set (uuid4 (DoubleEntry.draws L))
          (DoubleEntry.mkJournalEntry (uuid4 (DoubleEntry.draws L)) today
             description lines false)
          (DoubleEntry.journal L))
       (S (DoubleEntry.draws L))).
Proof.
  intros Hpos Hbal. unfold DoubleEntry.new_journal_entry.
  apply existsb_nonpositive in Hpos. rewrite Hpos.
  unfold DoubleEntry.D. rewrite !py_sum_sigma.
  unfold debit_total, credit_total in Hbal. rewrite Hbal, Z.eqb_refl.
  reflexivity.
Qed.

Lemma ledger_new_entry_nonpositive (today : date) (uuid4 : nat -> string)
    (L : DoubleEntry.Ledger) (description : string)
    (lines : list DoubleEntry.EntryLine) :
  Exists (fun l => DoubleEntry.amount l <= 0) lines ->
  DoubleEntry.new_journal_entry today uuid4 L description lines
  = (Raise (ValueError "All line amounts must be positive"), L).
Proof.
  intros Hex. unfold DoubleEntry.new_journal_entry.
  assert (E : existsb (fun l => DoubleEntry.amount l <=? 0) lines = true).
  { apply existsb_exists. apply Exists_exists in Hex.
    destruct Hex as (l & Hin & Hle). exists l. split; [assumption|].
    apply Z.leb_le. assumption. }
  rewrite E. reflexivity.
Qed.

Lemma ledger_new_entry_unbalanced (today : date) (uuid4 : nat -> string)
    (L : DoubleEntry.Ledger) (description : string)
    (lines : list DoubleEntry.EntryLine) :
  Forall (fun l => 0 < DoubleEntry.amount l) lines ->
  debit_total lines <> credit_total lines ->
  DoubleEntry.new_journal_entry today uuid4 L description lines
  = (Raise (ValueError "Journal entry unbalanced"), L).
Proof.
  intros Hpos Hne. unfold DoubleEntry.new_journal_entry.
  apply existsb_nonpositive in Hpos. rewrite Hpos.
  unfold DoubleEntry.D. rewrite !py_sum_sigma.
  unfold debit_total, credit_total in Hne.
  match goal with |- context [?a =? ?b] => destruct (Z.eqb_spec a b) end;
    [contradiction | reflexivity].
Qed.

Lemma sigma_positive (xs : list Decimal) :
  xs <> [] -> Forall (fun x => 0 < x) xs -> 0 < sigma xs.
Proof.
  intros Hne H. induction H as [|x xs Hx Hxs IH]; [contradiction|].
  simpl. destruct xs as [|y ys]; simpl in *; [lia|].
  assert (0 < y + sigma ys) by (apply IH; discriminate). lia.
Qed.

Lemma totals_partition (lines : list DoubleEntry.EntryLine) :
  debit_total lines + credit_total lines = sigma (map DoubleEntry.amount lines).
Proof.
  unfold debit_total, credit_total.
  induction lines as [|l ls IH]; simpl; [reflexivity|].
  destruct (DoubleEntry.is_debit l); simpl; lia.
Qed.

Lemma one_sided_unbalanced (lines : list DoubleEntry.EntryLine) :
  lines <> [] ->
  Forall (fun l => 0 < DoubleEntry.amount l) lines ->
  filter DoubleEntry.is_debit lines = []
  \/ filter (fun l => negb (DoubleEntry.is_debit l)) lines = [] ->
  debit_total lines <> credit_total lines.
Proof.
  intros Hne Hpos Hside.
  assert (Hsum : 0 < sigma (map DoubleEntry.amount lines)).
  { apply sigma_positive.
    - destruct lines; [contradiction | discriminate].
    - apply Forall_map. assumption. }
  rewrite <- totals_partition in Hsum.
  unfold debit_total, credit_total in *.
  destruct Hside as [E|E]; rewrite E in *; simpl in *; lia.
Qed.

Lemma ledger_post_rejected_unchanged (today : date) (uuid4 : nat -> string)
    (L : DoubleEntry.Ledger) (description : string)
    (lines : list DoubleEntry.EntryLine) (e : exn) :
  DoubleEntry.new_journal_entry today uuid4 L description lines = (Raise e, L) ->
  DoubleEntry.post_transaction today uuid4 L description lines = (Raise e, L).
Proof. intros H. unfold DoubleEntry.post_transaction. rewrite H. reflexivity. Qed.

(** C8, as stated, fails: [Ledger.post_transaction] accepts an entry with an
    empty line list, records it in the journal and marks it posted; and
    [validate_transaction] of [app.py] accepts lines of -5.00 and of 0.00. *)
Lemma C8_empty_entry_and_nonpositive_lines_accepted :
  DoubleEntry.post_transaction day0 ids DoubleEntry.new_ledger "empty" []
  = (Ok (DoubleEntry.mkJournalEntry (ids 0) day0 "empty" [] true),
     DoubleEntry.mkLedger (DoubleEntry.accounts DoubleEntry.new_ledger)
       [(ids 0, DoubleEntry.mkJournalEntry (ids 0) day0 "empty" [] true)] 1)
  /\ App.validate_transaction [("Cash", -500)] [("Bank Loan", -500)] = Ok tt
  /\ App.validate_transaction [("Cash", 0)] [("Bank Loan", 0)] = Ok tt.
Proof. repeat split. Qed.

(** C8, amended.  [validate_transaction] of [app.py] rejects an entry whose
    debit map or credit map is empty ("Both debit and credit entries are
    required") and an entry whose debit and credit totals differ, by exact
    equality; [Ledger.new_journal_entry] rejects an entry with a line amount
    <= 0 and an entry whose totals differ, so a non-empty entry of positive
    lines with no debit line or no credit line is rejected as unbalanced.
    The rejecting call, and [post_transaction] through it, leaves accounts,
    history and journal as they were. *)
Theorem C8_validation_rejects_before_any_change :
  (forall debits credits : dict Decimal,
      debits = [] \/ credits = [] ->
      App.validate_transaction debits credits
      = Raise (ValueError "Both debit and credit entries are required"))
  /\ (forall debits credits : dict Decimal,
      debits <> [] -> credits <> [] ->
      sigma (dict_values debits) <> sigma (dict_values credits) ->
      App.validate_transaction debits credits
      = Raise (ValueError "Transaction not balanced"))
  /\ (forall today debits credits description when w e,
      App.validate_transaction debits credits = Raise e ->
      App.post_transaction today debits credits description when w = (Raise e, w))
  /\ (forall today uuid4 L description lines,
      Exists (fun l => DoubleEntry.amount l <= 0) lines ->
      DoubleEntry.new_journal_entry today uuid4 L description lines
      = (Raise (ValueError "All line amounts must be positive"), L)
      /\ DoubleEntry.post_transaction today uuid4 L description lines
         = (Raise (ValueError "All line amounts must be positive"), L))
  /\ (forall today uuid4 L description lines,
      Forall (fun l => 0 < DoubleEntry.amount l) lines ->
      debit_total lines <> credit_total lines ->
      DoubleEntry.new_journal_entry today uuid4 L description lines
      = (Raise (ValueError "Journal entry unbalanced"), L)
      /\ DoubleEntry.post_transaction today uuid4 L description lines
         = (Raise (ValueError "Journal entry unbalanced"), L))
  /\ (forall lines : list DoubleEntry.EntryLine,
      lines <> [] ->
      Forall (fun l => 0 < DoubleEntry.amount l) lines ->
      filter DoubleEntry.is_debit lines = []
      \/ filter (fun l => negb (DoubleEntry.is_debit l)) lines = [] ->
      debit_total lines <> credit_total lines).
Proof.
  repeat apply conj.
  - apply app_validate_empty.
  - apply app_validate_unbalanced.
  - intros. apply app_post_rejected_unchanged. assumption.
  - intros today uuid4 L description lines H.
    pose proof (ledger_new_entry_nonpositive today uuid4 L description lines H) as E.
    split; [assumption | apply ledger_post_rejected_unchanged; assumption].
  - intros today uuid4 L description lines Hp Hn.
    pose proof (ledger_new_entry_unbalanced today uuid4 L description lines Hp Hn) as E.
    split; [assumption | apply ledger_post_rejected_unchanged; assumption].
  - apply one_sided_unbalanced.
Qed.

Lemma C8_validation_witness :
  App.validate_transaction [] [("Cash", 10000)]
  = Raise (ValueError "Both debit and credit entries are required")
  /\ App.validate_transaction [("Cash", 10000)] [("Bank Loan", 9999)]
     = Raise (ValueError "Transaction not balanced")
  /\ DoubleEntry.post_transaction day0 ids DoubleEntry.new_ledger "one-sided"
       [DoubleEntry.mkEntryLine "1000" 1000000 true]
     = (Raise (ValueError "Journal entry unbalanced"), DoubleEntry.new_ledger).
Proof.
  destruct C8_validation_rejects_before_any_change
    as (Hempty & Hunbal & _ & _ & Hledger & _).
  split; [|split].
  - apply Hempty. left. reflexivity.
  - apply Hunbal; [discriminate | discriminate | vm_compute; discriminate].
  - apply Hledger.
    + repeat constructor.
    + vm_compute. discriminate.
Defined.

(** ** Posting to an unknown account *)

(** C1.  At an entry that debits Cash and credits an account that does not
    exist, [post_transaction] of [app.py] raises after the debit has been
    appended to Cash: the entry is not in the history, Cash has changed and
    the trial balance no longer balances.  [Ledger.post_transaction] does the
    same with account codes: the debit to 1000 stays, and the entry stays in
    the journal, unposted. *)
Theorem C1_unknown_account_leaves_partial_posting :
  (let r := App.post_transaction day0 [("Cash", 10000)] [("Petty Cash", 10000)]
              "float" None (app_world0 day0) in
   fst r = Raise (ValueError "Account not found")
   /\ option_map App.debits (dict_get "Cash" (App.accounts (snd r)))
      = Some [App.mkEntry 10000 "float" day0]
   /\ option_map App.debits (dict_get "Cash" (App.accounts (app_world0 day0)))
      = Some []
   /\ App.transactions (snd r) = []
   /\ App.is_balanced (App.trial_balance None (App.accounts (snd r))) = false)
  /\ (let r := DoubleEntry.post_transaction day0 ids DoubleEntry.new_ledger "float"
                 [ DoubleEntry.mkEntryLine "1000" 1000000 true;
                   DoubleEntry.mkEntryLine "9999" 1000000 false ] in
      fst r = Raise (KeyError "9999")
      /\ option_map DoubleEntry.debits (dict_get "1000" (DoubleEntry.accounts (snd r)))
         = Some [(ids 0, 1000000)]
      /\ option_map DoubleEntry.debits
           (dict_get "1000" (DoubleEntry.accounts DoubleEntry.new_ledger))
         = Some []
      /\ option_map DoubleEntry.posted (dict_get (ids 0) (DoubleEntry.journal (snd r)))
         = Some false).
Proof. vm_compute. repeat split. Qed.

(** ** The stable sort *)

Section SortedFacts.
Context {A K : Type} (key : A -> K) (leb : K -> K -> bool).

Lemma insert_by_perm (x : A) (l : list A) :
  Permutation (insert_by key leb x l) (x :: l).
Proof.
  induction l as [|y ys IH]; simpl.
  - reflexivity.
  - destruct (leb (key x) (key y)).
    + reflexivity.
    + rewrite IH. apply perm_swap.
Qed.

Lemma sorted_perm (l : list A) : Permutation (sorted key leb l) l.
Proof.
  induction l as [|x xs IH]; simpl.
  - reflexivity.
  - rewrite insert_by_perm. constructor. exact IH.
Qed.

(** Whatever is selected by a predicate that the order cannot separate from
    [x] keeps its place relative to [x]. *)
Lemma insert_by_filter (p : A -> bool) (x : A) (l : list A) :
  (forall y, p x = true -> p y = true -> leb (key x) (key y) = true) ->
  filter p (insert_by key leb x l) = filter p (x :: l).
Proof.
  intros Hp. induction l as [|y ys IH]; simpl.
  - reflexivity.
  - destruct (leb (key x) (key y)) eqn:E; simpl.
    + reflexivity.
    + destruct (p y) eqn:Py.
      * destruct (p x) eqn:Px.
        -- rewrite (Hp y) in E by auto. discriminate.
        -- simpl in IH. rewrite Px in IH. rewrite IH. reflexivity.
      * simpl in IH. exact IH.
Qed.

Lemma sorted_filter (p : A -> bool) (l : list A) :
  (forall x y, p x = true -> p y = true -> leb (key x) (key y) = true) ->
  filter p (sorted key leb l) = filter p l.
Proof.
  intros Hp. induction l as [|x xs IH]; simpl.
  - reflexivity.
  - rewrite insert_by_filter by (intros; apply Hp; assumption).
    simpl. rewrite IH. reflexivity.
Qed.

Hypothesis leb_total : forall a b, leb a b = true \/ leb b a = true.
Hypothesis leb_trans : forall a b c, leb a b = true -> leb b c = true -> leb a c = true.

Lemma insert_by_sorted (x : A) (l : list A) :
  StronglySorted (key_le key leb) l ->
  StronglySorted (key_le key leb) (insert_by key leb x l).
Proof.
  induction l as [|y ys IH]; intros Hl; simpl.
  - constructor; constructor.
  - apply StronglySorted_inv in Hl. destruct Hl as [Hys Hy].
    destruct (leb (key x) (key y)) eqn:E.
    + constructor; [constructor; assumption|].
      constructor; [exact E|].
      eapply Forall_impl; [|exact Hy]. intros a Ha.
      unfold key_le in *. eapply leb_trans; eassumption.
    + constructor; [apply IH; exact Hys|].
      assert (Hyx : key_le key leb y x).
      { unfold key_le. destruct (leb_total (key x) (key y)); congruence. }
      apply Forall_forall. intros a Ha.
      apply (Permutation_in _ (insert_by_perm x ys)) in Ha.
      destruct Ha as [<-|Ha]; [exact Hyx|].
      rewrite Forall_forall in Hy. apply Hy. exact Ha.
Qed.

Lemma sorted_sorted (l : list A) : StronglySorted (key_le key leb) (sorted key leb l).
Proof.
  induction l as [|x xs IH]; simpl.
  - constructor.
  - apply insert_by_sorted. exact IH.
Qed.
End SortedFacts.

(** ** Running balances and the trial balance of [app.py] *)

Lemma last_cons_default {A} (a d : A) (l : list A) : last (a :: l) d = last l a.
Proof.
  revert a d. induction l as [|x xs IH]; intros a d.
  - reflexivity.
  - change (last (a :: x :: xs) d) with (last (x :: xs) d).
    rewrite (IH x d), (IH x a). reflexivity.
Qed.

Lemma running_last (t : AccountType) (es : list App.Line) (b : Decimal) :
  last (map App.row_balance (App.running t b es)) b
  = b + sigma (map (App.contribution t) es).
Proof.
  revert b. induction es as [|e es IH]; intros b.
  - simpl. lia.
  - cbn [App.running map]. rewrite last_cons_default.
    cbn [App.row_balance]. rewrite IH. simpl. lia.
Qed.

Lemma running_is_empty (t : AccountType) (es : list App.Line) (b : Decimal) :
  App.is_empty (App.running t b es) = App.is_empty es.
Proof. destruct es; reflexivity. Qed.

Lemma sigma_filter_perm {A} (f : A -> Decimal) (p : A -> bool) (l l' : list A) :
  Permutation l l' -> sigma (map f (filter p l)) = sigma (map f (filter p l')).
Proof.
  induction 1 as [|x l l' _ IH|x y l|l l' l'' _ IH1 _ IH2]; simpl.
  - reflexivity.
  - destruct (p x); simpl; lia.
  - destruct (p x), (p y); simpl; lia.
  - lia.
Qed.

Lemma filter_all {A} (l : list A) : filter (fun _ => true) l = l.
Proof. induction l as [|x xs IH]; simpl; congruence. Qed.

Lemma contribution_debits (t : AccountType) (p : date -> bool) (es : list App.Entry) :
  sigma (map (App.contribution t)
           (filter (fun l => p (App.line_date l)) (map App.debit_line es)))
  = signed (credit_normal_type t)
      (sigma (map App.amount (filter (fun e => p (App.entry_date e)) es))) 0.
Proof.
  unfold signed, App.contribution. rewrite credit_normal_type_spec.
  induction es as [|e es IH]; simpl.
  - destruct (credit_normal_type t); reflexivity.
  - destruct (p (App.entry_date e)); simpl; [|exact IH].
    rewrite IH. destruct (credit_normal_type t); lia.
Qed.

Lemma contribution_credits (t : AccountType) (p : date -> bool) (es : list App.Entry) :
  sigma (map (App.contribution t)
           (filter (fun l => p (App.line_date l)) (map App.credit_line es)))
  = signed (credit_normal_type t) 0
      (sigma (map App.amount (filter (fun e => p (App.entry_date e)) es))).
Proof.
  unfold signed, App.contribution. rewrite credit_normal_type_spec.
  induction es as [|e es IH]; simpl.
  - destruct (credit_normal_type t); reflexivity.
  - destruct (p (App.entry_date e)); simpl; [|exact IH].
    rewrite IH. destruct (credit_normal_type t); lia.
Qed.

(** The sum of the signed contributions of the entries selected by a
    predicate on dates. *)
Lemma contribution_selected (a : App.Account) (p : date -> bool) :
  sigma (map (App.contribution (App.type a))
           (filter (fun l => p (App.line_date l)) (App.entries a)))
  = signed (credit_normal_type (App.type a))
      (sigma (map App.amount (filter (fun e => p (App.entry_date e)) (App.debits a))))
      (sigma (map App.amount (filter (fun e => p (App.entry_date e)) (App.credits a)))).
Proof.
  unfold App.entries.
  rewrite (sigma_filter_perm _ _ _ _ (sorted_perm App.line_date date_leb _)).
  unfold App.all_entries.
  rewrite filter_app, map_app, sigma_app, contribution_debits, contribution_credits.
  unfold signed. destruct (credit_normal_type (App.type a)); lia.
Qed.

Lemma app_balance_as_of (cut : option date) (a : App.Account) :
  App.balance_as_of cut a
  = signed (credit_normal_type (App.type a))
      (sigma (map App.amount
                (filter (fun e => under cut (App.entry_date e)) (App.debits a))))
      (sigma (map App.amount
                (filter (fun e => under cut (App.entry_date e)) (App.credits a)))).
Proof.
  destruct cut as [d|]; simpl.
  - unfold App.statement. rewrite running_is_empty.
    rewrite <- (contribution_selected a (fun x => date_leb x d)).
    destruct (filter _ (App.entries a)) as [|e es] eqn:E.
    + reflexivity.
    + cbn [App.is_empty]. rewrite running_last. lia.
  - rewrite !filter_all. apply app_balance_lists.
Qed.

Lemma presentation_difference (t : AccountType) (D C : Decimal) :
  let '(debit_amt, credit_amt) :=
    App.presentation t (signed (credit_normal_type t) D C) in
  debit_amt - credit_amt = D - C /\ 0 <= debit_amt /\ 0 <= credit_amt.
Proof.
  unfold App.presentation, signed. rewrite credit_normal_type_spec.
  destruct (credit_normal_type t);
    repeat match goal with
           | |- context [?x >? ?y] => destruct (Z.gtb_spec x y)
           | |- context [?x <? ?y] => destruct (Z.ltb_spec x y)
           end; lia.
Qed.

Lemma trial_step_totals (cut : option date) (l : list App.Account)
    (rows : list App.TrialRow) (td tc : Decimal) :
  let '(_, td', tc') := fold_left (App.trial_step cut) l (rows, td, tc) in
  td' - tc' = td - tc + sigma (map (app_net cut) l).
Proof.
  revert rows td tc. induction l as [|a l IH]; intros rows td tc; simpl.
  - lia.
  - rewrite app_balance_as_of.
    pose proof (presentation_difference (App.type a)
      (sigma (map App.amount
                (filter (fun e => under cut (App.entry_date e)) (App.debits a))))
      (sigma (map App.amount
                (filter (fun e => under cut (App.entry_date e)) (App.credits a)))))
      as Hp.
    destruct (App.presentation _ _) as [d c].
    specialize (IH (rows ++ [App.mkTrialRow (App.name a) (type_name (App.type a))
                               (App.category a) d c]) (td + d) (tc + c)).
    destruct (fold_left _ l _) as [[rows' td'] tc'].
    unfold app_net in *. lia.
Qed.

(** The difference of the column totals is the sum of debits minus credits
    over all accounts. *)
Lemma app_trial_balance_totals (cut : option date) (accounts : dict App.Account) :
  App.total_debits (App.trial_balance cut accounts)
  - App.total_credits (App.trial_balance cut accounts)
  = sigma (map (app_net cut) (dict_values accounts)).
Proof.
  unfold App.trial_balance.
  pose proof (trial_step_totals cut
    (sorted (fun x => (type_name (App.type x), App.name x)) App.key_leb
       (dict_values accounts)) [] 0 0) as H.
  destruct (fold_left _ _ _) as [[rows td] tc]. simpl.
  rewrite H. rewrite (sigma_perm _ (map (app_net cut) (dict_values accounts))).
  - lia.
  - apply Permutation_map, sorted_perm.
Qed.

Lemma app_trial_balance_flag (cut : option date) (accounts : dict App.Account) :
  App.is_balanced (App.trial_balance cut accounts)
  = (App.total_debits (App.trial_balance cut accounts)
     =? App.total_credits (App.trial_balance cut accounts)).
Proof.
  unfold App.trial_balance.
  destruct (fold_left _ _ _) as [[rows td] tc]. reflexivity.
Qed.

(** ** The double-entry invariant of [app.py] *)

Lemma app_net_with_debits (cut : option date) (a : App.Account) (e : App.Entry) :
  app_net cut (App.with_debits a (App.debits a ++ [e]))
  = app_net cut a + (if under cut (App.entry_date e) then 1 else 0) * App.amount e.
Proof.
  unfold app_net. simpl. rewrite filter_app, map_app, sigma_app. simpl.
  destruct (under cut (App.entry_date e)); cbn [map sigma fold_right]; lia.
Qed.

Lemma app_net_with_credits (cut : option date) (a : App.Account) (e : App.Entry) :
  app_net cut (App.with_credits a (App.credits a ++ [e]))
  = app_net cut a + (- (if under cut (App.entry_date e) then 1 else 0)) * App.amount e.
Proof.
  unfold app_net. simpl. rewrite filter_app, map_app, sigma_app. simpl.
  destruct (under cut (App.entry_date e)); cbn [map sigma fold_right]; lia.
Qed.

Lemma app_net_debit (today : date) (cut : option date) (a : App.Account)
    (amt : Decimal) (description : string) (d : date) :
  app_net cut (snd (App.debit today a amt description (Some d)))
  = app_net cut a + (if under cut d then 1 else 0) * amt.
Proof.
  unfold app_net. simpl. rewrite filter_app, map_app, sigma_app. simpl.
  destruct (under cut d); cbn [map sigma fold_right App.amount]; lia.
Qed.

Lemma app_net_credit (today : date) (cut : option date) (a : App.Account)
    (amt : Decimal) (description : string) (d : date) :
  app_net cut (snd (App.credit today a amt description (Some d)))
  = app_net cut a + (- (if under cut d then 1 else 0)) * amt.
Proof.
  unfold app_net. simpl. rewrite filter_app, map_app, sigma_app. simpl.
  destruct (under cut d); cbn [map sigma fold_right App.amount]; lia.
Qed.

Lemma post_lines_net
    (post : App.Account -> Decimal -> string -> option date -> result unit * App.Account)
    (cut : option date) (c : Z) (description : string) (d : date) :
  (forall a amt, app_net cut (snd (post a amt description (Some d)))
                 = app_net cut a + c * amt) ->
  forall (lines : dict Decimal) (accts accts' : dict App.Account),
    App.post_lines post lines description d accts = (Ok tt, accts') ->
    sigma (map (app_net cut) (dict_values accts'))
    = sigma (map (app_net cut) (dict_values accts)) + c * sigma (dict_values lines).
Proof.
  intros Hpost. induction lines as [|[k amt] rest IH]; intros accts accts' H; simpl in H.
  - injection H as <-. simpl. lia.
  - destruct (dict_get k accts) as [a|] eqn:E; [|discriminate].
    apply IH in H. rewrite H.
    rewrite (sigma_dict_set _ _ _ a) by assumption.
    rewrite Hpost. simpl. lia.
Qed.

Lemma app_post_transaction_invariant (today : date) (debits credits : dict Decimal)
    (description : string) (when : option date) (w w' : App.World) (tx : pyobj) :
  App.post_transaction today debits credits description when w = (Ok tx, w') ->
  app_double_entry (App.accounts w) -> app_double_entry (App.accounts w').
Proof.
  unfold App.post_transaction. intros H Hinv cut.
  destruct (App.validate_transaction debits credits) as [[]|e] eqn:V; [|discriminate].
  apply app_validate_ok in V. destruct V as (_ & _ & Hbal).
  destruct (App.post_lines (App.debit today) debits description
              (date_or when today) (App.accounts w)) as [r1 accts1] eqn:E1.
  destruct r1 as [[]|e1]; [|discriminate].
  destruct (App.post_lines (App.credit today) credits description
              (date_or when today) accts1) as [r2 accts2] eqn:E2.
  destruct r2 as [[]|e2]; [|discriminate].
  injection H as _ <-. simpl.
  rewrite (post_lines_net _ cut _ _ _
             (fun a amt => app_net_credit today cut a amt description _) _ _ _ E2).
  rewrite (post_lines_net _ cut _ _ _
             (fun a amt => app_net_debit today cut a amt description _) _ _ _ E1).
  rewrite (Hinv cut), Hbal. lia.
Qed.

Lemma app_depreciation_invariant (today : date) (strftime : string -> date -> string)
    (as_of_date : option date) (w w' : App.World) :
  App.calculate_depreciation today strftime as_of_date w = (Ok tt, w') ->
  app_double_entry (App.accounts w) -> app_double_entry (App.accounts w').
Proof.
  unfold App.calculate_depreciation. intros H Hinv cut.
  destruct (dict_get "Equipment" (App.accounts w)) as [equipment|]; [|discriminate].
  destruct (dict_get "Depreciation Expense" (App.accounts w)) as [expense|] eqn:E1;
    [|discriminate].
  match type of H with
  | context [dict_get "Accumulated Depreciation" ?d] =>
      destruct (dict_get "Accumulated Depreciation" d) as [accumulated|] eqn:E2;
      [|discriminate]
  end.
  injection H as <-. cbn [App.accounts].
  rewrite (sigma_dict_set _ _ _ accumulated) by exact E2.
  rewrite (sigma_dict_set _ _ _ expense) by exact E1.
  rewrite app_net_with_credits, app_net_with_debits, (Hinv cut).
  cbn [App.amount App.entry_date]. lia.
Qed.

Lemma app_seed_invariant (today : date) : app_double_entry (app_seed today).
Proof. intros cut. reflexivity. Qed.

Lemma app_reachable_invariant (strftime : string -> date -> string) (w : App.World) :
  app_reachable strftime w -> app_double_entry (App.accounts w).
Proof.
  induction 1 as [today | today debits credits description when w tx w' _ IH H
                 | today as_of_date w w' _ IH H].
  - apply app_seed_invariant.
  - eapply app_post_transaction_invariant; eassumption.
  - eapply app_depreciation_invariant; eassumption.
Qed.

Lemma app_double_entry_balanced (cut : option date) (accounts : dict App.Account) :
  app_double_entry accounts ->
  App.total_debits (App.trial_balance cut accounts)
  = App.total_credits (App.trial_balance cut accounts)
  /\ App.is_balanced (App.trial_balance cut accounts) = true.
Proof.
  intros Hinv.
  pose proof (app_trial_balance_totals cut accounts) as H.
  rewrite (Hinv cut) in H.
  rewrite app_trial_balance_flag.
  split; [lia | apply Z.eqb_eq; lia].
Qed.

(** ** The double-entry invariant of [double_entry.py] *)

Lemma apply_lines_net (je_id : string) (ls : list DoubleEntry.EntryLine)
    (accts accts' : dict DoubleEntry.Account) :
  DoubleEntry.apply_lines je_id ls accts = (Ok tt, accts') ->
  sigma (map ledger_net (dict_values accts'))
  = sigma (map ledger_net (dict_values accts)) + debit_total ls - credit_total ls.
Proof.
  revert accts. induction ls as [|l ls IH]; intros accts H; simpl in H.
  - injection H as <-. unfold debit_total, credit_total. simpl. lia.
  - destruct (dict_get (DoubleEntry.account l) accts) as [acct|] eqn:E; [|discriminate].
    apply IH in H. rewrite H.
    rewrite (sigma_dict_set _ _ _ acct) by assumption.
    unfold debit_total, credit_total, ledger_net. cbn [filter].
    destruct (DoubleEntry.is_debit l);
      cbn [negb map sigma fold_right DoubleEntry.debits DoubleEntry.credits];
      rewrite ?map_app, ?sigma_app; cbn [map sigma fold_right snd];
      unfold sigma; lia.
Qed.

Lemma ledger_create_invariant (L : DoubleEntry.Ledger) (code name typ : string) :
  ledger_double_entry L ->
  ledger_double_entry (DoubleEntry.create_account L code name typ).
Proof.
  intros [Hnet Hj]. unfold DoubleEntry.create_account, dict_mem.
  destruct (dict_get code (DoubleEntry.accounts L)) eqn:E.
  - split; assumption.
  - split; [|exact Hj]. simpl.
    rewrite sigma_dict_set_new by assumption. rewrite Hnet. reflexivity.
Qed.

Lemma ledger_new_entry_inv (today : date) (uuid4 : nat -> string)
    (L L' : DoubleEntry.Ledger) (description : string)
    (lines : list DoubleEntry.EntryLine) (je : DoubleEntry.JournalEntry) :
  DoubleEntry.new_journal_entry today uuid4 L description lines = (Ok je, L') ->
  Forall (fun l => 0 < DoubleEntry.amount l) lines
  /\ debit_total lines = credit_total lines
  /\ je = DoubleEntry.mkJournalEntry (uuid4 (DoubleEntry.draws L)) today
            description lines false
  /\ L' = DoubleEntry.mkLedger (DoubleEntry.accounts L)
            (dict_set (DoubleEntry.id je) je (DoubleEntry.journal L))
            (S (DoubleEntry.draws L)).
Proof.
  unfold DoubleEntry.new_journal_entry, DoubleEntry.D. rewrite !py_sum_sigma.
  destruct (existsb _ lines) eqn:E; [discriminate|].
  fold (debit_total lines). fold (credit_total lines).
  destruct (Z.eqb_spec (debit_total lines) (credit_total lines)) as [Hb|Hb];
    [|discriminate].
  cbn [negb]. intros [= <- <-].
  apply existsb_nonpositive in E. repeat split; assumption.
Qed.

Lemma ledger_new_entry_invariant (today : date) (uuid4 : nat -> string)
    (L L' : DoubleEntry.Ledger) (description : string)
    (lines : list DoubleEntry.EntryLine) (je : DoubleEntry.JournalEntry) :
  DoubleEntry.new_journal_entry today uuid4 L description lines = (Ok je, L') ->
  ledger_double_entry L -> ledger_double_entry L'.
Proof.
  intros H [Hnet Hj]. apply ledger_new_entry_inv in H.
  destruct H as (_ & Hbal & -> & ->). split; [exact Hnet|].
  cbn [DoubleEntry.journal DoubleEntry.id]. intros x Hx.
  apply dict_values_set_in in Hx. destruct Hx as [->|Hx]; [exact Hbal | auto].
Qed.

Lemma ledger_post_entry_invariant (L L' : DoubleEntry.Ledger) (je_id : string)
    (je : DoubleEntry.JournalEntry) :
  DoubleEntry.post_entry L je_id = (Ok je, L') ->
  ledger_double_entry L -> ledger_double_entry L'.
Proof.
  unfold DoubleEntry.post_entry. intros H [Hnet Hj].
  destruct (dict_get je_id (DoubleEntry.journal L)) as [j|] eqn:E; [|discriminate].
  destruct (DoubleEntry.posted j); [discriminate|].
  destruct (DoubleEntry.apply_lines (DoubleEntry.id j) (DoubleEntry.lines j)
              (DoubleEntry.accounts L)) as [r accts] eqn:A.
  destruct r as [[]|e]; [|discriminate].
  injection H as _ <-.
  pose proof (Hj j (dict_get_in_values _ _ _ E)) as Hbal.
  split.
  - cbn [DoubleEntry.accounts]. rewrite (apply_lines_net _ _ _ _ A). lia.
  - cbn [DoubleEntry.journal]. intros x Hx.
    apply dict_values_set_in in Hx. destruct Hx as [->|Hx]; [exact Hbal | auto].
Qed.

Lemma ledger_seed_invariant : ledger_double_entry DoubleEntry.new_ledger.
Proof.
  unfold ledger_double_entry. split.
  - vm_compute. reflexivity.
  - vm_compute. intros je [].
Qed.

Lemma ledger_reachable_invariant (uuid4 : nat -> string) (L : DoubleEntry.Ledger) :
  ledger_reachable uuid4 L -> ledger_double_entry L.
Proof.
  induction 1.
  - apply ledger_seed_invariant.
  - apply ledger_create_invariant. assumption.
  - eapply ledger_new_entry_invariant; eassumption.
  - eapply ledger_post_entry_invariant; eassumption.
Qed.

Lemma trial_row_columns (code : string) (acct : DoubleEntry.Account) :
  DoubleEntry.trial_row code acct = ledger_row (code, acct).
Proof.
  unfold DoubleEntry.trial_row, ledger_row. rewrite ledger_balance_lists.
  unfold signed. fold (ledger_net acct). cbn [fst snd].
  destruct (DoubleEntry.debit_normal (DoubleEntry.type acct)); cbn [negb];
    match goal with |- context [?x >=? 0] => destruct (Z.geb_spec x 0) end;
    change (DoubleEntry.D 0) with 0; f_equal; f_equal; lia.
Qed.

Lemma ledger_net_whole_cents (a : DoubleEntry.Account) :
  Forall (fun e => whole_cents (snd e)) (DoubleEntry.debits a ++ DoubleEntry.credits a) ->
  whole_cents (ledger_net a).
Proof.
  intros H. apply Forall_app in H. destruct H as [Hd Hc].
  unfold ledger_net.
  apply whole_cents_sub; apply whole_cents_sigma, Forall_map; assumption.
Qed.

(** On an account that holds whole cents the two columns of its row show
    the debits minus the credits. *)
Lemma trial_row_difference (code : string) (acct : DoubleEntry.Account) :
  whole_cents (ledger_net acct) ->
  DoubleEntry.row_debit (DoubleEntry.trial_row code acct)
  - DoubleEntry.row_credit (DoubleEntry.trial_row code acct)
  = ledger_net acct
  /\ 0 <= DoubleEntry.row_debit (DoubleEntry.trial_row code acct)
  /\ 0 <= DoubleEntry.row_credit (DoubleEntry.trial_row code acct).
Proof.
  intros H. rewrite trial_row_columns.
  cbn [ledger_row DoubleEntry.row_debit DoubleEntry.row_credit snd].
  pose proof (whole_cents_max _ H) as H1.
  pose proof (whole_cents_max _ (whole_cents_opp _ H)) as H2.
  unfold whole_cents in H1, H2. rewrite H1, H2. lia.
Qed.

Lemma ledger_rows_difference (items : list (string * DoubleEntry.Account)) :
  Forall (fun kv => whole_cents (ledger_net (snd kv))) items ->
  sigma (map DoubleEntry.row_debit
           (map (fun kv => DoubleEntry.trial_row (fst kv) (snd kv)) items))
  - sigma (map DoubleEntry.row_credit
             (map (fun kv => DoubleEntry.trial_row (fst kv) (snd kv)) items))
  = sigma (map ledger_net (dict_values items)).
Proof.
  induction 1 as [|[k a] items Ha _ IH];
    cbn [map sigma fold_right dict_values fst snd] in *.
  - reflexivity.
  - pose proof (trial_row_difference k a Ha) as (H & _ & _).
    unfold dict_values, sigma in *. lia.
Qed.

(** The rows of the trial balance are in whole cents, so the final [D] of
    each total changes nothing: the totals are the sums of the columns. *)
Lemma ledger_trial_balance_sums (L : DoubleEntry.Ledger) :
  let '(rows, total_debit, total_credit) := DoubleEntry.trial_balance L in
  rows = map (fun kv => DoubleEntry.trial_row (fst kv) (snd kv))
           (sorted fst String.leb (DoubleEntry.accounts L))
  /\ total_debit = sigma (map DoubleEntry.row_debit rows)
  /\ total_credit = sigma (map DoubleEntry.row_credit rows).
Proof.
  unfold DoubleEntry.trial_balance. rewrite D_zero, !py_sum_sigma.
  split; [reflexivity|].
  split; apply whole_cents_sigma, Forall_map, Forall_map, Forall_forall;
    intros [k a] _; rewrite trial_row_columns;
    cbn [ledger_row DoubleEntry.row_debit DoubleEntry.row_credit];
    apply whole_cents_D.
Qed.

(** On a ledger that holds whole cents, the difference of the two totals of
    [Ledger.trial_balance] is the sum of debits minus credits over all
    accounts. *)
Lemma ledger_trial_balance_totals (L : DoubleEntry.Ledger) :
  ledger_whole_cents L ->
  let '(_, total_debit, total_credit) := DoubleEntry.trial_balance L in
  total_debit - total_credit
  = sigma (map ledger_net (dict_values (DoubleEntry.accounts L))).
Proof.
  intros Hw. pose proof (ledger_trial_balance_sums L) as H.
  destruct (DoubleEntry.trial_balance L) as [[rows td] tc].
  destruct H as (-> & -> & ->).
  rewrite ledger_rows_difference.
  - apply sigma_perm, Permutation_map, Permutation_map, sorted_perm.
  - apply Forall_forall. intros [k a] Hin. cbn [snd].
    apply ledger_net_whole_cents.
    unfold ledger_whole_cents in Hw. rewrite Forall_forall in Hw. apply Hw.
    apply (Permutation_in _ (sorted_perm fst String.leb (DoubleEntry.accounts L))) in Hin.
    apply (in_map snd) in Hin. exact Hin.
Qed.

(** ** The trial balance after successful postings *)

Lemma ledger_reach_transaction (today : date) (uuid4 : nat -> string)
    (L : DoubleEntry.Ledger) (description : string)
    (lines : list DoubleEntry.EntryLine) :
  ledger_reachable uuid4 L ->
  is_ok (fst (DoubleEntry.post_transaction today uuid4 L description lines)) = true ->
  ledger_reachable uuid4
    (snd (DoubleEntry.post_transaction today uuid4 L description lines)).
Proof.
  intros HL. unfold DoubleEntry.post_transaction.
  destruct (DoubleEntry.new_journal_entry today uuid4 L description lines)
    as [[je|e] L1] eqn:E1; [|discriminate].
  destruct (DoubleEntry.post_entry L1 (DoubleEntry.id je)) as [[je'|e] L2] eqn:E2;
    [|discriminate].
  intros _. simpl.
  eapply ledger_reach_post; [|exact E2].
  eapply ledger_reach_new; [exact HL | exact E1].
Qed.

(** C2, as stated, fails for [Ledger.trial_balance]: the ledger stores the
    amounts it is given and the trial balance rounds each row to the cent.
    Two debits of 0.005 against one credit of 0.01 are a valid entry (all
    amounts positive, totals equal); once posted, the debit column totals
    0.02 and the credit column 0.01. *)
Lemma C2_half_cents_unbalance_the_ledger_totals :
  ledger_reachable ids ledger_half_cents
  /\ (let '(_, total_debit, total_credit) := DoubleEntry.trial_balance ledger_half_cents in
      total_debit = 2 * DoubleEntry.CENT /\ total_credit = 1 * DoubleEntry.CENT).
Proof.
  split.
  - unfold ledger_half_cents.
    apply ledger_reach_transaction; [apply ledger_reach_seed | vm_compute; reflexivity].
  - vm_compute. split; reflexivity.
Qed.

(** C2, amended.  In every state reached from the seeded chart of accounts
    by successful postings, the total of the debit column of the trial
    balance equals the total of the credit column: for [trial_balance] of
    [app.py], with or without a cut-off date, with [is_balanced] true; and
    for [Ledger.trial_balance] when every amount that the accounts hold is
    in whole cents.  Balances of either sign are covered: the state is
    arbitrary among the reachable ones. *)
Theorem C2_trial_balance_totals_agree :
  (forall (strftime : string -> date -> string) (w : App.World),
      app_reachable strftime w ->
      forall as_of_date : option date,
        App.total_debits (App.trial_balance as_of_date (App.accounts w))
        = App.total_credits (App.trial_balance as_of_date (App.accounts w))
        /\ App.is_balanced (App.trial_balance as_of_date (App.accounts w)) = true)
  /\ (forall (uuid4 : nat -> string) (L : DoubleEntry.Ledger),
      ledger_reachable uuid4 L ->
      ledger_whole_cents L ->
      let '(_, total_debit, total_credit) := DoubleEntry.trial_balance L in
      total_debit = total_credit).
Proof.
  split.
  - intros strftime w Hw as_of_date.
    apply app_double_entry_balanced.
    eapply app_reachable_invariant. exact Hw.
  - intros uuid4 L HL Hcents.
    apply ledger_reachable_invariant in HL. destruct HL as [Hnet _].
    pose proof (ledger_trial_balance_totals L Hcents) as H.
    destruct (DoubleEntry.trial_balance L) as [[rows td] tc].
    rewrite Hnet in H. lia.
Qed.

Lemma app_world1_reachable : app_reachable month_year app_world1.
Proof.
  eapply (app_reach_post month_year day0 [("Cash", 2000000)]
            [("Owner's Equity", 2000000)] "Owner investment" None
            (app_world0 day0)
            (fst (let (r, _) := App.post_transaction day0 [("Cash", 2000000)]
                       [("Owner's Equity", 2000000)] "Owner investment" None
                       (app_world0 day0) in
                  match r with Ok tx => (tx, tt) | Raise _ => (PNone, tt) end))).
  - apply app_reach_seed.
  - vm_compute. reflexivity.
Qed.

Lemma ledger1_reachable : ledger_reachable ids ledger1.
Proof.
  eapply (ledger_reach_post ids _ (ids 0)
            (DoubleEntry.mkJournalEntry (ids 0) day0 "Owner investment"
               [ DoubleEntry.mkEntryLine "1000" 200000000 true;
                 DoubleEntry.mkEntryLine "3000" 200000000 false ] true)).
  - eapply (ledger_reach_new ids day0 DoubleEntry.new_ledger "Owner investment"
              [ DoubleEntry.mkEntryLine "1000" 200000000 true;
                DoubleEntry.mkEntryLine "3000" 200000000 false ]).
    + apply ledger_reach_seed.
    + apply ledger_new_entry_ok; [repeat constructor | reflexivity].
  - vm_compute. reflexivity.
Qed.

Lemma C2_trial_balance_witness :
  App.is_balanced (App.trial_balance (Some day0) (App.accounts app_world1)) = true
  /\ (let '(_, total_debit, total_credit) := DoubleEntry.trial_balance ledger1 in
      total_debit = total_credit).
Proof.
  split.
  - apply (proj1 C2_trial_balance_totals_agree month_year app_world1
             app_world1_reachable (Some day0)).
  - apply (proj2 C2_trial_balance_totals_agree ids ledger1 ledger1_reachable).
    vm_compute. repeat constructor.
Defined.

(** ** Depreciation *)

(** [round_half_even n d] is an integer nearest to [n / d]. *)
Lemma round_half_even_nearest (n d : Z) :
  0 < d -> 2 * Z.abs (n - d * round_half_even n d) <= d.
Proof.
  intros Hd. unfold round_half_even.
  pose proof (Z.div_mod n d ltac:(lia)) as Hdm.
  pose proof (Z.mod_pos_bound n d Hd) as Hm.
  destruct (Z.ltb_spec (2 * (n mod d)) d).
  - lia.
  - destruct (Z.ltb_spec d (2 * (n mod d))).
    + lia.
    + destruct (Z.even (n / d)); lia.
Qed.

Lemma app_total_debit_appended (a : App.Account) (e : App.Entry) :
  App.total_debit (App.with_debits a (App.debits a ++ [e]))
  = App.total_debit a + App.amount e.
Proof.
  unfold App.total_debit. rewrite !py_sum_sigma. simpl.
  rewrite map_app, sigma_app. unfold sigma. simpl. lia.
Qed.

Lemma app_total_credit_appended (a : App.Account) (e : App.Entry) :
  App.total_credit (App.with_credits a (App.credits a ++ [e]))
  = App.total_credit a + App.amount e.
Proof.
  unfold App.total_credit. rewrite !py_sum_sigma. simpl.
  rewrite map_app, sigma_app. unfold sigma. simpl. lia.
Qed.

(** C7, amended.  With Equipment, Depreciation Expense and Accumulated
    Depreciation in the chart, [calculate_depreciation] of [app.py] takes
    annual = Equipment balance / 5 rounded to the cent and
    monthly = annual / 12 rounded to the cent, and appends one debit of
    monthly to Depreciation Expense and one credit of monthly to Accumulated
    Depreciation, both with the same date and description; nothing else
    changes.  The debit total of the one and the credit total of the other
    grow by exactly monthly.  For an Equipment balance of 8000.00 the monthly
    amount is 133.33. *)
Theorem C7_monthly_depreciation_posted
    (today : date) (strftime : string -> date -> string)
    (as_of_date : option date) (w : App.World)
    (equipment expense accumulated : App.Account)
    (Hequipment : dict_get "Equipment" (App.accounts w) = Some equipment)
    (Hexpense : dict_get "Depreciation Expense" (App.accounts w) = Some expense)
    (Haccumulated :
       dict_get "Accumulated Depreciation" (App.accounts w) = Some accumulated) :
  let annual := round_half_even (App.balance equipment) 5 in
  let monthly := round_half_even annual 12 in
  let entry :=
    App.mkEntry monthly
      ("Monthly depreciation for " ++ strftime "%B %Y" (date_or as_of_date today))
      (date_or as_of_date today) in
  let expense' := App.with_debits expense (App.debits expense ++ [entry]) in
  let accumulated' :=
    App.with_credits accumulated (App.credits accumulated ++ [entry]) in
  let w' := snd (App.calculate_depreciation today strftime as_of_date w) in
  fst (App.calculate_depreciation today strftime as_of_date w) = Ok tt
  /\ 2 * Z.abs (App.balance equipment - 5 * annual) <= 5
  /\ 2 * Z.abs (annual - 12 * monthly) <= 12
  /\ (App.balance equipment = 800000 -> monthly = 13333)
  /\ dict_get "Depreciation Expense" (App.accounts w') = Some expense'
  /\ dict_get "Accumulated Depreciation" (App.accounts w') = Some accumulated'
  /\ (forall k, k <> "Depreciation Expense" -> k <> "Accumulated Depreciation" ->
                dict_get k (App.accounts w') = dict_get k (App.accounts w))
  /\ App.total_debit expense' = App.total_debit expense + monthly
  /\ App.total_credit accumulated' = App.total_credit accumulated + monthly
  /\ App.transactions w' = App.transactions w.
Proof.
  intros annual monthly entry expense' accumulated' w'.
  assert (Hacc' : dict_get "Accumulated Depreciation"
                    (dict_set "Depreciation Expense" expense' (App.accounts w))
                  = Some accumulated).
  { rewrite dict_get_set_other by discriminate. exact Haccumulated. }
  assert (E : App.calculate_depreciation today strftime as_of_date w
              = (Ok tt,
                 App.mkWorld
                   (dict_set "Accumulated Depreciation" accumulated'
                      (dict_set "Depreciation Expense" expense' (App.accounts w)))
                   (App.transactions w) (App.data_file w))).
  { unfold App.calculate_depreciation.
    rewrite Hequipment, Hexpense.
    change (snd (App.debit today expense
                   (round_half_even (round_half_even (App.balance equipment) 5) 12)
                   ("Monthly depreciation for "
                      ++ strftime "%B %Y" (date_or as_of_date today))
                   (Some (date_or as_of_date today))))
      with expense'.
    rewrite Hacc'. reflexivity. }
  subst w'. rewrite E. cbn [fst snd App.accounts App.transactions].
  repeat apply conj.
  - reflexivity.
  - pose proof (round_half_even_nearest (App.balance equipment) 5 ltac:(lia)).
    subst annual. lia.
  - pose proof (round_half_even_nearest annual 12 ltac:(lia)).
    subst monthly. lia.
  - intros Hb. subst monthly annual. rewrite Hb. reflexivity.
  - rewrite dict_get_set_other by discriminate. apply dict_get_set_same.
  - apply dict_get_set_same.
  - intros k H1 H2. rewrite !dict_get_set_other by assumption. reflexivity.
  - apply app_total_debit_appended.
  - apply app_total_credit_appended.
  - reflexivity.
Qed.

Lemma C7_monthly_depreciation_witness :
  fst (App.calculate_depreciation day0 month_year None app_world_equipment) = Ok tt
  /\ option_map App.total_credit
       (dict_get "Accumulated Depreciation"
          (App.accounts
             (snd (App.calculate_depreciation day0 month_year None
                     app_world_equipment))))
     = Some 13333.
Proof.
  pose proof (C7_monthly_depreciation_posted day0 month_year None app_world_equipment
                (App.mkAccount "Equipment" Asset "Fixed Assets"
                   [App.mkEntry 800000 "Buy equipment with cash" day0] [] day0)
                (App.mkAccount "Depreciation Expense" Expense "Operating Expenses"
                   [] [] day0)
                (App.mkAccount "Accumulated Depreciation" Asset "Fixed Assets"
                   [] [] day0)
                eq_refl eq_refl eq_refl) as H.
  cbv zeta in H. destruct H as (Hok & _ & _ & _ & _ & Hacc & _).
  split; [exact Hok|].
  rewrite Hacc. reflexivity.
Defined.

(** C7, as stated, fails for [Ledger.calculate_depreciation] of
    [double_entry.py], which divides the cost once by the 60 months of the
    life and rounds half up.  With 0.88 of equipment it returns and posts
    0.01, where the balance over 5 rounded to the cent (0.18) over 12
    rounded to the cent is 0.02, whether the half is rounded up or to even;
    and with [months = 12] one call posts twelve times the monthly amount
    in one entry. *)
Lemma C7_ledger_depreciation_divides_once :
  fst (DoubleEntry.calculate_depreciation day0 ids (ledger_equipment 8800)
         "1040" "1045" "5300" 1 5 0) = Ok (1 * DoubleEntry.CENT)
  /\ option_map DoubleEntry.credits
       (dict_get "1045"
          (DoubleEntry.accounts
             (snd (DoubleEntry.calculate_depreciation day0 ids
                     (ledger_equipment 8800) "1040" "1045" "5300" 1 5 0))))
     = Some [(ids 1, 1 * DoubleEntry.CENT)]
  /\ spec_monthly_depreciation 8800 = 2 * DoubleEntry.CENT
  /\ round_half_even (round_half_even 88 5) 12 = 2
  /\ option_map DoubleEntry.credits
       (dict_get "1045"
          (DoubleEntry.accounts
             (snd (DoubleEntry.calculate_depreciation day0 ids
                     (ledger_equipment 80000000) "1040" "1045" "5300" 12 5 0))))
     = Some [(ids 1, 12 * (13333 * DoubleEntry.CENT))].
Proof. vm_compute. repeat split. Qed.

(** ** Account statements *)

Lemma filter_filter {A} (p q : A -> bool) (l : list A) :
  filter p (filter q l) = filter (fun x => q x && p x) l.
Proof.
  induction l as [|x xs IH]; simpl; [reflexivity|].
  destruct (q x); simpl; [destruct (p x)|]; rewrite IH; reflexivity.
Qed.

Lemma filter_map_comm {A B} (f : A -> B) (p : B -> bool) (l : list A) :
  filter p (map f l) = map f (filter (fun x => p (f x)) l).
Proof.
  induction l as [|x xs IH]; simpl; [reflexivity|].
  destruct (p (f x)); simpl; rewrite IH; reflexivity.
Qed.

Lemma filter_perm {A} (p : A -> bool) (l l' : list A) :
  Permutation l l' -> Permutation (filter p l) (filter p l').
Proof.
  induction 1 as [|x l l' _ IH|x y l|l l' l'' _ IH1 _ IH2]; simpl.
  - constructor.
  - destruct (p x); [constructor|]; exact IH.
  - destruct (p x), (p y); try reflexivity. apply perm_swap.
  - etransitivity; eassumption.
Qed.

Lemma filter_sorted {A} (R : A -> A -> Prop) (p : A -> bool) (l : list A) :
  StronglySorted R l -> StronglySorted R (filter p l).
Proof.
  induction 1 as [|x l Hl IH Hx]; simpl.
  - constructor.
  - destruct (p x); [|exact IH].
    constructor; [exact IH|].
    apply Forall_forall. intros y Hy. apply filter_In in Hy.
    rewrite Forall_forall in Hx. apply Hx. tauto.
Qed.

Lemma date_leb_total (a b : date) : date_leb a b = true \/ date_leb b a = true.
Proof.
  unfold date_leb.
  repeat match goal with
         | |- context [?x <? ?y] => destruct (Z.ltb_spec x y)
         | |- context [?x <=? ?y] => destruct (Z.leb_spec x y)
         end; auto; lia.
Qed.

Lemma date_leb_trans (a b c : date) :
  date_leb a b = true -> date_leb b c = true -> date_leb a c = true.
Proof.
  unfold date_leb.
  repeat match goal with
         | |- context [?x <? ?y] => destruct (Z.ltb_spec x y)
         | |- context [?x <=? ?y] => destruct (Z.leb_spec x y)
         end; auto; try discriminate; lia.
Qed.

Lemma date_eqb_leb (a b d : date) :
  date_eqb a d = true -> date_eqb b d = true -> date_leb a b = true.
Proof.
  unfold date_eqb, date_leb. rewrite !andb_true_iff, !Z.eqb_eq.
  intros [[-> ->] ->] [[-> ->] ->].
  rewrite !Z.ltb_irrefl. apply Z.leb_refl.
Qed.

Lemma running_lines (t : AccountType) (es : list App.Line) (b : Decimal) :
  map App.row_line (App.running t b es) = es.
Proof.
  revert b. induction es as [|e es IH]; intros b; simpl; [reflexivity|].
  rewrite IH. reflexivity.
Qed.

Lemma running_nth (t : AccountType) (es : list App.Line) (b : Decimal)
    (i : nat) (r : App.Row) :
  nth_error (App.running t b es) i = Some r ->
  App.row_balance r = b + sigma (map (App.contribution t) (firstn (S i) es)).
Proof.
  revert b i. induction es as [|e es IH]; intros b i H.
  - destruct i; discriminate.
  - destruct i as [|i]; cbn [App.running nth_error] in H.
    + injection H as <-. simpl. lia.
    + apply IH in H. rewrite H. rewrite firstn_cons.
      cbn [map]. unfold sigma. cbn [fold_right]. lia.
Qed.

(** The lines of a statement are the sorted lines selected by the bounds. *)
Lemma statement_lines (a : App.Account) (start_date end_date : option date) :
  map App.row_line (App.statement a start_date end_date)
  = filter (fun l => within start_date end_date (App.line_date l)) (App.entries a).
Proof.
  unfold App.statement. rewrite running_lines. unfold within.
  destruct start_date as [s|], end_date as [e|].
  - apply filter_filter.
  - apply filter_ext. intros l. rewrite andb_true_r. reflexivity.
  - reflexivity.
  - symmetry. apply filter_all.
Qed.

Lemma statement_rows (a : App.Account) (start_date end_date : option date) :
  App.statement a start_date end_date
  = App.running (App.type a) 0
      (filter (fun l => within start_date end_date (App.line_date l)) (App.entries a)).
Proof.
  rewrite <- statement_lines. unfold App.statement. rewrite running_lines.
  reflexivity.
Qed.

(** C5, as stated, fails on the order of same-date entries: after a credit
    and then a debit on the same day, the statement lists the debit first. *)
Lemma C5_same_date_entries_not_in_call_order :
  lines_in_call_order day0 same_day_calls
  = [ App.credit_line (App.mkEntry 50000 "paid out" day0);
      App.debit_line (App.mkEntry 30000 "received" day0) ]
  /\ map App.row_line (App.statement same_day_account None None)
     = [ App.debit_line (App.mkEntry 30000 "received" day0);
         App.credit_line (App.mkEntry 50000 "paid out" day0) ]
  /\ map App.row_line (App.statement same_day_account None None)
     <> lines_in_call_order day0 same_day_calls.
Proof.
  split; [reflexivity|]. split; [reflexivity|].
  vm_compute. discriminate.
Qed.

(** C5, amended.  For every account and every pair of optional inclusive
    date bounds, the lines of [statement(start_date, end_date)] are exactly
    the entries dated within the bounds, sorted by date; the entries of one
    date are the debit entries of that date in the order of the debit list,
    followed by the credit entries of that date in the order of the credit
    list.  Each row carries the running balance: the sum, up to and including
    the row, of debit minus credit for a debit-normal account and of credit
    minus debit for a credit-normal one.  The running balance of the last
    row is the balance computed over the entries within the bounds. *)
Theorem C5_statement_filters_sorts_and_accumulates
    (a : App.Account) (start_date end_date : option date) :
  let rows := App.statement a start_date end_date in
  let lines := map App.row_line rows in
  let selected := fun e => within start_date end_date (App.entry_date e) in
  Permutation lines
    (filter (fun l => within start_date end_date (App.line_date l))
       (App.all_entries a))
  /\ StronglySorted (key_le App.line_date date_leb) lines
  /\ (forall d : date,
        filter (fun l => date_eqb (App.line_date l) d) lines
        = map App.debit_line
            (filter (fun e => selected e && date_eqb (App.entry_date e) d)
               (App.debits a))
          ++ map App.credit_line
               (filter (fun e => selected e && date_eqb (App.entry_date e) d)
                  (App.credits a)))
  /\ (forall l : App.Line,
        App.contribution (App.type a) l
        = if credit_normal_type (App.type a)
          then App.line_credit l - App.line_debit l
          else App.line_debit l - App.line_credit l)
  /\ (forall (i : nat) (r : App.Row),
        nth_error rows i = Some r ->
        App.row_balance r
        = sigma (map (App.contribution (App.type a)) (firstn (S i) lines)))
  /\ (rows <> [] ->
      last (map App.row_balance rows) 0
      = signed (credit_normal_type (App.type a))
          (sigma (map App.amount (filter selected (App.debits a))))
          (sigma (map App.amount (filter selected (App.credits a))))).
Proof.
  intros rows lines selected.
  assert (Hlines : lines
                   = filter (fun l => within start_date end_date (App.line_date l))
                       (App.entries a)) by apply statement_lines.
  assert (Hrows : rows = App.running (App.type a) 0 lines).
  { subst rows. rewrite Hlines. apply statement_rows. }
  repeat apply conj.
  - rewrite Hlines. apply filter_perm. apply sorted_perm.
  - rewrite Hlines. apply filter_sorted. apply sorted_sorted.
    + apply date_leb_total.
    + apply date_leb_trans.
  - intros d. rewrite Hlines, filter_filter. unfold App.entries.
    rewrite sorted_filter.
    + unfold App.all_entries. rewrite filter_app, !filter_map_comm. reflexivity.
    + intros x y Hx Hy. apply andb_true_iff in Hx, Hy.
      eapply date_eqb_leb; [apply Hx | apply Hy].
  - intros l. unfold App.contribution. rewrite credit_normal_type_spec. reflexivity.
  - intros i r H. rewrite Hrows in H. apply running_nth in H. rewrite H. lia.
  - intros Hne. rewrite Hrows.
    pose proof (running_last (App.type a) lines 0) as H. rewrite Z.add_0_l in H.
    rewrite H, Hlines. apply (contribution_selected a (within start_date end_date)).
Qed.

Lemma C5_statement_witness :
  last (map App.row_balance (App.statement same_day_account None (Some day0))) 0
  = signed false (30000 + 0) (50000 + 0).
Proof.
  apply (C5_statement_filters_sorts_and_accumulates same_day_account None (Some day0)).
  discriminate.
Defined.

(** ** Closing the books *)

(** C4, as stated, fails for the Revenue account 4100 (Sales Returns):
    [close_books] closes account 4000 only, and 100.00 credited to 4100 is
    still there afterwards. *)
Lemma C4_sales_returns_not_closed :
  option_map DoubleEntry.type
    (dict_get "4100" (DoubleEntry.accounts ledger_returns)) = Some "Revenue"
  /\ fst (DoubleEntry.close_books day0 ids ledger_returns) = Ok 0
  /\ balance_of
       (DoubleEntry.accounts (snd (DoubleEntry.close_books day0 ids ledger_returns)))
       "4100" = 1000000.
Proof. vm_compute. repeat split. Qed.

(** [close_books] posts its amounts rounded to the cent.  With 0.005 on
    account 4000 it closes 0.01 into Equity and leaves -0.005 on 4000; the
    next [close_books] then asks for an entry of -0.01 and raises.  The
    amended statement is about balances in whole cents. *)
Lemma close_books_half_cent :
  let closed := DoubleEntry.close_books day0 ids ledger_half_cent_sale in
  balance_of (DoubleEntry.accounts ledger_half_cent_sale) "4000" = 50
  /\ fst closed = Ok (1 * DoubleEntry.CENT)
  /\ balance_of (DoubleEntry.accounts (snd closed)) "4000" = -50
  /\ balance_of (DoubleEntry.accounts (snd closed)) "3000" = 1 * DoubleEntry.CENT
  /\ fst (DoubleEntry.close_books day0 ids (snd closed))
     = Raise (ValueError "All line amounts must be positive").
Proof. vm_compute. repeat split. Qed.

Lemma apply_lines_chart (je_id : string) (ls : list DoubleEntry.EntryLine)
    (accts : dict DoubleEntry.Account) :
  let accts' := snd (DoubleEntry.apply_lines je_id ls accts) in
  dict_keys accts' = dict_keys accts
  /\ forall k, option_map DoubleEntry.type (dict_get k accts')
               = option_map DoubleEntry.type (dict_get k accts).
Proof.
  revert accts. induction ls as [|l ls IH]; intros accts; simpl.
  - split; reflexivity.
  - destruct (dict_get (DoubleEntry.account l) accts) as [acct|] eqn:E; simpl.
    + match goal with
      | |- context [DoubleEntry.apply_lines je_id ls ?d] => destruct (IH d) as [Hk Ht]
      end.
      split.
      * rewrite Hk. apply dict_keys_set_present. congruence.
      * intros k. rewrite Ht.
        destruct (String.eqb_spec k (DoubleEntry.account l)) as [->|Hne].
        -- rewrite dict_get_set_same, E. destruct (DoubleEntry.is_debit l); reflexivity.
        -- rewrite dict_get_set_other by assumption. reflexivity.
    + split; reflexivity.
Qed.

Lemma chart_ok_same_chart (L L' : DoubleEntry.Ledger) :
  dict_keys (DoubleEntry.accounts L') = dict_keys (DoubleEntry.accounts L) ->
  (forall k, option_map DoubleEntry.type (dict_get k (DoubleEntry.accounts L'))
             = option_map DoubleEntry.type (dict_get k (DoubleEntry.accounts L))) ->
  ledger_chart_ok L -> ledger_chart_ok L'.
Proof.
  intros Hk Ht (Hnd & (eq & He & Het) & (rev & Hr & Hrt)).
  split; [rewrite Hk; exact Hnd|]. split.
  - pose proof (Ht "3000") as H. rewrite He in H. simpl in H.
    destruct (dict_get "3000" (DoubleEntry.accounts L')) as [eq'|]; [|discriminate].
    exists eq'. split; [reflexivity|]. simpl in H. congruence.
  - pose proof (Ht "4000") as H. rewrite Hr in H. simpl in H.
    destruct (dict_get "4000" (DoubleEntry.accounts L')) as [rev'|]; [|discriminate].
    exists rev'. split; [reflexivity|]. simpl in H. congruence.
Qed.

Lemma ledger_seed_chart : ledger_chart_ok DoubleEntry.new_ledger.
Proof.
  split; [|split].
  - vm_compute. repeat (constructor; [simpl; intuition discriminate|]). constructor.
  - eexists. split; reflexivity.
  - eexists. split; reflexivity.
Qed.

Lemma ledger_reachable_chart (uuid4 : nat -> string) (L : DoubleEntry.Ledger) :
  ledger_reachable uuid4 L -> ledger_chart_ok L.
Proof.
  induction 1 as [|L code name typ _ IH|today L description lines je L' _ IH H
                 |L je_id je L' _ IH H].
  - apply ledger_seed_chart.
  - unfold DoubleEntry.create_account, dict_mem.
    destruct (dict_get code (DoubleEntry.accounts L)) eqn:E; [exact IH|].
    destruct IH as (Hnd & (eq & He & Het) & (rev & Hr & Hrt)).
    split; [|split]; cbn [DoubleEntry.with_accounts DoubleEntry.accounts].
    + rewrite dict_keys_set_absent by assumption.
      apply NoDup_app; [exact Hnd | repeat constructor; simpl; tauto |].
      intros k Hk [<-|[]]. apply dict_get_in_keys in Hk. contradiction.
    + exists eq. split; [|exact Het].
      rewrite dict_get_set_other; [exact He | congruence].
    + exists rev. split; [|exact Hrt].
      rewrite dict_get_set_other; [exact Hr | congruence].
  - apply ledger_new_entry_inv in H. destruct H as (_ & _ & _ & ->). exact IH.
  - unfold DoubleEntry.post_entry in H.
    destruct (dict_get je_id (DoubleEntry.journal L)) as [j|]; [|discriminate].
    destruct (DoubleEntry.posted j); [discriminate|].
    pose proof (apply_lines_chart (DoubleEntry.id j) (DoubleEntry.lines j)
                  (DoubleEntry.accounts L)) as Hc.
    destruct (DoubleEntry.apply_lines _ _ _) as [r accts].
    destruct r as [[]|e]; [|discriminate].
    injection H as _ <-. simpl in Hc. destruct Hc as [Hk Ht].
    eapply chart_ok_same_chart; [| |exact IH]; assumption.
Qed.

Lemma balance_debited (je_id : string) (amt : Decimal) (a : DoubleEntry.Account) :
  DoubleEntry.balance (debited je_id amt a)
  = DoubleEntry.balance a
    + (if DoubleEntry.debit_normal (DoubleEntry.type a) then amt else - amt).
Proof.
  rewrite !ledger_balance_lists. unfold debited, signed. simpl.
  rewrite map_app, sigma_app. unfold sigma. simpl.
  destruct (DoubleEntry.debit_normal (DoubleEntry.type a)); simpl; lia.
Qed.

Lemma balance_credited (je_id : string) (amt : Decimal) (a : DoubleEntry.Account) :
  DoubleEntry.balance (credited je_id amt a)
  = DoubleEntry.balance a
    - (if DoubleEntry.debit_normal (DoubleEntry.type a) then amt else - amt).
Proof.
  rewrite !ledger_balance_lists. unfold credited, signed. simpl.
  rewrite map_app, sigma_app. unfold sigma. simpl.
  destruct (DoubleEntry.debit_normal (DoubleEntry.type a)); simpl; lia.
Qed.

(** A successful posting of one debit line and one credit line of the same
    positive amount to two different accounts. *)
Lemma ledger_post_pair (today : date) (uuid4 : nat -> string)
    (L : DoubleEntry.Ledger) (description k1 k2 : string) (amt : Decimal)
    (a1 a2 : DoubleEntry.Account) :
  0 < amt -> k2 <> k1 ->
  dict_get k1 (DoubleEntry.accounts L) = Some a1 ->
  dict_get k2 (DoubleEntry.accounts L) = Some a2 ->
  exists je jn,
    DoubleEntry.post_transaction today uuid4 L description
      [ DoubleEntry.mkEntryLine k1 amt true; DoubleEntry.mkEntryLine k2 amt false ]
    = (Ok je,
       DoubleEntry.mkLedger
         (dict_set k2 (credited (uuid4 (DoubleEntry.draws L)) amt a2)
            (dict_set k1 (debited (uuid4 (DoubleEntry.draws L)) amt a1)
               (DoubleEntry.accounts L)))
         jn (S (DoubleEntry.draws L))).
Proof.
  intros Hamt Hne H1 H2. unfold DoubleEntry.post_transaction.
  rewrite ledger_new_entry_ok.
  - unfold DoubleEntry.post_entry.
    cbn [DoubleEntry.id DoubleEntry.journal DoubleEntry.accounts DoubleEntry.draws].
    rewrite dict_get_set_same.
    cbn [DoubleEntry.posted DoubleEntry.id DoubleEntry.lines DoubleEntry.apply_lines
           DoubleEntry.account DoubleEntry.is_debit DoubleEntry.amount].
    rewrite H1.
    rewrite dict_get_set_other by assumption. rewrite H2.
    eexists. eexists. reflexivity.
  - repeat constructor; assumption.
  - unfold debit_total, credit_total. simpl. reflexivity.
Qed.

Lemma expense_of_other (accts : dict DoubleEntry.Account) (k k' : string)
    (a : DoubleEntry.Account) :
  k' <> k -> expense_of (dict_set k a accts) k' = expense_of accts k'.
Proof. intros H. unfold expense_of. rewrite dict_get_set_other by assumption. reflexivity. Qed.

Lemma expense_of_same (accts : dict DoubleEntry.Account) (k : string)
    (a : DoubleEntry.Account) :
  expense_of (dict_set k a accts) k
  = if is_expense a then DoubleEntry.balance a else 0.
Proof. unfold expense_of. rewrite dict_get_set_same. reflexivity. Qed.

Lemma close_expenses_noop (today : date) (uuid4 : nat -> string)
    (items : list (string * DoubleEntry.Account)) (L : DoubleEntry.Ledger) :
  (forall k, expense_of (DoubleEntry.accounts L) k = 0) ->
  DoubleEntry.close_expenses today uuid4 L items = (Ok tt, L).
Proof.
  intros Hz. induction items as [|[code snap] rest IH]; simpl; [reflexivity|].
  pose proof (Hz code) as Hc. unfold expense_of, is_expense in Hc.
  destruct (dict_get code (DoubleEntry.accounts L)) as [acct|]; [|exact IH].
  destruct (String.eqb (DoubleEntry.type acct) "Expense"); [|exact IH].
  rewrite Hc. change (DoubleEntry.D 0) with 0. cbn [Z.eqb negb]. exact IH.
Qed.

Lemma expense_fold (accts : dict DoubleEntry.Account) (start : Decimal) :
  fold_left (fun total kv =>
               if String.eqb (DoubleEntry.type (snd kv)) "Expense"
               then total + DoubleEntry.balance (snd kv) else total)
    accts start
  = start + expense_total accts.
Proof.
  unfold expense_total, dict_values. revert start.
  induction accts as [|[k a] accts IH]; intros start; simpl.
  - lia.
  - rewrite IH. unfold is_expense.
    destruct (String.eqb (DoubleEntry.type a) "Expense"); unfold sigma; simpl; lia.
Qed.

Lemma expense_total_keys (accts : dict DoubleEntry.Account) :
  NoDup (dict_keys accts) ->
  sigma (map (expense_of accts) (dict_keys accts)) = expense_total accts.
Proof.
  unfold expense_total, dict_values, dict_keys.
  induction accts as [|[k a] accts IH]; intros Hnd; simpl; [reflexivity|].
  inversion Hnd as [|? ? Hk Hnd']; subst.
  unfold expense_of at 1. simpl. rewrite String.eqb_refl.
  assert (E : map (expense_of ((k, a) :: accts)) (map fst accts)
              = map (expense_of accts) (map fst accts)).
  { apply map_ext_in. intros k' Hk'. unfold expense_of. simpl.
    destruct (String.eqb_spec k' k) as [->|]; [contradiction | reflexivity]. }
  rewrite E, IH by assumption.
  destruct (is_expense a); unfold sigma; simpl; lia.
Qed.

Lemma close_expenses_spec (today : date) (uuid4 : nat -> string) :
  forall (items : list (string * DoubleEntry.Account)) (L : DoubleEntry.Ledger)
         (equity : DoubleEntry.Account),
    NoDup (map fst items) ->
    dict_get "3000" (DoubleEntry.accounts L) = Some equity ->
    DoubleEntry.type equity = "Equity" ->
    (forall k, 0 <= expense_of (DoubleEntry.accounts L) k
               /\ whole_cents (expense_of (DoubleEntry.accounts L) k)) ->
    exists L',
      DoubleEntry.close_expenses today uuid4 L items = (Ok tt, L')
      /\ dict_keys (DoubleEntry.accounts L') = dict_keys (DoubleEntry.accounts L)
      /\ (forall k, option_map DoubleEntry.type (dict_get k (DoubleEntry.accounts L'))
                    = option_map DoubleEntry.type (dict_get k (DoubleEntry.accounts L)))
      /\ (forall k, In k (map fst items) ->
                    expense_of (DoubleEntry.accounts L') k = 0)
      /\ (forall k, k <> "3000" ->
                    ~ In k (map fst items) \/ expense_of (DoubleEntry.accounts L) k = 0 ->
                    dict_get k (DoubleEntry.accounts L')
                    = dict_get k (DoubleEntry.accounts L))
      /\ balance_of (DoubleEntry.accounts L') "3000"
         = balance_of (DoubleEntry.accounts L) "3000"
           - sigma (map (expense_of (DoubleEntry.accounts L)) (map fst items)).
Proof.
  induction items as [|[code snap] rest IH]; intros L equity Hnd H3 Ht Hnn.
  - exists L. simpl. repeat split; auto; [intros k [] | lia].
  - inversion Hnd as [|? ? Hcode Hnd']; subst.
    assert (Hskip :
              expense_of (DoubleEntry.accounts L) code = 0 ->
              DoubleEntry.close_expenses today uuid4 L ((code, snap) :: rest)
              = DoubleEntry.close_expenses today uuid4 L rest ->
              exists L',
                DoubleEntry.close_expenses today uuid4 L ((code, snap) :: rest)
                = (Ok tt, L')
                /\ dict_keys (DoubleEntry.accounts L') = dict_keys (DoubleEntry.accounts L)
                /\ (forall k,
                       option_map DoubleEntry.type (dict_get k (DoubleEntry.accounts L'))
                       = option_map DoubleEntry.type (dict_get k (DoubleEntry.accounts L)))
                /\ (forall k, In k (map fst ((code, snap) :: rest)) ->
                              expense_of (DoubleEntry.accounts L') k = 0)
                /\ (forall k, k <> "3000" ->
                              ~ In k (map fst ((code, snap) :: rest))
                              \/ expense_of (DoubleEntry.accounts L) k = 0 ->
                              dict_get k (DoubleEntry.accounts L')
                              = dict_get k (DoubleEntry.accounts L))
                /\ balance_of (DoubleEntry.accounts L') "3000"
                   = balance_of (DoubleEntry.accounts L) "3000"
                     - sigma (map (expense_of (DoubleEntry.accounts L))
                                (map fst ((code, snap) :: rest)))).
    { intros Hz0 Hstep.
      destruct (IH L equity Hnd' H3 Ht Hnn) as (L' & Hrun & Hk & Hty & Hz & Hun & Heq).
      exists L'. split; [rewrite Hstep; exact Hrun|].
      split; [exact Hk|]. split; [exact Hty|]. split; [|split].
      - intros k [<-|Hin]; [cbn [fst]|apply Hz; exact Hin].
        destruct (String.eqb_spec code "3000") as [->|Hne3].
        + unfold expense_of. pose proof (Hty "3000") as T. rewrite H3 in T.
          destruct (dict_get "3000" (DoubleEntry.accounts L')) as [e'|]; [|reflexivity].
          simpl in T. injection T as T. unfold is_expense. rewrite T, Ht. reflexivity.
        + unfold expense_of. rewrite (Hun code Hne3 (or_introl Hcode)). exact Hz0.
      - intros k Hk3 Hor. apply Hun; [exact Hk3|].
        destruct Hor as [Hn|Hz']; [left | right; exact Hz'].
        intros Hin. apply Hn. right. exact Hin.
      - rewrite Heq. cbn [map fst]. rewrite Hz0. unfold sigma. simpl. lia. }
    destruct (dict_get code (DoubleEntry.accounts L)) as [acct|] eqn:Ec.
    2:{ apply Hskip; [unfold expense_of; rewrite Ec; reflexivity|].
        simpl. rewrite Ec. reflexivity. }
    destruct (String.eqb (DoubleEntry.type acct) "Expense") eqn:Ee.
    2:{ apply Hskip; [unfold expense_of, is_expense; rewrite Ec, Ee; reflexivity|].
        simpl. rewrite Ec, Ee. reflexivity. }
    destruct (Z.eq_dec (DoubleEntry.balance acct) 0) as [Hb0|Hbn].
    { apply Hskip; [unfold expense_of, is_expense; rewrite Ec, Ee; exact Hb0|].
      cbn [DoubleEntry.close_expenses]. rewrite Ec, Ee, Hb0. reflexivity. }
    assert (Hpos : 0 < DoubleEntry.balance acct).
    { pose proof (Hnn code) as [H _]. unfold expense_of, is_expense in H.
      rewrite Ec, Ee in H. lia. }
    assert (Hcents : DoubleEntry.D (DoubleEntry.balance acct) = DoubleEntry.balance acct).
    { pose proof (Hnn code) as [_ H]. unfold expense_of, is_expense in H.
      rewrite Ec, Ee in H. exact H. }
    assert (Hne3 : code <> "3000").
    { intros ->. rewrite H3 in Ec. injection Ec as <-. rewrite Ht in Ee. discriminate. }
    assert (Hdn : DoubleEntry.debit_normal (DoubleEntry.type acct) = true).
    { apply String.eqb_eq in Ee. rewrite Ee. reflexivity. }
    destruct (ledger_post_pair today uuid4 L
                ("Close Expense " ++ DoubleEntry.name acct)%string "3000" code
                (DoubleEntry.balance acct) equity acct Hpos Hne3 H3 Ec)
      as (je & jn & Hpost).
    set (jid := uuid4 (DoubleEntry.draws L)) in *.
    set (amt := DoubleEntry.balance acct) in *.
    set (accts1 := dict_set code (credited jid amt acct)
                     (dict_set "3000" (debited jid amt equity) (DoubleEntry.accounts L)))
      in *.
    assert (H31 : dict_get "3000" accts1 = Some (debited jid amt equity)).
    { unfold accts1. rewrite dict_get_set_other by congruence.
      apply dict_get_set_same. }
    assert (Hc1 : dict_get code accts1 = Some (credited jid amt acct)).
    { unfold accts1. apply dict_get_set_same. }
    assert (Hother : forall k, k <> code -> k <> "3000" ->
                               dict_get k accts1 = dict_get k (DoubleEntry.accounts L)).
    { intros k H1 H2. unfold accts1. rewrite !dict_get_set_other by assumption.
      reflexivity. }
    assert (Hexp1c : expense_of accts1 code = 0).
    { unfold expense_of. rewrite Hc1. unfold is_expense. cbn [credited DoubleEntry.type].
      rewrite Ee, balance_credited, Hdn. subst amt. lia. }
    assert (Hexp1 : forall k, k <> code ->
                              expense_of accts1 k = expense_of (DoubleEntry.accounts L) k).
    { intros k Hk. destruct (String.eqb_spec k "3000") as [->|Hk3].
      - unfold expense_of. rewrite H31, H3. unfold is_expense.
        cbn [debited DoubleEntry.type]. rewrite Ht. reflexivity.
      - unfold expense_of. rewrite Hother by assumption. reflexivity. }
    assert (Hnn1 : forall k, 0 <= expense_of accts1 k
                             /\ whole_cents (expense_of accts1 k)).
    { intros k. destruct (String.eqb_spec k code) as [->|Hk].
      - rewrite Hexp1c. split; [lia | apply whole_cents_zero].
      - rewrite Hexp1 by assumption. apply Hnn. }
    destruct (IH (DoubleEntry.mkLedger accts1 jn (S (DoubleEntry.draws L)))
                (debited jid amt equity) Hnd' H31 Ht Hnn1)
      as (L' & Hrun & Hk & Hty & Hz & Hun & Heq).
    cbn [DoubleEntry.accounts] in Hk, Hty, Hun, Heq.
    exists L'. split; [|split; [|split; [|split; [|split]]]].
    + cbn [DoubleEntry.close_expenses]. rewrite Ec, Ee.
      change (DoubleEntry.D 0) with 0. fold amt. rewrite Hcents.
      destruct (Z.eqb_spec amt 0) as [Hz0|_]; [contradiction|].
      cbn [negb]. rewrite Hpost. exact Hrun.
    + rewrite Hk. unfold accts1.
      rewrite !dict_keys_set_present; [reflexivity | congruence |].
      rewrite dict_get_set_other by assumption. congruence.
    + intros k. rewrite Hty.
      destruct (String.eqb_spec k code) as [->|Hkc].
      * rewrite Hc1, Ec. reflexivity.
      * destruct (String.eqb_spec k "3000") as [->|Hk3].
        -- rewrite H31, H3. reflexivity.
        -- rewrite Hother by assumption. reflexivity.
    + intros k [<-|Hin]; [cbn [fst]|apply Hz; exact Hin].
      unfold expense_of. rewrite (Hun code Hne3 (or_introl Hcode)). exact Hexp1c.
    + intros k Hk3 Hor.
      assert (Hkc : k <> code).
      { intros ->. destruct Hor as [Hn|Hz0].
        - apply Hn. left. reflexivity.
        - unfold expense_of, is_expense in Hz0. rewrite Ec, Ee in Hz0. contradiction. }
      rewrite Hun; [apply Hother; assumption | exact Hk3 |].
      destruct Hor as [Hn|Hz0].
      * left. intros Hin. apply Hn. right. exact Hin.
      * right. rewrite Hexp1 by assumption. exact Hz0.
    + rewrite Heq. unfold balance_of at 1. rewrite H31.
      unfold balance_of. rewrite H3. rewrite balance_debited.
      assert (Hdq : DoubleEntry.debit_normal (DoubleEntry.type equity) = false)
        by (rewrite Ht; reflexivity).
      rewrite Hdq.
      assert (E : map (expense_of accts1) (map fst rest)
                  = map (expense_of (DoubleEntry.accounts L)) (map fst rest)).
      { apply map_ext_in. intros k Hin. apply Hexp1. intros ->. contradiction. }
      rewrite E. cbn [map fst]. unfold expense_of at 2. rewrite Ec.
      unfold is_expense. rewrite Ee. fold amt. unfold sigma. simpl. lia.
Qed.

Lemma sigma_zeros {A} (f : A -> Decimal) (l : list A) :
  (forall x, In x l -> f x = 0) -> sigma (map f l) = 0.
Proof.
  induction l as [|x xs IH]; intros H; [reflexivity|].
  change (sigma (map f (x :: xs))) with (f x + sigma (map f xs)).
  rewrite (H x) by (left; reflexivity).
  rewrite IH; [reflexivity|].
  intros y Hy. apply H. right. exact Hy.
Qed.

(** The first step of [close_books]: account 4000 is closed into 3000. *)
Lemma close_revenue_step (today : date) (uuid4 : nat -> string)
    (L : DoubleEntry.Ledger) (equity revenue : DoubleEntry.Account) :
  dict_get "3000" (DoubleEntry.accounts L) = Some equity ->
  DoubleEntry.type equity = "Equity" ->
  dict_get "4000" (DoubleEntry.accounts L) = Some revenue ->
  DoubleEntry.type revenue = "Revenue" ->
  0 <= DoubleEntry.balance revenue ->
  exists L1 equity1 revenue1,
    (if negb (DoubleEntry.balance revenue =? 0) then
       match DoubleEntry.post_transaction today uuid4 L "Close Revenue"
               [ DoubleEntry.mkEntryLine "4000" (DoubleEntry.balance revenue) true;
                 DoubleEntry.mkEntryLine "3000" (DoubleEntry.balance revenue) false ] with
       | (Raise e, L') => (Raise e, L')
       | (Ok _, L') => (Ok tt, L')
       end
     else (Ok tt, L)) = (Ok tt, L1)
    /\ dict_keys (DoubleEntry.accounts L1) = dict_keys (DoubleEntry.accounts L)
    /\ dict_get "3000" (DoubleEntry.accounts L1) = Some equity1
    /\ DoubleEntry.type equity1 = "Equity"
    /\ DoubleEntry.balance equity1
       = DoubleEntry.balance equity + DoubleEntry.balance revenue
    /\ dict_get "4000" (DoubleEntry.accounts L1) = Some revenue1
    /\ DoubleEntry.type revenue1 = "Revenue"
    /\ DoubleEntry.balance revenue1 = 0
    /\ (forall k, k <> "3000" -> k <> "4000" ->
                  dict_get k (DoubleEntry.accounts L1)
                  = dict_get k (DoubleEntry.accounts L)).
Proof.
  intros H3 Ht3 H4 Ht4 Hnn.
  destruct (Z.eqb_spec (DoubleEntry.balance revenue) 0) as [Hz|Hnz]; cbn [negb].
  - exists L, equity, revenue. repeat split; auto. lia.
  - assert (Hpos : 0 < DoubleEntry.balance revenue) by lia.
    destruct (ledger_post_pair today uuid4 L "Close Revenue" "4000" "3000"
                (DoubleEntry.balance revenue) revenue equity Hpos
                ltac:(discriminate) H4 H3) as (je & jn & Hpost).
    rewrite Hpost.
    set (jid := uuid4 (DoubleEntry.draws L)) in *.
    set (amt := DoubleEntry.balance revenue) in *.
    eexists. exists (credited jid amt equity), (debited jid amt revenue).
    split; [reflexivity|]. cbn [DoubleEntry.accounts].
    repeat apply conj.
    + rewrite !dict_keys_set_present; [reflexivity | congruence |].
      rewrite dict_get_set_other by discriminate. congruence.
    + apply dict_get_set_same.
    + exact Ht3.
    + rewrite balance_credited. rewrite Ht3. simpl. lia.
    + rewrite dict_get_set_other by discriminate. apply dict_get_set_same.
    + exact Ht4.
    + rewrite balance_debited. rewrite Ht4. simpl. subst amt. lia.
    + intros k H1 H2. rewrite !dict_get_set_other by assumption. reflexivity.
Qed.

Lemma close_books_spec (today : date) (uuid4 : nat -> string)
    (L : DoubleEntry.Ledger) :
  ledger_chart_ok L -> closable L ->
  exists L',
    DoubleEntry.close_books today uuid4 L
    = (Ok (balance_of (DoubleEntry.accounts L) "4000"
           - expense_total (DoubleEntry.accounts L)), L')
    /\ ledger_chart_ok L'
    /\ balance_of (DoubleEntry.accounts L') "4000" = 0
    /\ (forall k, expense_of (DoubleEntry.accounts L') k = 0)
    /\ balance_of (DoubleEntry.accounts L') "3000"
       = balance_of (DoubleEntry.accounts L) "3000"
         + balance_of (DoubleEntry.accounts L) "4000"
         - expense_total (DoubleEntry.accounts L)
    /\ (forall k, k <> "3000" -> k <> "4000" ->
                  expense_of (DoubleEntry.accounts L) k = 0 ->
                  dict_get k (DoubleEntry.accounts L')
                  = dict_get k (DoubleEntry.accounts L)).
Proof.
  intros (Hnd & (equity & H3 & Ht3) & (revenue & H4 & Ht4)) [[Hrev Hrevc] Hexp].
  assert (Hb4 : balance_of (DoubleEntry.accounts L) "4000" = DoubleEntry.balance revenue).
  { unfold balance_of. rewrite H4. reflexivity. }
  assert (Htotal : whole_cents (expense_total (DoubleEntry.accounts L))).
  { rewrite <- expense_total_keys by exact Hnd.
    apply whole_cents_sigma, Forall_map, Forall_forall. intros k _. apply Hexp. }
  assert (Hb3 : balance_of (DoubleEntry.accounts L) "3000" = DoubleEntry.balance equity).
  { unfold balance_of. rewrite H3. reflexivity. }
  rewrite Hb4 in *. rewrite Hb3.
  destruct (close_revenue_step today uuid4 L equity revenue H3 Ht3 H4 Ht4 Hrev)
    as (L1 & equity1 & revenue1 & Hstep & Hk1 & H31 & Ht31 & Hbe1 & H41 & Ht41 & Hbr1 & Hoth1).
  assert (Hexp1 : forall k, expense_of (DoubleEntry.accounts L1) k
                            = expense_of (DoubleEntry.accounts L) k).
  { intros k. unfold expense_of, is_expense.
    destruct (String.eqb_spec k "3000") as [->|Hk3].
    - rewrite H31, H3, Ht31, Ht3. reflexivity.
    - destruct (String.eqb_spec k "4000") as [->|Hk4].
      + rewrite H41, H4, Ht41, Ht4. reflexivity.
      + rewrite Hoth1 by assumption. reflexivity. }
  assert (Hnd1 : NoDup (map fst (DoubleEntry.accounts L1))).
  { change (NoDup (dict_keys (DoubleEntry.accounts L1))). rewrite Hk1. exact Hnd. }
  assert (Hnn1 : forall k, 0 <= expense_of (DoubleEntry.accounts L1) k
                           /\ whole_cents (expense_of (DoubleEntry.accounts L1) k)).
  { intros k. rewrite Hexp1. apply Hexp. }
  destruct (close_expenses_spec today uuid4 (DoubleEntry.accounts L1) L1 equity1
              Hnd1 H31 Ht31 Hnn1)
    as (L2 & Hrun & Hk2 & Hty2 & Hz2 & Hun2 & Heq2).
  exists L2.
  assert (H42 : dict_get "4000" (DoubleEntry.accounts L2) = Some revenue1).
  { rewrite Hun2; [exact H41 | discriminate |].
    right. unfold expense_of, is_expense. rewrite H41, Ht41. reflexivity. }
  assert (Hzero : forall k, expense_of (DoubleEntry.accounts L2) k = 0).
  { intros k.
    destruct (dict_get k (DoubleEntry.accounts L2)) as [a|] eqn:E.
    - apply Hz2. change (In k (dict_keys (DoubleEntry.accounts L1))).
      rewrite <- Hk2. apply dict_get_in_keys. congruence.
    - unfold expense_of. rewrite E. reflexivity. }
  split; [|split; [|split; [|split; [|split]]]].
  - unfold DoubleEntry.close_books. rewrite H4. cbv zeta.
    change (DoubleEntry.D 0) with 0. rewrite expense_fold, Z.add_0_l.
    unfold whole_cents in Hrevc. rewrite Hrevc, Hstep, Hrun.
    pose proof (whole_cents_sub _ _ Hrevc Htotal) as Hnet.
    unfold whole_cents in Hnet. rewrite Hnet. reflexivity.
  - apply (chart_ok_same_chart L).
    + rewrite Hk2. exact Hk1.
    + intros k. rewrite Hty2.
      destruct (String.eqb_spec k "3000") as [->|Hk3].
      * rewrite H31, H3. simpl. congruence.
      * destruct (String.eqb_spec k "4000") as [->|Hk4].
        -- rewrite H41, H4. simpl. congruence.
        -- rewrite Hoth1 by assumption. reflexivity.
    + split; [exact Hnd|]. split; eauto.
  - unfold balance_of. rewrite H42. exact Hbr1.
  - exact Hzero.
  - rewrite Heq2. unfold balance_of at 1. rewrite H31, Hbe1.
    assert (E : map (expense_of (DoubleEntry.accounts L1))
                  (map fst (DoubleEntry.accounts L1))
                = map (expense_of (DoubleEntry.accounts L))
                    (dict_keys (DoubleEntry.accounts L))).
    { change (map fst (DoubleEntry.accounts L1))
        with (dict_keys (DoubleEntry.accounts L1)).
      rewrite Hk1. apply map_ext. exact Hexp1. }
    rewrite E, expense_total_keys by exact Hnd. lia.
  - intros k Hk3 Hk4 Hz. rewrite Hun2; [apply Hoth1; assumption | exact Hk3 |].
    right. rewrite Hexp1. exact Hz.
Qed.

Lemma expense_total_zero (accts : dict DoubleEntry.Account) :
  NoDup (dict_keys accts) ->
  (forall k, expense_of accts k = 0) -> expense_total accts = 0.
Proof.
  intros Hnd Hz. rewrite <- expense_total_keys by exact Hnd.
  apply sigma_zeros. intros k _. apply Hz.
Qed.

(** After a closing, a second closing posts nothing. *)
Lemma close_books_again (today : date) (uuid4 : nat -> string)
    (L : DoubleEntry.Ledger) :
  ledger_chart_ok L ->
  balance_of (DoubleEntry.accounts L) "4000" = 0 ->
  (forall k, expense_of (DoubleEntry.accounts L) k = 0) ->
  DoubleEntry.close_books today uuid4 L = (Ok 0, L).
Proof.
  intros (Hnd & _ & (revenue & H4 & Ht4)) Hb Hz.
  unfold balance_of in Hb. rewrite H4 in Hb.
  unfold DoubleEntry.close_books. rewrite H4. cbv zeta.
  change (DoubleEntry.D 0) with 0. rewrite expense_fold, Hb.
  rewrite (expense_total_zero _ Hnd Hz).
  cbn [Z.eqb negb]. rewrite close_expenses_noop by exact Hz. reflexivity.
Qed.

(** C4, amended.  On a ledger reached from the seeded chart in which
    account 4000 and every Expense account have a non-negative balance in
    whole cents, [close_books] succeeds and returns the balance of 4000
    minus the total of the expense balances; afterwards account 4000 and
    every Expense account have balance 0.00, the balance of Equity (3000)
    has increased by exactly that net income, and every other account that
    is not an Expense account (the Revenue account 4100 among them) is as it
    was.  Zero amounts are skipped: a second [close_books] returns 0.00 and
    changes nothing. *)
Theorem C4_close_books_closes_4000_and_expenses_into_equity
    (today : date) (uuid4 : nat -> string) (L : DoubleEntry.Ledger)
    (Hreach : ledger_reachable uuid4 L) (Hclosable : closable L) :
  let revenue := balance_of (DoubleEntry.accounts L) "4000" in
  let expenses := expense_total (DoubleEntry.accounts L) in
  exists L',
    DoubleEntry.close_books today uuid4 L = (Ok (revenue - expenses), L')
    /\ balance_of (DoubleEntry.accounts L') "4000" = 0
    /\ (forall code a,
           dict_get code (DoubleEntry.accounts L') = Some a ->
           DoubleEntry.type a = "Expense" -> DoubleEntry.balance a = 0)
    /\ balance_of (DoubleEntry.accounts L') "3000"
       = balance_of (DoubleEntry.accounts L) "3000" + (revenue - expenses)
    /\ (forall code a,
           dict_get code (DoubleEntry.accounts L) = Some a ->
           code <> "3000" -> code <> "4000" -> DoubleEntry.type a <> "Expense" ->
           dict_get code (DoubleEntry.accounts L') = Some a)
    /\ (forall today', DoubleEntry.close_books today' uuid4 L' = (Ok 0, L')).
Proof.
  intros revenue expenses.
  pose proof (ledger_reachable_chart uuid4 L Hreach) as Hchart.
  destruct (close_books_spec today uuid4 L Hchart Hclosable)
    as (L' & Hrun & Hchart' & H4 & Hz & H3 & Hoth).
  exists L'. split; [exact Hrun|]. split; [exact H4|]. split; [|split; [|split]].
  - intros code a Hget Ht. pose proof (Hz code) as H.
    unfold expense_of, is_expense in H. rewrite Hget, Ht in H. exact H.
  - rewrite H3. subst revenue expenses. lia.
  - intros code a Hget Hc3 Hc4 Ht. rewrite Hoth; try assumption.
    unfold expense_of, is_expense. rewrite Hget.
    destruct (String.eqb_spec (DoubleEntry.type a) "Expense"); [contradiction|reflexivity].
  - intros today'. apply close_books_again; assumption.
Qed.

Lemma closable_check (L : DoubleEntry.Ledger) :
  in_cents (balance_of (DoubleEntry.accounts L) "4000") = true ->
  forallb (fun a => negb (is_expense a) || in_cents (DoubleEntry.balance a))
    (dict_values (DoubleEntry.accounts L)) = true ->
  closable L.
Proof.
  assert (Hin : forall x, in_cents x = true -> 0 <= x /\ whole_cents x).
  { intros x H. apply andb_prop in H. destruct H as [H1 H2].
    split; [apply Z.leb_le; exact H1 | apply Z.eqb_eq; exact H2]. }
  intros H4 Hall. split; [apply Hin; exact H4|].
  intros code. unfold expense_of.
  destruct (dict_get code (DoubleEntry.accounts L)) as [a|] eqn:E;
    [|split; [lia | apply whole_cents_zero]].
  rewrite forallb_forall in Hall.
  specialize (Hall a (dict_get_in_values _ _ _ E)).
  destruct (is_expense a); [|split; [lia | apply whole_cents_zero]].
  apply Hin. exact Hall.
Qed.

Lemma ledger_demo_reachable : ledger_reachable ids ledger_demo.
Proof.
  unfold ledger_demo.
  repeat (apply ledger_reach_transaction; [|vm_compute; reflexivity]).
  apply ledger_reach_seed.
Qed.

Lemma C4_close_books_witness :
  exists L',
    DoubleEntry.close_books day0 ids ledger_demo = (Ok 23000000, L')
    /\ balance_of (DoubleEntry.accounts L') "3000" = 200000000 + 23000000
    /\ balance_of (DoubleEntry.accounts L') "4000" = 0.
Proof.
  destruct (C4_close_books_closes_4000_and_expenses_into_equity day0 ids ledger_demo
              ledger_demo_reachable
              (closable_check ledger_demo eq_refl eq_refl))
    as (L' & Hrun & H4 & _ & H3 & _).
  exists L'. split; [exact Hrun|]. split; [exact H3 | exact H4].
Defined.

(** * Further properties of the code *)

(** ** Printing and reading amounts and dates ([storage.py]) *)

Section StorageStrings.
Import App.storage.

Lemma digit_value_digit (k : Z) : 0 <= k <= 9 -> digit_value (digit k) = Some k.
Proof.
  intros H.
  assert (E : k = 0 \/ k = 1 \/ k = 2 \/ k = 3 \/ k = 4 \/ k = 5 \/ k = 6
              \/ k = 7 \/ k = 8 \/ k = 9) by lia.
  repeat (destruct E as [->|E]; [reflexivity|]). subst. reflexivity.
Qed.

Lemma two_digits_value (m : Z) :
  0 <= m < 100 -> digits_value 0 (two_digits m) = Some m.
Proof.
  intros H. unfold two_digits. cbn [digits_value].
  rewrite !digit_value_digit by (Z.div_mod_to_equations; lia).
  f_equal. Z.div_mod_to_equations. lia.
Qed.

Lemma four_digits_value (y : Z) :
  0 <= y < 10000 -> digits_value 0 (four_digits y) = Some y.
Proof.
  intros H. unfold four_digits, two_digits. cbn [digits_value].
  rewrite !digit_value_digit by (Z.div_mod_to_equations; lia).
  f_equal. Z.div_mod_to_equations. lia.
Qed.

Lemma parse_nat_str_nat (n : Z) : 0 <= n -> parse_nat (str_nat n) = Some n.
Proof.
  intros H. unfold parse_nat, str_nat.
  rewrite NilZero.usu.
  - simpl. rewrite DecimalN.Unsigned.of_to. f_equal. lia.
  - destruct (Z.to_N n); simpl; [discriminate | apply DecimalPos.Unsigned.to_uint_nonnil].
Qed.

(** The characters of a printed natural number are digits. *)
Lemma string_of_uint_digits u :
  Forall (fun c => digit_value c <> None)
    (list_ascii_of_string (NilEmpty.string_of_uint u)).
Proof.
  induction u; simpl; constructor; (discriminate || assumption).
Qed.

Lemma str_nat_digits (n : Z) :
  Forall (fun c => digit_value c <> None) (list_ascii_of_string (str_nat n)).
Proof.
  unfold str_nat, NilZero.string_of_uint.
  destruct (N.to_uint (Z.to_N n)) eqn:E; try (rewrite <- E; apply string_of_uint_digits).
  repeat constructor. discriminate.
Qed.

Lemma str_nat_nonempty (n : Z) : str_nat n <> EmptyString.
Proof.
  unfold str_nat, NilZero.string_of_uint.
  destruct (N.to_uint (Z.to_N n)); simpl; discriminate.
Qed.

Lemma split_dot_digits (s f : string) :
  Forall (fun c => digit_value c <> None) (list_ascii_of_string s) ->
  split_dot (s ++ String "." f) = (s, Some f).
Proof.
  induction s as [|c s IH]; simpl; intros H.
  - reflexivity.
  - inversion H as [|? ? Hc Hs]; subst.
    destruct (Ascii.eqb_spec c ".") as [->|_].
    + exfalso. apply Hc. reflexivity.
    + rewrite IH by assumption. reflexivity.
Qed.

Lemma unsigned_cents_print (n m : Z) :
  0 <= n -> 0 <= m < 100 ->
  unsigned_cents (str_nat n ++ String "." (two_digits m)) = Some (100 * n + m).
Proof.
  intros Hn Hm. unfold unsigned_cents.
  rewrite split_dot_digits by apply str_nat_digits.
  destruct (String.eqb_spec (str_nat n) "") as [E|_].
  - exfalso. exact (str_nat_nonempty n E).
  - cbn [andb]. rewrite parse_nat_str_nat by assumption.
    unfold fraction_cents. cbn [String.length two_digits].
    rewrite two_digits_value by assumption. reflexivity.
Qed.

Lemma parse_decimal_str_decimal (d : Decimal) :
  parse_decimal (str_decimal d) = Ok d.
Proof.
  unfold str_decimal.
  assert (Hq : 0 <= Z.abs d / 100) by (apply Z.div_pos; lia).
  assert (Hr : 0 <= Z.abs d mod 100 < 100) by (apply Z.mod_pos_bound; lia).
  assert (Hd : 100 * (Z.abs d / 100) + Z.abs d mod 100 = Z.abs d)
    by (symmetry; apply Z.div_mod; lia).
  destruct (Z.ltb_spec d 0) as [Hneg|Hpos].
  - unfold parse_decimal. cbn [String.append].
    cbn [Ascii.eqb Bool.eqb].
    rewrite unsigned_cents_print by assumption.
    cbn [option_map]. f_equal. lia.
  - unfold parse_decimal. cbn [String.append].
    pose proof (str_nat_digits (Z.abs d / 100)) as Hdig.
    pose proof (str_nat_nonempty (Z.abs d / 100)) as Hne.
    pose proof (unsigned_cents_print _ _ Hq Hr) as Hu.
    destruct (str_nat (Z.abs d / 100)) as [|c rest]; [contradiction|].
    cbn [String.append] in *.
    inversion Hdig as [|? ? Hc _]; subst.
    destruct (Ascii.eqb_spec c "-") as [->|_]; [exfalso; apply Hc; reflexivity|].
    destruct (Ascii.eqb_spec c "+") as [->|_]; [exfalso; apply Hc; reflexivity|].
    rewrite Hu. f_equal. lia.
Qed.

Lemma valid_date_bounds (d : date) :
  valid_date d = true ->
  1 <= year d <= 9999 /\ 1 <= month d <= 12 /\ 1 <= day d <= 31.
Proof.
  unfold valid_date, days_in_month. rewrite !andb_true_iff, !Z.leb_le.
  intros (((((H1 & H2) & H3) & H4) & H5) & H6).
  repeat split; try assumption.
  destruct (month d =? 2); [destruct (is_leap (year d)); lia|].
  destruct ((month d =? 4) || (month d =? 6) || (month d =? 9) || (month d =? 11)); lia.
Qed.

Lemma fromisoformat_isoformat (d : date) :
  valid_date d = true -> fromisoformat (isoformat d) = Ok d.
Proof.
  intros Hv. pose proof (valid_date_bounds d Hv) as (Hy & Hm & Hd).
  destruct d as [y m dd]. cbn [year month day] in *.
  unfold fromisoformat.
  change (String.length (isoformat (mkdate y m dd))) with 10%nat.
  change (substring 4 1 (isoformat (mkdate y m dd))) with "-".
  change (substring 7 1 (isoformat (mkdate y m dd))) with "-".
  change (substring 0 4 (isoformat (mkdate y m dd))) with (four_digits y).
  change (substring 5 2 (isoformat (mkdate y m dd))) with (two_digits m).
  change (substring 8 2 (isoformat (mkdate y m dd))) with (two_digits dd).
  cbn [Nat.eqb String.eqb Ascii.eqb Bool.eqb andb].
  rewrite four_digits_value, !two_digits_value by lia.
  rewrite Hv. reflexivity.
Qed.

Lemma lookup_type_name (t : AccountType) : lookup_type (type_name t) = Some t.
Proof. destruct t; reflexivity. Qed.

End StorageStrings.

(** ** Saving and loading ([storage.py]) *)

Section StorageRoundTrip.
Import App.storage.

Lemma dict_get_map {V W : Type} (f : V -> W) (k : string) (d : dict V) :
  dict_get k (dict_map f d) = option_map f (dict_get k d).
Proof.
  induction d as [|[k' v] d IH]; simpl; [reflexivity|].
  destruct (String.eqb k k'); [reflexivity | exact IH].
Qed.

Lemma dict_keys_map {V W : Type} (f : V -> W) (d : dict V) :
  dict_keys (dict_map f d) = dict_keys d.
Proof. unfold dict_keys, dict_map. rewrite map_map. reflexivity. Qed.

Lemma dict_set_absent {V : Type} (k : string) (v : V) (d : dict V) :
  ~ In k (dict_keys d) -> dict_set k v d = d ++ [(k, v)].
Proof.
  induction d as [|[k' v'] d IH]; simpl; intros H; [reflexivity|].
  destruct (String.eqb_spec k k') as [->|Hne].
  - exfalso. apply H. left. reflexivity.
  - rewrite IH; [reflexivity|]. intros Hin. apply H. right. exact Hin.
Qed.

Lemma replay_debits (today : date) (es : list App.Entry) (account : App.Account) :
  Forall (fun e => valid_date (App.entry_date e) = true) es ->
  for_each (replay (App.debit today)) (map encode (map entry_data es)) account
  = Ok (App.with_debits account (App.debits account ++ es)).
Proof.
  revert account. induction es as [|e es IH]; intros account Hv.
  - simpl. rewrite app_nil_r. destruct account; reflexivity.
  - inversion Hv as [|? ? He Hes]; subst.
    cbn [map for_each]. unfold replay at 1.
    cbn [encode entry_data map fst snd subscript dict_get String.eqb Ascii.eqb
           Bool.eqb bind to_Decimal as_str to_date].
    rewrite parse_decimal_str_decimal. cbn [bind].
    rewrite fromisoformat_isoformat by exact He. cbn [bind].
    rewrite IH by exact Hes.
    destruct account, e. cbn. rewrite <- app_assoc. reflexivity.
Qed.

Lemma replay_credits (today : date) (es : list App.Entry) (account : App.Account) :
  Forall (fun e => valid_date (App.entry_date e) = true) es ->
  for_each (replay (App.credit today)) (map encode (map entry_data es)) account
  = Ok (App.with_credits account (App.credits account ++ es)).
Proof.
  revert account. induction es as [|e es IH]; intros account Hv.
  - simpl. rewrite app_nil_r. destruct account; reflexivity.
  - inversion Hv as [|? ? He Hes]; subst.
    cbn [map for_each]. unfold replay at 1.
    cbn [encode entry_data map fst snd subscript dict_get String.eqb Ascii.eqb
           Bool.eqb bind to_Decimal as_str to_date].
    rewrite parse_decimal_str_decimal. cbn [bind].
    rewrite fromisoformat_isoformat by exact He. cbn [bind].
    rewrite IH by exact Hes.
    destruct account, e. cbn. rewrite <- app_assoc. reflexivity.
Qed.

(** One saved account, loaded. *)
Lemma load_account_saved (today : date) (acc : App.Account) :
  dates_valid acc ->
  load_account today (encode (account_data acc)) = Ok (reloaded today acc).
Proof.
  intros Hv. unfold dates_valid in Hv. apply Forall_app in Hv. destruct Hv as [Hd Hc].
  unfold load_account.
  cbn [encode account_data map fst snd subscript dict_get String.eqb Ascii.eqb
         Bool.eqb bind as_str iterate].
  unfold App.new. rewrite lookup_type_name. cbn [bind].
  rewrite replay_debits by exact Hd. cbn [bind].
  rewrite replay_credits by exact Hc.
  destruct acc; reflexivity.
Qed.

Lemma load_accounts_saved (today : date) (accts acc0 : dict App.Account) :
  NoDup (dict_keys acc0 ++ dict_keys accts) ->
  Forall dates_valid (dict_values accts) ->
  for_each (fun accounts na =>
              account <- load_account today (snd na) ;;
              Ok (dict_set (fst na) account accounts))
    (map (fun kv => (fst kv, encode (snd kv)))
       (map (fun na => (fst na, account_data (snd na))) accts))
    acc0
  = Ok (acc0 ++ dict_map (reloaded today) accts).
Proof.
  revert acc0. induction accts as [|[k a] accts IH]; intros acc0 Hnd Hv.
  - simpl. rewrite app_nil_r. reflexivity.
  - inversion Hv as [|? ? Ha Hrest]; subst.
    cbn [map for_each fst snd].
    rewrite load_account_saved by exact Ha. cbn [bind].
    rewrite dict_set_absent.
    + rewrite IH.
      * rewrite <- app_assoc. reflexivity.
      * unfold dict_keys in *. rewrite map_app. cbn [map fst].
        rewrite <- app_assoc. exact Hnd.
      * exact Hrest.
    + intros Hin. apply NoDup_remove_2 in Hnd. apply Hnd.
      apply in_or_app. left. exact Hin.
Qed.

Lemma load_transaction_saved (tx : pyobj) :
  history_ok tx ->
  exists tx', load_transaction (encode tx) = Ok tx' /\ history_ok tx'.
Proof.
  intros (fields & d & w & -> & Ha & Hw & Hv).
  unfold load_transaction. cbn [encode subscript set_item].
  change (map (fun kv => (fst kv, encode (snd kv))) fields)
    with (dict_map encode fields).
  rewrite dict_get_map, Ha. cbn [option_map encode bind to_Decimal].
  rewrite parse_decimal_str_decimal. cbn [bind subscript set_item].
  rewrite dict_get_set_other by discriminate.
  rewrite dict_get_map, Hw. cbn [option_map encode bind to_date].
  rewrite fromisoformat_isoformat by exact Hv. cbn [bind set_item].
  eexists. split; [reflexivity|].
  eexists. exists d, w. split; [reflexivity|].
  split; [|split; [apply dict_get_set_same | exact Hv]].
  rewrite dict_get_set_other by discriminate. apply dict_get_set_same.
Qed.

Lemma load_transactions_saved (txs done : list pyobj) :
  Forall history_ok txs ->
  exists txs',
    for_each (fun done tx => tx' <- load_transaction tx ;; Ok (done ++ [tx']))
      (map encode txs) done
    = Ok (done ++ txs')
    /\ Forall history_ok txs' /\ List.length txs' = List.length txs.
Proof.
  revert done. induction txs as [|tx txs IH]; intros done Hok.
  - exists []. simpl. rewrite app_nil_r. repeat split. constructor.
  - inversion Hok as [|? ? Htx Hrest]; subst.
    destruct (load_transaction_saved tx Htx) as (tx' & Hl & Hok').
    destruct (IH (done ++ [tx']) Hrest) as (txs' & Hrun & Hall & Hlen).
    exists (tx' :: txs'). cbn [map for_each]. rewrite Hl. cbn [bind].
    rewrite Hrun, <- app_assoc. repeat split.
    + constructor; assumption.
    + simpl. rewrite Hlen. reflexivity.
Qed.

Lemma sorted_map {A B K : Type} (f : A -> B) (key : B -> K) (leb : K -> K -> bool)
    (l : list A) :
  sorted key leb (map f l) = map f (sorted (fun x => key (f x)) leb l).
Proof.
  induction l as [|x xs IH]; simpl; [reflexivity|]. rewrite IH.
  generalize (sorted (fun x => key (f x)) leb xs). intros l.
  induction l as [|y ys IHl]; simpl; [reflexivity|].
  destruct (leb (key (f x)) (key (f y))); [reflexivity|].
  rewrite IHl. reflexivity.
Qed.

Lemma fold_left_map {A B S : Type} (g : S -> B -> S) (f : A -> B) (l : list A) (s : S) :
  fold_left g (map f l) s = fold_left (fun s x => g s (f x)) l s.
Proof. revert s. induction l as [|x xs IH]; intros s; simpl; [reflexivity | apply IH]. Qed.

Lemma trial_balance_reloaded (today : date) (cut : option date)
    (accounts : dict App.Account) :
  App.trial_balance cut (dict_map (reloaded today) accounts)
  = App.trial_balance cut accounts.
Proof.
  unfold App.trial_balance.
  replace (dict_values (dict_map (reloaded today) accounts))
    with (map (reloaded today) (dict_values accounts))
    by (unfold dict_values, dict_map; rewrite !map_map; reflexivity).
  rewrite sorted_map, fold_left_map. reflexivity.
Qed.

Lemma load_document_saved (today : date) (accounts : dict App.Account)
    (txs : list pyobj) :
  NoDup (dict_keys accounts) ->
  Forall dates_valid (dict_values accounts) ->
  Forall history_ok txs ->
  exists txs',
    load_document today (save_data accounts txs)
    = Ok (dict_map (reloaded today) accounts, txs')
    /\ Forall history_ok txs' /\ List.length txs' = List.length txs.
Proof.
  intros Hnd Hv Hh.
  destruct (load_transactions_saved txs [] Hh) as (txs' & Hrun & Hall & Hlen).
  exists txs'. split; [|split; assumption].
  unfold load_document, save_data.
  cbn [encode map fst snd subscript dict_get String.eqb Ascii.eqb Bool.eqb bind
         items_of iterate].
  rewrite (load_accounts_saved today accounts []) by assumption.
  cbn [bind app]. rewrite Hrun. reflexivity.
Qed.

(** Saving a state and loading the document back gives accounts with the
    same names, types, categories and entry lists, so the same balances and
    the same trial balance; the history is read back entry for entry. *)
Theorem storage_round_trip (today : date) (accounts : dict App.Account)
    (txs : list pyobj)
    (Hkeys : NoDup (dict_keys accounts))
    (Hdates : Forall dates_valid (dict_values accounts))
    (Hhistory : Forall history_ok txs) :
  exists accounts' txs',
    load_data today (Document (save_data accounts txs)) = Ok (accounts', txs')
    /\ accounts' = dict_map (reloaded today) accounts
    /\ dict_keys accounts' = dict_keys accounts
    /\ (forall name,
           option_map App.balance (dict_get name accounts')
           = option_map App.balance (dict_get name accounts))
    /\ (forall name,
           option_map App.debits (dict_get name accounts')
           = option_map App.debits (dict_get name accounts)
           /\ option_map App.credits (dict_get name accounts')
              = option_map App.credits (dict_get name accounts))
    /\ (forall as_of_date,
           App.trial_balance as_of_date accounts'
           = App.trial_balance as_of_date accounts)
    /\ Forall history_ok txs'
    /\ List.length txs' = List.length txs.
Proof.
  destruct (load_document_saved today accounts txs Hkeys Hdates Hhistory)
    as (txs' & Hdoc & Hall & Hlen).
  exists (dict_map (reloaded today) accounts), txs'.
  split; [unfold load_data; rewrite Hdoc; reflexivity|].
  split; [reflexivity|]. split; [apply dict_keys_map|].
  split; [|split; [|split; [|split; assumption]]].
  - intros name. rewrite dict_get_map.
    destruct (dict_get name accounts); reflexivity.
  - intros name. rewrite dict_get_map.
    destruct (dict_get name accounts); split; reflexivity.
  - intros as_of_date. apply trial_balance_reloaded.
Qed.

Lemma world0_ok (today : date) : world_ok (app_world0 today).
Proof.
  split; [|split].
  - vm_compute. repeat (constructor; [simpl; intuition discriminate|]). constructor.
  - repeat constructor.
  - constructor.
Qed.

Lemma forall_values_set {V : Type} (P : V -> Prop) (k : string) (v : V) (d : dict V) :
  P v -> Forall P (dict_values d) -> Forall P (dict_values (dict_set k v d)).
Proof.
  intros Hv Hd. apply Forall_forall. intros x Hx.
  apply dict_values_set_in in Hx. destruct Hx as [->|Hx]; [exact Hv|].
  rewrite Forall_forall in Hd. apply Hd. exact Hx.
Qed.

Lemma post_lines_keeps
    (post : App.Account -> Decimal -> string -> option date -> result unit * App.Account)
    (P : App.Account -> Prop) (description : string) (d : date) :
  (forall a amt, P a -> P (snd (post a amt description (Some d)))) ->
  forall (lines : dict Decimal) (accts : dict App.Account),
    Forall P (dict_values accts) ->
    let accts' := snd (App.post_lines post lines description d accts) in
    dict_keys accts' = dict_keys accts /\ Forall P (dict_values accts').
Proof.
  intros Hpost. induction lines as [|[k amt] rest IH]; intros accts HP; simpl.
  - split; [reflexivity | exact HP].
  - destruct (dict_get k accts) as [a|] eqn:E; simpl; [|split; [reflexivity | exact HP]].
    match goal with
    | |- context [App.post_lines post rest description d ?x] =>
        destruct (IH x) as [Hk Hv]
    end.
    + apply forall_values_set; [|exact HP].
      apply Hpost. rewrite Forall_forall in HP. apply HP.
      eapply dict_get_in_values. exact E.
    + split; [|exact Hv]. rewrite Hk. apply dict_keys_set_present. congruence.
Qed.

Lemma dates_valid_debit (today : date) (a : App.Account) (amt : Decimal)
    (description : string) (d : date) :
  valid_date d = true -> dates_valid a ->
  dates_valid (snd (App.debit today a amt description (Some d))).
Proof.
  unfold dates_valid. simpl. intros Hd H. apply Forall_app in H. destruct H as [H1 H2].
  apply Forall_app. split; [|exact H2].
  apply Forall_app. split; [exact H1 | repeat constructor; exact Hd].
Qed.

Lemma dates_valid_credit (today : date) (a : App.Account) (amt : Decimal)
    (description : string) (d : date) :
  valid_date d = true -> dates_valid a ->
  dates_valid (snd (App.credit today a amt description (Some d))).
Proof.
  unfold dates_valid. simpl. intros Hd H. apply Forall_app in H. destruct H as [H1 H2].
  apply Forall_app. split; [exact H1|].
  apply Forall_app. split; [exact H2 | repeat constructor; exact Hd].
Qed.

Lemma post_transaction_world_ok (today : date) (debits credits : dict Decimal)
    (description : string) (when : option date) (w w' : App.World) (tx : pyobj) :
  valid_date (date_or when today) = true ->
  App.post_transaction today debits credits description when w = (Ok tx, w') ->
  world_ok w -> world_ok w'.
Proof.
  intros Hd H (Hnd & Hv & Hh). unfold App.post_transaction in H.
  destruct (App.validate_transaction debits credits) as [[]|e]; [|discriminate].
  pose proof (post_lines_keeps (App.debit today) dates_valid description
                (date_or when today)
                (fun a amt => dates_valid_debit today a amt description _ Hd)
                debits (App.accounts w) Hv) as H1.
  destruct (App.post_lines (App.debit today) debits description
              (date_or when today) (App.accounts w)) as [r1 accts1].
  cbn [snd] in H1. destruct H1 as [Hk1 Hv1].
  destruct r1 as [[]|e1]; [|discriminate].
  pose proof (post_lines_keeps (App.credit today) dates_valid description
                (date_or when today)
                (fun a amt => dates_valid_credit today a amt description _ Hd)
                credits accts1 Hv1) as H2.
  destruct (App.post_lines (App.credit today) credits description
              (date_or when today) accts1) as [r2 accts2].
  cbn [snd] in H2. destruct H2 as [Hk2 Hv2].
  destruct r2 as [[]|e2]; [|discriminate].
  injection H as _ <-. split; [|split]; cbn [App.accounts App.transactions].
  - rewrite Hk2, Hk1. exact Hnd.
  - exact Hv2.
  - constructor; [|exact Hh].
    eexists. eexists. eexists. split; [reflexivity|].
    split; [reflexivity|]. split; [reflexivity | exact Hd].
Qed.

(** After a successful posting the data file holds the state just reached:
    loading it gives every account back with the same entries. *)
Theorem post_transaction_is_persisted (today today' : date)
    (debits credits : dict Decimal) (description : string) (when : option date)
    (w w' : App.World) (tx : pyobj)
    (Hw : world_ok w)
    (Hdate : valid_date (date_or when today) = true)
    (Hpost : App.post_transaction today debits credits description when w = (Ok tx, w')) :
  world_ok w'
  /\ exists txs',
      load_data today' (App.data_file w')
      = Ok (dict_map (reloaded today') (App.accounts w'), txs')
      /\ List.length txs' = List.length (App.transactions w')
      /\ forall name,
          option_map App.balance
            (dict_get name (dict_map (reloaded today') (App.accounts w')))
          = option_map App.balance (dict_get name (App.accounts w')).
Proof.
  pose proof (post_transaction_world_ok _ _ _ _ _ _ _ _ Hdate Hpost Hw) as Hw'.
  split; [exact Hw'|].
  assert (Hfile : App.data_file w'
                  = Document (save_data (App.accounts w') (App.transactions w'))).
  { unfold App.post_transaction in Hpost.
    destruct (App.validate_transaction debits credits) as [[]|e]; [|discriminate].
    destruct (App.post_lines (App.debit today) debits description
                (date_or when today) (App.accounts w)) as [[[]|e1] accts1];
      [|discriminate].
    destruct (App.post_lines (App.credit today) credits description
                (date_or when today) accts1) as [[[]|e2] accts2];
      [|discriminate].
    injection Hpost as _ <-. reflexivity. }
  destruct Hw' as (Hnd & Hv & Hh).
  destruct (load_document_saved today' _ _ Hnd Hv Hh) as (txs' & Hdoc & _ & Hlen).
  exists txs'. rewrite Hfile.
  split; [unfold load_data; rewrite Hdoc; reflexivity|]. split; [exact Hlen|].
  intros name. rewrite dict_get_map.
  destruct (dict_get name (App.accounts w')); reflexivity.
Qed.

Lemma app_world1_posted :
  exists tx,
    App.post_transaction day0 [("Cash", 2000000)] [("Owner's Equity", 2000000)]
      "Owner investment" None (app_world0 day0) = (Ok tx, app_world1).
Proof. eexists. vm_compute. reflexivity. Qed.

Lemma storage_round_trip_witness :
  exists accounts' txs',
    load_data day0
      (Document (save_data (App.accounts app_world1) (App.transactions app_world1)))
    = Ok (accounts', txs')
    /\ option_map App.balance (dict_get "Cash" accounts') = Some 2000000.
Proof.
  destruct app_world1_posted as (tx & Hpost).
  pose proof (post_transaction_world_ok day0 _ _ _ None _ _ _ eq_refl Hpost (world0_ok day0))
    as (Hnd & Hv & Hh).
  destruct (storage_round_trip day0 _ _ Hnd Hv Hh)
    as (accounts' & txs' & Hload & _ & _ & Hbal & _).
  exists accounts', txs'. split; [exact Hload|].
  rewrite Hbal. reflexivity.
Defined.

Lemma post_transaction_is_persisted_witness :
  exists txs',
    load_data day0 (App.data_file app_world1)
    = Ok (dict_map (reloaded day0) (App.accounts app_world1), txs').
Proof.
  destruct app_world1_posted as (tx & Hpost).
  destruct (post_transaction_is_persisted day0 day0 _ _ _ None _ _ _
              (world0_ok day0) eq_refl Hpost) as (_ & txs' & Hload & _).
  exists txs'. exact Hload.
Defined.




End StorageRoundTrip.

(** ** Start-up, fall-back and escaping errors ([storage.py], [app.py]) *)

Section Startup.
Import App.storage.

Lemma lookup_type_inv (s : string) (t : AccountType) :
  lookup_type s = Some t -> s = type_name t.
Proof.
  unfold lookup_type.
  repeat match goal with
         | |- context [String.eqb s ?x] => destruct (String.eqb_spec s x) as [->|_]
         end; intros [= <-]; reflexivity.
Qed.

(** When there is no data file, when the file is text that is not JSON,
    and when the document has no ["accounts"] entry, [load_data] returns
    the empty state and the application starts on the default chart:
    nineteen accounts, created today, with no entries.  A file that is not
    text is another matter: [UnicodeDecodeError] is not among the
    exceptions [load_data] catches, and start-up fails with it. *)
Theorem startup_without_usable_file_seeds_chart (today : date) (f : file_state)
    (Hf : unusable f) :
  load_data today f = Ok ([], [])
  /\ App.startup today f = Ok (App.mkWorld (app_seed today) [] f)
  /\ dict_keys (app_seed today) = map fst App.INITIAL_ACCOUNTS
  /\ (forall name a,
         dict_get name (app_seed today) = Some a ->
         App.name a = name /\ App.debits a = [] /\ App.credits a = []
         /\ App.balance a = 0 /\ App.created_at a = today
         /\ option_map (fun tc => (lookup_type (fst tc), snd tc))
              (dict_get name App.INITIAL_ACCOUNTS)
            = Some (Some (App.type a), App.category a))
  /\ load_data today Undecodable = Raise UnicodeDecodeError
  /\ App.startup today Undecodable = Raise UnicodeDecodeError.
Proof.
  assert (Hload : load_data today f = Ok ([], [])).
  { destruct f as [| |data|]; try reflexivity; [|contradiction].
    destruct data as [| | | | | |items]; try reflexivity.
    simpl in Hf. unfold load_data, load_document. cbn [subscript].
    rewrite Hf. reflexivity. }
  split; [exact Hload|]. split; [|split; [|split; [|split; reflexivity]]].
  - unfold App.startup. rewrite Hload. reflexivity.
  - reflexivity.
  - intros name a H.
    assert (Hin : In a (dict_values (app_seed today)))
      by (eapply dict_get_in_values; exact H).
    assert (Hname : In (name, a) (app_seed today)).
    { clear Hin. revert H. generalize (app_seed today).
      induction d as [|[k v] d IH]; simpl; [discriminate|].
      destruct (String.eqb_spec name k) as [->|_].
      - intros [= ->]. left. reflexivity.
      - intros H. right. apply IH. exact H. }
    clear H Hin. vm_compute in Hname.
    repeat (destruct Hname as [Hname|Hname];
            [injection Hname as <- <-; repeat split|]).
    contradiction.
Qed.

Lemma startup_witness :
  App.startup day0 (Document (PList [])) = Ok (App.mkWorld (app_seed day0) [] (Document (PList []))).
Proof.
  apply (startup_without_usable_file_seeds_chart day0 (Document (PList []))).
  exact I.
Defined.

(** A document whose first account has a type outside the five type names
    makes [load_data] raise [ValueError]: the exception is not among those
    [load_data] turns into the empty state, and start-up fails with it. *)
Theorem load_data_unknown_type_escapes (today : date)
    (key name typ category : string) (debits credits : pyobj)
    (others rest : list (string * pyobj))
    (Htype : forall t, typ <> type_name t) :
  let account := PDict [ ("name", PStr name); ("type", PStr typ);
                         ("category", PStr category);
                         ("debits", debits); ("credits", credits) ] in
  let data := PDict (("accounts", PDict ((key, account) :: others)) :: rest) in
  exists msg,
    load_data today (Document data) = Raise (ValueError msg)
    /\ App.startup today (Document data) = Raise (ValueError msg).
Proof.
  intros account data.
  assert (Hnone : lookup_type typ = None).
  { destruct (lookup_type typ) as [t|] eqn:E; [|reflexivity].
    apply lookup_type_inv in E. exfalso. exact (Htype t E). }
  assert (Hload : load_data today (Document data)
                  = Raise (ValueError "Invalid account type")).
  { unfold load_data, load_document, data.
    cbn [subscript dict_get String.eqb Ascii.eqb Bool.eqb bind items_of for_each
           fst snd].
    unfold load_account at 1, account.
    cbn [subscript dict_get String.eqb Ascii.eqb Bool.eqb bind as_str].
    unfold App.new. rewrite Hnone. reflexivity. }
  exists "Invalid account type". split; [exact Hload|].
  unfold App.startup. rewrite Hload. reflexivity.
Qed.

Lemma load_data_unknown_type_witness :
  exists msg,
    load_data day0
      (Document
         (PDict [ ("accounts",
                   PDict [ ("Cash",
                            PDict [ ("name", PStr "Cash"); ("type", PStr "Bank");
                                    ("category", PStr "Current Assets");
                                    ("debits", PList []); ("credits", PList []) ]) ]);
                  ("transactions", PList []) ]))
    = Raise (ValueError msg).
Proof.
  destruct (load_data_unknown_type_escapes day0 "Cash" "Cash" "Bank" "Current Assets"
              (PList []) (PList []) [] [("transactions", PList [])])
    as (msg & H & _).
  - intros []; discriminate.
  - exists msg. exact H.
Defined.

Lemma encode_line_items (lines : dict Decimal) :
  encode (App.line_items lines) = line_items_loaded lines.
Proof.
  unfold App.line_items, line_items_loaded. cbn [encode]. f_equal.
  rewrite map_map. reflexivity.
Qed.

Lemma load_posted_record
    (id : Z) (tx_date : date) (description : string) (debits credits : dict Decimal) :
  valid_date tx_date = true ->
  load_transaction (encode (posted_record id tx_date description debits credits))
  = Ok (PDict [ ("id", PInt id);
                ("date", PDate tx_date);
                ("description", PStr description);
                ("amount", PDecimal (py_sum (dict_values debits) 0));
                ("debit_entries", line_items_loaded debits);
                ("credit_entries", line_items_loaded credits) ]).
Proof.
  intros Hdate. unfold load_transaction, posted_record.
  cbn [encode map fst snd].
  rewrite !encode_line_items.
  cbn [subscript dict_get String.eqb Ascii.eqb Bool.eqb bind to_Decimal set_item
         dict_set].
  rewrite parse_decimal_str_decimal.
  cbn [subscript dict_get String.eqb Ascii.eqb Bool.eqb bind to_date set_item
         dict_set].
  rewrite fromisoformat_isoformat by exact Hdate.
  reflexivity.
Qed.

(** The record built by [post_transaction] is [posted_record]. *)
Lemma post_transaction_record (today : date) (debits credits : dict Decimal)
    (description : string) (when : option date) (w w' : App.World) (tx : pyobj) :
  App.post_transaction today debits credits description when w = (Ok tx, w') ->
  tx = posted_record (Z.of_nat (List.length (App.transactions w)) + 1)
         (date_or when today) description debits credits
  /\ App.transactions w' = tx :: App.transactions w.
Proof.
  unfold App.post_transaction. intros H.
  destruct (App.validate_transaction debits credits) as [[]|e]; [|discriminate].
  destruct (App.post_lines (App.debit today) debits description
              (date_or when today) (App.accounts w)) as [[[]|e1] accts1];
    [|discriminate].
  destruct (App.post_lines (App.credit today) credits description
              (date_or when today) accts1) as [[[]|e2] accts2];
    [|discriminate].
  injection H as <- <-. split; reflexivity.
Qed.

Lemma loaded_lines (lines : dict Decimal) :
  exists items,
    line_items_loaded lines = PList items /\ Forall2 loaded_line lines items.
Proof.
  unfold line_items_loaded. eexists. split; [reflexivity|].
  induction lines as [|[k d] lines IH]; cbn [map]; constructor; [|exact IH].
  exists (str_decimal d). split; [reflexivity|].
  cbn [to_Decimal snd]. apply parse_decimal_str_decimal.
Qed.

(** A history record written by a successful [post_transaction] and read
    back by [load_data] has its date and its total amount restored as a
    date and a [Decimal], while the amounts of its debit and credit lines
    come back as strings: [load_data] converts the top-level amount only. *)
Theorem loaded_history_keeps_line_amounts_as_strings
    (today : date) (debits credits : dict Decimal) (description : string)
    (when : option date) (w w' : App.World) (tx : pyobj)
    (Hpost : App.post_transaction today debits credits description when w = (Ok tx, w'))
    (Hdate : valid_date (date_or when today) = true) :
  exists debit_items credit_items,
    load_transaction (encode tx)
    = Ok (PDict [ ("id", PInt (Z.of_nat (List.length (App.transactions w)) + 1));
                  ("date", PDate (date_or when today));
                  ("description", PStr description);
                  ("amount", PDecimal (py_sum (dict_values debits) 0));
                  ("debit_entries", PList debit_items);
                  ("credit_entries", PList credit_items) ])
    /\ Forall2 loaded_line debits debit_items
    /\ Forall2 loaded_line credits credit_items.
Proof.
  apply post_transaction_record in Hpost. destruct Hpost as [-> _].
  destruct (loaded_lines debits) as (ds & Hds & Fds).
  destruct (loaded_lines credits) as (cs & Hcs & Fcs).
  exists ds, cs. split; [|split; assumption].
  rewrite load_posted_record by exact Hdate. rewrite Hds, Hcs. reflexivity.
Qed.

Lemma loaded_history_witness :
  exists tx debit_items credit_items,
    App.post_transaction day0 [("Cash", 2000000)] [("Owner's Equity", 2000000)]
      "Owner investment" None (app_world0 day0) = (Ok tx, app_world1)
    /\ load_transaction (encode tx)
       = Ok (PDict [ ("id", PInt 1);
                     ("date", PDate day0);
                     ("description", PStr "Owner investment");
                     ("amount", PDecimal 2000000);
                     ("debit_entries", PList debit_items);
                     ("credit_entries", PList credit_items) ])
    /\ Forall2 loaded_line [("Cash", 2000000)] debit_items
    /\ Forall2 loaded_line [("Owner's Equity", 2000000)] credit_items.
Proof.
  destruct app_world1_posted as (tx & Hpost).
  destruct (loaded_history_keeps_line_amounts_as_strings day0 _ _ _ None _ _ _ Hpost
              eq_refl) as (ds & cs & Hload & Hds & Hcs).
  exists tx, ds, cs. split; [exact Hpost|]. split; [exact Hload|].
  split; assumption.
Defined.

(** [Account.__init__] of [models.py] and of [app.py] accepts exactly the
    five type names, and the new account has no entries and balance 0. *)
Theorem account_constructor_checks_type (today : date) (name typ category : string) :
  (forall t, typ = type_name t ->
             Models.new name typ = Ok (Models.mkAccount name t [] [])
             /\ App.new today name typ category
                = Ok (App.mkAccount name t category [] [] today)
             /\ Models.balance (Models.mkAccount name t [] []) = 0
             /\ App.balance (App.mkAccount name t category [] [] today) = 0)
  /\ ((forall t, typ <> type_name t) ->
      exists msg, Models.new name typ = Raise (ValueError msg)
                  /\ App.new today name typ category = Raise (ValueError msg)).
Proof.
  split.
  - intros t ->. unfold Models.new, App.new. rewrite lookup_type_name.
    repeat split; destruct t; reflexivity.
  - intros H. unfold Models.new, App.new.
    destruct (lookup_type typ) as [t|] eqn:E.
    + apply lookup_type_inv in E. exfalso. exact (H t E).
    + eexists. split; reflexivity.
Qed.

Lemma account_constructor_witness :
  exists msg, Models.new "Cash" "Bank" = Raise (ValueError msg).
Proof.
  destruct (proj2 (account_constructor_checks_type day0 "Cash" "Bank" "Current Assets"))
    as (msg & H & _).
  - intros []; discriminate.
  - exists msg. exact H.
Defined.

End Startup.

(** ** What a posting does ([app.py]) *)

Lemma post_lines_ok_iff
    (post : App.Account -> Decimal -> string -> option date -> result unit * App.Account)
    (description : string) (d : date) (lines : dict Decimal) (accts : dict App.Account) :
  fst (App.post_lines post lines description d accts) = Ok tt
  <-> forall k, In k (dict_keys lines) -> In k (dict_keys accts).
Proof.
  revert accts. induction lines as [|[k amt] rest IH]; intros accts; simpl.
  - split; [intros _ k [] | reflexivity].
  - destruct (dict_get k accts) as [a|] eqn:E.
    + rewrite IH. rewrite dict_keys_set_present by congruence.
      split.
      * intros H k' [<-|Hin]; [apply dict_get_in_keys; congruence | apply H; exact Hin].
      * intros H k' Hin. apply H. right. exact Hin.
    + simpl. split; [discriminate|].
      intros H. exfalso.
      assert (Hin : In k (dict_keys accts)) by (apply H; left; reflexivity).
      apply dict_get_in_keys in Hin. contradiction.
Qed.

Lemma post_lines_debits (today : date) (description : string) (d : date)
    (lines : dict Decimal) (accts accts' : dict App.Account) :
  App.post_lines (App.debit today) lines description d accts = (Ok tt, accts') ->
  dict_keys accts' = dict_keys accts
  /\ forall name,
      dict_get name accts'
      = option_map
          (fun a => App.with_debits a
                      (App.debits a ++ entries_for name lines description d))
          (dict_get name accts).
Proof.
  revert accts. induction lines as [|[k amt] rest IH]; intros accts H; simpl in H.
  - injection H as <-. split; [reflexivity|]. intros name.
    destruct (dict_get name accts) as [a|]; [|reflexivity].
    unfold entries_for. simpl. rewrite app_nil_r. destruct a; reflexivity.
  - destruct (dict_get k accts) as [a|] eqn:E; [|discriminate].
    apply IH in H. destruct H as [Hk Hget]. split.
    + rewrite Hk. apply dict_keys_set_present. congruence.
    + intros name. rewrite Hget. unfold entries_for. cbn [filter fst].
      destruct (String.eqb_spec k name) as [->|Hne].
      * rewrite dict_get_set_same, E. cbn [option_map map snd App.debit App.with_debits
                                            App.debits App.name App.type App.category
                                            App.credits App.created_at date_or].
        rewrite <- app_assoc. reflexivity.
      * rewrite dict_get_set_other by congruence. reflexivity.
Qed.

Lemma post_lines_credits (today : date) (description : string) (d : date)
    (lines : dict Decimal) (accts accts' : dict App.Account) :
  App.post_lines (App.credit today) lines description d accts = (Ok tt, accts') ->
  dict_keys accts' = dict_keys accts
  /\ forall name,
      dict_get name accts'
      = option_map
          (fun a => App.with_credits a
                      (App.credits a ++ entries_for name lines description d))
          (dict_get name accts).
Proof.
  revert accts. induction lines as [|[k amt] rest IH]; intros accts H; simpl in H.
  - injection H as <-. split; [reflexivity|]. intros name.
    destruct (dict_get name accts) as [a|]; [|reflexivity].
    unfold entries_for. simpl. rewrite app_nil_r. destruct a; reflexivity.
  - destruct (dict_get k accts) as [a|] eqn:E; [|discriminate].
    apply IH in H. destruct H as [Hk Hget]. split.
    + rewrite Hk. apply dict_keys_set_present. congruence.
    + intros name. rewrite Hget. unfold entries_for. cbn [filter fst].
      destruct (String.eqb_spec k name) as [->|Hne].
      * rewrite dict_get_set_same, E. cbn [option_map map snd App.credit App.with_credits
                                            App.debits App.name App.type App.category
                                            App.credits App.created_at date_or].
        rewrite <- app_assoc. reflexivity.
      * rewrite dict_get_set_other by congruence. reflexivity.
Qed.

Lemma post_lines_result
    (post : App.Account -> Decimal -> string -> option date -> result unit * App.Account)
    (description : string) (d : date) (lines : dict Decimal) (accts : dict App.Account) :
  (forall k, In k (dict_keys lines) -> In k (dict_keys accts)) ->
  exists accts', App.post_lines post lines description d accts = (Ok tt, accts').
Proof.
  intros H. apply post_lines_ok_iff with (post := post) (description := description)
                                         (d := d) in H.
  destruct (App.post_lines post lines description d accts) as [r accts'].
  simpl in H. subst r. eexists. reflexivity.
Qed.

(** [post_transaction] of [app.py] succeeds exactly when both maps are
    non-empty, their totals are equal and every account named exists. *)
Theorem post_transaction_succeeds_iff (today : date) (debits credits : dict Decimal)
    (description : string) (when : option date) (w : App.World) :
  is_ok (fst (App.post_transaction today debits credits description when w)) = true
  <-> debits <> [] /\ credits <> []
      /\ sigma (dict_values debits) = sigma (dict_values credits)
      /\ forall k, In k (dict_keys debits ++ dict_keys credits) ->
                   In k (dict_keys (App.accounts w)).
Proof.
  unfold App.post_transaction.
  destruct (App.validate_transaction debits credits) as [[]|e] eqn:V.
  - apply app_validate_ok in V. destruct V as (Hd & Hc & Hb).
    pose proof (post_lines_ok_iff (App.debit today) description (date_or when today)
                  debits (App.accounts w)) as H1.
    pose proof (post_lines_keeps (App.debit today) (fun _ => True) description
                  (date_or when today) (fun _ _ _ => I) debits (App.accounts w)) as K1.
    destruct (App.post_lines (App.debit today) debits description
                (date_or when today) (App.accounts w)) as [r1 accts1].
    cbn [fst snd] in H1, K1.
    destruct K1 as [K1 _]; [apply Forall_forall; trivial|].
    pose proof (post_lines_ok_iff (App.credit today) description (date_or when today)
                  credits accts1) as H2.
    destruct (App.post_lines (App.credit today) credits description
                (date_or when today) accts1) as [r2 accts2].
    cbn [fst] in H2. rewrite K1 in H2.
    destruct r1 as [[]|e1].
    + destruct r2 as [[]|e2]; cbn [fst is_ok].
      * split; [intros _|reflexivity]. repeat split; try assumption.
        intros k Hk. apply in_app_or in Hk. destruct Hk as [Hk|Hk].
        -- apply H1; [reflexivity | exact Hk].
        -- apply H2; [reflexivity | exact Hk].
      * split; [discriminate|]. intros (_ & _ & _ & Hall).
        assert (E : Raise e2 = Ok tt); [|discriminate].
        apply H2. intros k Hk. apply Hall. apply in_or_app. right. exact Hk.
    + cbn [fst is_ok]. split; [discriminate|]. intros (_ & _ & _ & Hall).
      assert (E : Raise e1 = Ok tt); [|discriminate].
      apply H1. intros k Hk. apply Hall. apply in_or_app. left. exact Hk.
  - cbn [fst is_ok]. split; [discriminate|]. intros (Hd & Hc & Hb & _).
    assert (E : App.validate_transaction debits credits = Ok tt)
      by (apply app_validate_ok; repeat split; assumption).
    rewrite E in V. discriminate.
Qed.

Lemma post_transaction_succeeds_witness :
  is_ok (fst (App.post_transaction day0 [("Cash", 2000000)]
                [("Owner's Equity", 2000000)] "Owner investment" None
                (app_world0 day0))) = true.
Proof.
  apply (proj2 (post_transaction_succeeds_iff day0 [("Cash", 2000000)]
                  [("Owner's Equity", 2000000)] "Owner investment" None
                  (app_world0 day0))).
  split; [discriminate|]. split; [discriminate|]. split; [reflexivity|].
  intros k [<-|[<-|[]]]; vm_compute; tauto.
Defined.

(** A successful [post_transaction] leaves the chart as it is and appends,
    to each account, one debit entry per debit line that names it and one
    credit entry per credit line that names it, all dated alike; the balance
    moves by the debits minus the credits of those lines, with the sign of
    the account's polarity; the record is put at the head of the history
    with the next id. *)
Theorem post_transaction_appends_lines (today : date) (debits credits : dict Decimal)
    (description : string) (when : option date) (w w' : App.World) (tx : pyobj)
    (Hpost : App.post_transaction today debits credits description when w = (Ok tx, w')) :
  let d := date_or when today in
  dict_keys (App.accounts w') = dict_keys (App.accounts w)
  /\ (forall name a,
         dict_get name (App.accounts w) = Some a ->
         dict_get name (App.accounts w')
         = Some (App.mkAccount (App.name a) (App.type a) (App.category a)
                   (App.debits a ++ entries_for name debits description d)
                   (App.credits a ++ entries_for name credits description d)
                   (App.created_at a))
         /\ App.balance
              (App.mkAccount (App.name a) (App.type a) (App.category a)
                 (App.debits a ++ entries_for name debits description d)
                 (App.credits a ++ entries_for name credits description d)
                 (App.created_at a))
            = App.balance a
              + signed (credit_normal_type (App.type a))
                  (sigma (map App.amount (entries_for name debits description d)))
                  (sigma (map App.amount (entries_for name credits description d))))
  /\ App.transactions w' = tx :: App.transactions w
  /\ subscript_id tx = Some (Z.of_nat (List.length (App.transactions w)) + 1).
Proof.
  intros d.
  pose proof (post_transaction_record _ _ _ _ _ _ _ _ Hpost) as [Htx Hhist].
  unfold App.post_transaction in Hpost.
  destruct (App.validate_transaction debits credits) as [[]|e]; [|discriminate].
  destruct (App.post_lines (App.debit today) debits description
              (date_or when today) (App.accounts w)) as [[[]|e1] accts1] eqn:E1;
    [|discriminate].
  destruct (App.post_lines (App.credit today) credits description
              (date_or when today) accts1) as [[[]|e2] accts2] eqn:E2;
    [|discriminate].
  apply post_lines_debits in E1. destruct E1 as [K1 G1].
  apply post_lines_credits in E2. destruct E2 as [K2 G2].
  injection Hpost as _ <-. cbn [App.accounts App.transactions].
  split; [rewrite K2; exact K1|]. split; [|split].
  - intros name a Ha. split.
    + rewrite G2, G1, Ha. reflexivity.
    + rewrite !app_balance_lists. cbn [App.type App.debits App.credits].
      rewrite !map_app, !sigma_app. unfold signed.
      destruct (credit_normal_type (App.type a)); lia.
  - rewrite Htx. reflexivity.
  - rewrite Htx. reflexivity.
Qed.

Lemma post_transaction_appends_witness :
  dict_get "Cash" (App.accounts app_world1)
  = Some (App.mkAccount "Cash" Asset "Current Assets"
            [App.mkEntry 2000000 "Owner investment" day0] [] day0).
Proof.
  destruct app_world1_posted as (tx & Hpost).
  destruct (post_transaction_appends_lines day0 _ _ _ None _ _ _ Hpost)
    as (_ & Hget & _).
  destruct (Hget "Cash" (App.mkAccount "Cash" Asset "Current Assets" [] [] day0) eq_refl)
    as [H _].
  exact H.
Defined.

(** ** Depreciation in [app.py]: missing accounts and repeated calls *)

Lemma app_depreciation_step (today : date) (strftime : string -> date -> string)
    (as_of_date : option date) (w : App.World)
    (equipment expense accumulated : App.Account) :
  dict_get "Equipment" (App.accounts w) = Some equipment ->
  dict_get "Depreciation Expense" (App.accounts w) = Some expense ->
  dict_get "Accumulated Depreciation" (App.accounts w) = Some accumulated ->
  let entry :=
    App.mkEntry (monthly_of (App.balance equipment))
      ("Monthly depreciation for " ++ strftime "%B %Y" (date_or as_of_date today))
      (date_or as_of_date today) in
  App.calculate_depreciation today strftime as_of_date w
  = (Ok tt,
     App.mkWorld
       (dict_set "Accumulated Depreciation"
          (App.with_credits accumulated (App.credits accumulated ++ [entry]))
          (dict_set "Depreciation Expense"
             (App.with_debits expense (App.debits expense ++ [entry]))
             (App.accounts w)))
       (App.transactions w) (App.data_file w)).
Proof.
  intros He Hx Ha entry. unfold App.calculate_depreciation.
  rewrite He, Hx.
  rewrite dict_get_set_other by discriminate. rewrite Ha. reflexivity.
Qed.

(** [calculate_depreciation] looks its three accounts up one after the
    other.  Without Equipment or without Depreciation Expense it raises
    [KeyError] and changes nothing; without Accumulated Depreciation it
    raises [KeyError] after the debit to Depreciation Expense has been
    appended, and the debits of the books then exceed the credits by the
    monthly amount. *)
Theorem calculate_depreciation_missing_account
    (today : date) (strftime : string -> date -> string)
    (as_of_date : option date) (w : App.World) :
  (dict_get "Equipment" (App.accounts w) = None ->
   App.calculate_depreciation today strftime as_of_date w
   = (Raise (KeyError "Equipment"), w))
  /\ (forall equipment,
         dict_get "Equipment" (App.accounts w) = Some equipment ->
         dict_get "Depreciation Expense" (App.accounts w) = None ->
         App.calculate_depreciation today strftime as_of_date w
         = (Raise (KeyError "Depreciation Expense"), w))
  /\ (forall equipment expense,
         dict_get "Equipment" (App.accounts w) = Some equipment ->
         dict_get "Depreciation Expense" (App.accounts w) = Some expense ->
         dict_get "Accumulated Depreciation" (App.accounts w) = None ->
         let entry :=
           App.mkEntry (monthly_of (App.balance equipment))
             ("Monthly depreciation for "
                ++ strftime "%B %Y" (date_or as_of_date today))
             (date_or as_of_date today) in
         let accounts' :=
           dict_set "Depreciation Expense"
             (App.with_debits expense (App.debits expense ++ [entry]))
             (App.accounts w) in
         App.calculate_depreciation today strftime as_of_date w
         = (Raise (KeyError "Accumulated Depreciation"),
            App.mkWorld accounts' (App.transactions w) (App.data_file w))
         /\ sigma (map (app_net None) (dict_values accounts'))
            = sigma (map (app_net None) (dict_values (App.accounts w)))
              + monthly_of (App.balance equipment)).
Proof.
  split; [|split].
  - intros H. unfold App.calculate_depreciation. rewrite H. reflexivity.
  - intros equipment He Hx. unfold App.calculate_depreciation.
    rewrite He, Hx. reflexivity.
  - intros equipment expense He Hx Ha entry accounts'. split.
    + unfold App.calculate_depreciation. rewrite He, Hx.
      rewrite dict_get_set_other by discriminate. rewrite Ha. reflexivity.
    + unfold accounts'. rewrite (sigma_dict_set _ _ _ expense) by exact Hx.
      rewrite app_net_with_debits. cbn [under App.entry_date App.amount entry]. lia.
Qed.

Lemma calculate_depreciation_missing_witness :
  App.calculate_depreciation day0 month_year None world_without_accumulated
  = (Raise (KeyError "Accumulated Depreciation"),
     App.mkWorld
       [ ("Equipment",
          App.mkAccount "Equipment" Asset "Fixed Assets"
            [App.mkEntry 800000 "Buy equipment with cash" day0] [] day0);
         ("Depreciation Expense",
          App.mkAccount "Depreciation Expense" Expense "Operating Expenses"
            [App.mkEntry 13333 "Monthly depreciation for %B %Y 2024-01-01" day0]
            [] day0) ]
       [] App.storage.Missing).
Proof.
  destruct (calculate_depreciation_missing_account day0 month_year None
              world_without_accumulated) as (_ & _ & H).
  destruct (H _ _ eq_refl eq_refl eq_refl) as [E _].
  exact E.
Defined.

(** Every call of [calculate_depreciation] posts the monthly amount again:
    the amount is taken from the Equipment balance, which the posting does
    not change, so after [n] calls Depreciation Expense holds [n] more
    debits and Accumulated Depreciation [n] more credits, of [n] times the
    monthly amount in total. *)
Theorem depreciation_accumulates_per_call
    (today : date) (strftime : string -> date -> string)
    (dates : list (option date)) (w : App.World)
    (equipment expense accumulated : App.Account)
    (Hequipment : dict_get "Equipment" (App.accounts w) = Some equipment)
    (Hexpense : dict_get "Depreciation Expense" (App.accounts w) = Some expense)
    (Haccumulated :
       dict_get "Accumulated Depreciation" (App.accounts w) = Some accumulated) :
  let n := Z.of_nat (List.length dates) in
  let monthly := monthly_of (App.balance equipment) in
  exists w' expense' accumulated',
    depreciations today strftime dates w = (Ok tt, w')
    /\ dict_get "Equipment" (App.accounts w') = Some equipment
    /\ dict_get "Depreciation Expense" (App.accounts w') = Some expense'
    /\ dict_get "Accumulated Depreciation" (App.accounts w') = Some accumulated'
    /\ App.total_debit expense' = App.total_debit expense + n * monthly
    /\ App.total_credit accumulated' = App.total_credit accumulated + n * monthly
    /\ List.length (App.debits expense')
       = (List.length (App.debits expense) + List.length dates)%nat
    /\ List.length (App.credits accumulated')
       = (List.length (App.credits accumulated) + List.length dates)%nat.
Proof.
  revert w expense accumulated Hequipment Hexpense Haccumulated.
  induction dates as [|d rest IH]; intros w expense accumulated He Hx Ha n monthly.
  - exists w, expense, accumulated. subst n. simpl. rewrite !Nat.add_0_r.
    repeat split; try assumption; lia.
  - cbn [depreciations].
    rewrite (app_depreciation_step today strftime d w equipment expense accumulated
               He Hx Ha).
    set (entry := App.mkEntry (monthly_of (App.balance equipment))
                    ("Monthly depreciation for " ++ strftime "%B %Y" (date_or d today))
                    (date_or d today)).
    set (expense1 := App.with_debits expense (App.debits expense ++ [entry])).
    set (accumulated1 :=
           App.with_credits accumulated (App.credits accumulated ++ [entry])).
    set (w1 := App.mkWorld
                 (dict_set "Accumulated Depreciation" accumulated1
                    (dict_set "Depreciation Expense" expense1 (App.accounts w)))
                 (App.transactions w) (App.data_file w)).
    assert (He1 : dict_get "Equipment" (App.accounts w1) = Some equipment).
    { unfold w1. cbn [App.accounts].
      rewrite !dict_get_set_other by discriminate. exact He. }
    assert (Hx1 : dict_get "Depreciation Expense" (App.accounts w1) = Some expense1).
    { unfold w1. cbn [App.accounts].
      rewrite dict_get_set_other by discriminate. apply dict_get_set_same. }
    assert (Ha1 : dict_get "Accumulated Depreciation" (App.accounts w1)
                  = Some accumulated1).
    { unfold w1. cbn [App.accounts]. apply dict_get_set_same. }
    destruct (IH w1 expense1 accumulated1 He1 Hx1 Ha1)
      as (w' & expense' & accumulated' & Hrun & He' & Hx' & Ha' & Hd & Hc & Hld & Hlc).
    exists w', expense', accumulated'.
    split; [exact Hrun|]. split; [exact He'|]. split; [exact Hx'|].
    split; [exact Ha'|].
    unfold expense1 in Hd, Hld. unfold accumulated1 in Hc, Hlc.
    rewrite app_total_debit_appended in Hd.
    rewrite app_total_credit_appended in Hc.
    cbn [App.with_debits App.debits] in Hld.
    cbn [App.with_credits App.credits] in Hlc.
    rewrite length_app in Hld, Hlc. cbn [List.length] in Hld, Hlc.
    subst n monthly. cbn [entry App.amount] in Hd, Hc.
    cbn [List.length]. repeat split; lia.
Qed.

Lemma depreciation_accumulates_witness :
  exists w' accumulated',
    depreciations day0 month_year [None; None; None] app_world_equipment = (Ok tt, w')
    /\ dict_get "Accumulated Depreciation" (App.accounts w') = Some accumulated'
    /\ App.total_credit accumulated' = 0 + 3 * 13333.
Proof.
  destruct (depreciation_accumulates_per_call day0 month_year [None; None; None]
              app_world_equipment
              (App.mkAccount "Equipment" Asset "Fixed Assets"
                 [App.mkEntry 800000 "Buy equipment with cash" day0] [] day0)
              (App.mkAccount "Depreciation Expense" Expense "Operating Expenses"
                 [] [] day0)
              (App.mkAccount "Accumulated Depreciation" Asset "Fixed Assets"
                 [] [] day0)
              eq_refl eq_refl eq_refl)
    as (w' & expense' & accumulated' & Hrun & _ & _ & Ha & _ & Hc & _).
  exists w', accumulated'. split; [exact Hrun|]. split; [exact Ha | exact Hc].
Defined.

(** ** The rows of the trial balance *)

Lemma presentation_columns (t : AccountType) (D C : Decimal) :
  App.presentation t (signed (credit_normal_type t) D C)
  = (Z.max (D - C) 0, Z.max (- (D - C)) 0).
Proof.
  unfold App.presentation, signed. rewrite credit_normal_type_spec.
  destruct (credit_normal_type t);
    repeat match goal with
           | |- context [?x >? ?y] => destruct (Z.gtb_spec x y)
           | |- context [?x <? ?y] => destruct (Z.ltb_spec x y)
           end; f_equal; lia.
Qed.

Lemma sigma_cons (x : Decimal) (l : list Decimal) : sigma (x :: l) = x + sigma l.
Proof. reflexivity. Qed.

Lemma trial_step_one (cut : option date) (a : App.Account)
    (rows : list App.TrialRow) (td tc : Decimal) :
  App.trial_step cut (rows, td, tc) a
  = (rows ++ [app_row cut a],
     td + App.tr_debit (app_row cut a), tc + App.tr_credit (app_row cut a)).
Proof.
  unfold App.trial_step. rewrite app_balance_as_of, presentation_columns.
  reflexivity.
Qed.

Lemma trial_step_rows (cut : option date) (l : list App.Account)
    (rows : list App.TrialRow) (td tc : Decimal) :
  fold_left (App.trial_step cut) l (rows, td, tc)
  = (rows ++ map (app_row cut) l,
     td + sigma (map App.tr_debit (map (app_row cut) l)),
     tc + sigma (map App.tr_credit (map (app_row cut) l))).
Proof.
  revert rows td tc. induction l as [|a l IH]; intros rows td tc.
  - simpl. rewrite app_nil_r. f_equal; [f_equal|]; lia.
  - cbn [fold_left]. rewrite trial_step_one, IH.
    cbn [map]. rewrite !sigma_cons, <- app_assoc.
    generalize (app_row cut a). intros r.
    f_equal; [f_equal|]; first [lia | reflexivity].
Qed.

(** Each row of a trial balance shows the account's debits minus credits in
    the debit column when that is positive and its absolute value in the
    credit column when it is negative, whatever the account type; the rows
    of [double_entry.py] show these two amounts rounded to the cent.  Both
    amounts are non-negative and one of them is 0.  The rows follow the
    accounts sorted by (type, name) in [app.py] and by code in
    [double_entry.py], and the reported totals are the sums of the two
    columns. *)
Theorem trial_balance_rows :
  (forall (cut : option date) (accounts : dict App.Account),
      let tb := App.trial_balance cut accounts in
      App.tb_accounts tb
      = map (app_row cut)
          (sorted (fun x => (type_name (App.type x), App.name x)) App.key_leb
             (dict_values accounts))
      /\ App.total_debits tb = sigma (map App.tr_debit (App.tb_accounts tb))
      /\ App.total_credits tb = sigma (map App.tr_credit (App.tb_accounts tb))
      /\ Forall (fun r => 0 <= App.tr_debit r /\ 0 <= App.tr_credit r
                          /\ (App.tr_debit r = 0 \/ App.tr_credit r = 0))
           (App.tb_accounts tb))
  /\ (forall L : DoubleEntry.Ledger,
      let '(rows, total_debit, total_credit) := DoubleEntry.trial_balance L in
      rows = map ledger_row (sorted fst String.leb (DoubleEntry.accounts L))
      /\ total_debit = sigma (map DoubleEntry.row_debit rows)
      /\ total_credit = sigma (map DoubleEntry.row_credit rows)
      /\ Forall (fun r => 0 <= DoubleEntry.row_debit r /\ 0 <= DoubleEntry.row_credit r
                          /\ (DoubleEntry.row_debit r = 0 \/ DoubleEntry.row_credit r = 0))
           rows).
Proof.
  split.
  - intros cut accounts tb. subst tb. unfold App.trial_balance.
    rewrite trial_step_rows. cbn [App.tb_accounts App.total_debits App.total_credits app].
    repeat split; try lia.
    apply Forall_forall. intros r Hr. apply in_map_iff in Hr.
    destruct Hr as (a & <- & _). cbn [app_row App.tr_debit App.tr_credit]. lia.
  - intros L. pose proof (ledger_trial_balance_sums L) as H.
    destruct (DoubleEntry.trial_balance L) as [[rows total_debit] total_credit].
    destruct H as (Hrows & Hd & Hc).
    assert (E : rows = map ledger_row (sorted fst String.leb (DoubleEntry.accounts L))).
    { rewrite Hrows. apply map_ext. intros [k a]. apply trial_row_columns. }
    split; [exact E|]. split; [exact Hd|]. split; [exact Hc|].
    rewrite E. apply Forall_forall. intros r Hr. apply in_map_iff in Hr.
    destruct Hr as (kv & <- & _).
    cbn [ledger_row DoubleEntry.row_debit DoubleEntry.row_credit].
    split; [apply D_nonneg; lia|]. split; [apply D_nonneg; lia|].
    destruct (Z.le_ge_cases (ledger_net (snd kv)) 0) as [Hn|Hn].
    + left. rewrite Z.max_r by exact Hn. apply D_zero.
    + right. rewrite Z.max_r by lia. apply D_zero.
Qed.

(** ** The income statement and the balance sheet of [app.py] *)

Lemma has_type_spec (t : AccountType) (a : App.Account) :
  has_type t a = true <-> App.type a = t.
Proof.
  unfold has_type. destruct (App.type a), t; vm_compute; split; congruence.
Qed.

Lemma within_under (cut : option date) (d : date) : within None cut d = under cut d.
Proof. destruct cut; reflexivity. Qed.

Lemma app_period_net_under (cut : option date) (a : App.Account) :
  app_period_net None cut a = app_net cut a.
Proof.
  unfold app_period_net, app_net.
  rewrite (filter_ext _ _ (fun e => within_under cut (App.entry_date e)) (App.debits a)).
  rewrite (filter_ext _ _ (fun e => within_under cut (App.entry_date e)) (App.credits a)).
  reflexivity.
Qed.

(** The closing balance of a period is the signed sum of the entries dated
    within it. *)
Lemma period_balance_net (start_date end_date : option date) (a : App.Account) :
  App.period_balance start_date end_date a
  = signed (credit_normal_type (App.type a)) (app_period_net start_date end_date a) 0.
Proof.
  unfold App.period_balance. rewrite statement_rows, running_is_empty.
  pose proof (contribution_selected a (within start_date end_date)) as H.
  destruct (filter _ (App.entries a)) as [|e es] eqn:E.
  - cbn [App.is_empty]. unfold app_period_net.
    change (sigma (map (App.contribution (App.type a)) [])) with 0 in H.
    unfold signed in *. destruct (credit_normal_type (App.type a)); lia.
  - cbn [App.is_empty]. rewrite running_last, H. unfold app_period_net, signed.
    destruct (credit_normal_type (App.type a)); lia.
Qed.

Lemma balance_as_of_net (cut : option date) (a : App.Account) :
  App.balance_as_of cut a = signed (credit_normal_type (App.type a)) (app_net cut a) 0.
Proof.
  rewrite app_balance_as_of. unfold app_net, signed.
  destruct (credit_normal_type (App.type a)); lia.
Qed.

Lemma sigma_filter_ext {A} (f g : A -> Decimal) (p : A -> bool) (l : list A) :
  (forall x, p x = true -> f x = g x) ->
  sigma (map f (filter p l)) = sigma (map g (filter p l)).
Proof.
  intros H. induction l as [|x l IH]; [reflexivity|]. cbn [filter].
  destruct (p x) eqn:E; [|exact IH].
  cbn [map]. rewrite !sigma_cons, IH, (H x E). reflexivity.
Qed.

Lemma sigma_filter_split {A} (f : A -> Decimal) (p q : A -> bool) (l : list A) :
  sigma (map f (filter p l))
  = sigma (map f (filter (fun x => p x && q x) l))
    + sigma (map f (filter (fun x => p x && negb (q x)) l)).
Proof.
  induction l as [|x l IH]; [reflexivity|]. cbn [filter].
  destruct (p x), (q x); cbn [andb negb map]; rewrite ?sigma_cons; lia.
Qed.

(** The four sums of the loop of [income_statement]. *)
Lemma income_fold (start_date end_date : option date) (l : list App.Account)
    (a b c d : Decimal) :
  fold_left (App.income_step start_date end_date) l (a, b, c, d)
  = (a + sigma (map (App.period_balance start_date end_date)
                  (filter (fun x => has_type Revenue x
                                    && in_category "Operating Revenue" x) l)),
     b + sigma (map (App.period_balance start_date end_date)
                  (filter (fun x => has_type Revenue x
                                    && negb (in_category "Operating Revenue" x)) l)),
     c + sigma (map (App.period_balance start_date end_date)
                  (filter (fun x => has_type Expense x
                                    && in_category "Operating Expenses" x) l)),
     d + sigma (map (App.period_balance start_date end_date)
                  (filter (fun x => has_type Expense x
                                    && negb (in_category "Operating Expenses" x)) l))).
Proof.
  revert a b c d. induction l as [|x l IH]; intros a b c d.
  - cbn [fold_left filter map]. change (sigma []) with 0.
    repeat match goal with |- (_, _) = (_, _) => f_equal end; lia.
  - cbn [fold_left filter].
    set (F1 := filter (fun x => has_type Revenue x
                                && in_category "Operating Revenue" x) l) in *.
    set (F2 := filter (fun x => has_type Revenue x
                                && negb (in_category "Operating Revenue" x)) l) in *.
    set (F3 := filter (fun x => has_type Expense x
                                && in_category "Operating Expenses" x) l) in *.
    set (F4 := filter (fun x => has_type Expense x
                                && negb (in_category "Operating Expenses" x)) l) in *.
    unfold App.income_step at 2, has_type, in_category.
    destruct (App.type x); cbn [type_name];
      repeat match goal with
             | |- context [String.eqb ?s ?t] =>
                 lazymatch s with
                 | App.category _ => fail
                 | _ => change (String.eqb s t) with true
                        || change (String.eqb s t) with false
                 end
             end; cbn [andb];
      try (rewrite IH; reflexivity).
    + destruct (String.eqb (App.category x) "Operating Revenue");
        cbn [negb map]; rewrite IH, ?sigma_cons;
        repeat match goal with |- (_, _) = (_, _) => f_equal end; lia.
    + destruct (String.eqb (App.category x) "Operating Expenses");
        cbn [negb map]; rewrite IH, ?sigma_cons;
        repeat match goal with |- (_, _) = (_, _) => f_equal end; lia.
Qed.

Lemma period_balance_earned (start_date end_date : option date) (a : App.Account) :
  has_type Revenue a = true ->
  App.period_balance start_date end_date a = - app_period_net start_date end_date a.
Proof.
  intros H. apply has_type_spec in H. rewrite period_balance_net, H.
  unfold signed. cbn [credit_normal_type]. lia.
Qed.

Lemma period_balance_spent (start_date end_date : option date) (a : App.Account) :
  has_type Expense a = true ->
  App.period_balance start_date end_date a = app_period_net start_date end_date a.
Proof.
  intros H. apply has_type_spec in H. rewrite period_balance_net, H.
  unfold signed. cbn [credit_normal_type]. lia.
Qed.

(** Revenue and expenses of a period, as [income_statement] totals them. *)
Lemma income_totals (start_date end_date : option date) (accounts : dict App.Account) :
  let r := App.income_statement start_date end_date accounts in
  App.total_revenue r
  = sigma (map (fun a => - app_period_net start_date end_date a)
             (filter (has_type Revenue) (dict_values accounts)))
  /\ App.total_expenses r
     = sigma (map (app_period_net start_date end_date)
                (filter (has_type Expense) (dict_values accounts)))
  /\ App.net_income r = App.total_revenue r - App.total_expenses r.
Proof.
  unfold App.income_statement. rewrite income_fold.
  cbn [App.total_revenue App.total_expenses App.net_income].
  split; [|split; [|reflexivity]].
  - rewrite (sigma_filter_split _ (has_type Revenue) (in_category "Operating Revenue")).
    rewrite !(sigma_filter_ext (App.period_balance start_date end_date)
                (fun a => - app_period_net start_date end_date a)
                (fun x => has_type Revenue x && _));
      [lia | |];
      intros x H; apply andb_prop in H; apply period_balance_earned, H.
  - rewrite (sigma_filter_split _ (has_type Expense) (in_category "Operating Expenses")).
    rewrite !(sigma_filter_ext (App.period_balance start_date end_date)
                (app_period_net start_date end_date)
                (fun x => has_type Expense x && _));
      [lia | |];
      intros x H; apply andb_prop in H; apply period_balance_spent, H.
Qed.

(** [income_statement] adds up, for each revenue account, the credits
    minus the debits dated within the period (both bounds inclusive, either
    may be absent) and, for each expense account, the debits minus the
    credits.  A revenue account counts as operating revenue when its
    category is "Operating Revenue" and as other revenue in every other
    category; likewise for expenses and "Operating Expenses".  The totals
    are the sums of the amounts of the two detail lists. *)
Theorem income_statement_sums (start_date end_date : option date)
    (accounts : dict App.Account) :
  let r := App.income_statement start_date end_date accounts in
  let earned a := - app_period_net start_date end_date a in
  let spent a := app_period_net start_date end_date a in
  let chart := dict_values accounts in
  App.operating_revenue r
  = sigma (map earned
             (filter (fun a => has_type Revenue a
                               && in_category "Operating Revenue" a) chart))
  /\ App.other_revenue r
     = sigma (map earned
                (filter (fun a => has_type Revenue a
                                  && negb (in_category "Operating Revenue" a)) chart))
  /\ App.operating_expenses r
     = sigma (map spent
                (filter (fun a => has_type Expense a
                                  && in_category "Operating Expenses" a) chart))
  /\ App.other_expenses r
     = sigma (map spent
                (filter (fun a => has_type Expense a
                                  && negb (in_category "Operating Expenses" a)) chart))
  /\ App.total_revenue r = sigma (map earned (filter (has_type Revenue) chart))
  /\ App.total_expenses r = sigma (map spent (filter (has_type Expense) chart))
  /\ App.total_revenue r = sigma (map snd (App.detail_revenue r))
  /\ App.total_expenses r = sigma (map snd (App.detail_expenses r))
  /\ App.net_income r = App.total_revenue r - App.total_expenses r.
Proof.
  intros r earned spent chart.
  destruct (income_totals start_date end_date accounts) as (Hrev & Hexp & Hnet).
  fold r in Hrev, Hexp, Hnet.
  assert (Hdr : sigma (map snd (App.detail_revenue r))
                = sigma (map earned (filter (has_type Revenue) chart))).
  { subst r. unfold App.income_statement. rewrite income_fold.
    cbn [App.detail_revenue]. unfold App.detail. rewrite map_map. cbn [snd].
    apply (sigma_filter_ext _ _ (has_type Revenue)).
    intros x H. apply period_balance_earned, H. }
  assert (Hde : sigma (map snd (App.detail_expenses r))
                = sigma (map spent (filter (has_type Expense) chart))).
  { subst r. unfold App.income_statement. rewrite income_fold.
    cbn [App.detail_expenses]. unfold App.detail. rewrite map_map. cbn [snd].
    apply (sigma_filter_ext _ _ (has_type Expense)).
    intros x H. apply period_balance_spent, H. }
  split; [|split; [|split; [|split; [|split; [|split; [|split; [|split]]]]]]];
    [ | | | | exact Hrev | exact Hexp | rewrite Hdr; exact Hrev
    | rewrite Hde; exact Hexp | exact Hnet ].
  - subst r. unfold App.income_statement. rewrite income_fold.
    cbn [App.operating_revenue]. rewrite Z.add_0_l.
    apply sigma_filter_ext. intros x H. apply andb_prop in H.
    apply period_balance_earned, H.
  - subst r. unfold App.income_statement. rewrite income_fold.
    cbn [App.other_revenue]. rewrite Z.add_0_l.
    apply sigma_filter_ext. intros x H. apply andb_prop in H.
    apply period_balance_earned, H.
  - subst r. unfold App.income_statement. rewrite income_fold.
    cbn [App.operating_expenses]. rewrite Z.add_0_l.
    apply sigma_filter_ext. intros x H. apply andb_prop in H.
    apply period_balance_spent, H.
  - subst r. unfold App.income_statement. rewrite income_fold.
    cbn [App.other_expenses]. rewrite Z.add_0_l.
    apply sigma_filter_ext. intros x H. apply andb_prop in H.
    apply period_balance_spent, H.
Qed.

(** Tests of a known account type against a type name. *)
Ltac type_tests :=
  repeat match goal with
         | |- context [String.eqb (type_name ?a) ?t] =>
             lazymatch a with
             | App.type _ => fail
             | _ => change (String.eqb (type_name a) t) with true
                    || change (String.eqb (type_name a) t) with false
             end
         end.

Lemma sigma_concat (ls : list (list (string * Decimal))) :
  sigma (map snd (List.concat ls)) = sigma (map (fun l => sigma (map snd l)) ls).
Proof.
  induction ls as [|l ls IH]; [reflexivity|].
  cbn [List.concat map]. rewrite map_app, sigma_app, sigma_cons, IH. reflexivity.
Qed.

Lemma section_in (c : string) (l : list string) :
  existsb (String.eqb c) l = true <-> In c l.
Proof.
  rewrite existsb_exists. split.
  - intros (x & Hx & E). apply String.eqb_eq in E. subst. exact Hx.
  - intros H. exists c. split; [exact H | apply String.eqb_refl].
Qed.

Lemma file_entry_present (s : App.Sections) (c : string) (e : string * Decimal) :
  In c (dict_keys s) ->
  exists s',
    App.file_entry s c e = Ok s'
    /\ dict_keys s' = dict_keys s
    /\ App.section_total s' = App.section_total s + snd e.
Proof.
  intros Hin. apply dict_get_in_keys in Hin. unfold App.file_entry.
  destruct (dict_get c s) as [l|] eqn:E; [|congruence].
  eexists. split; [reflexivity|]. split.
  - apply dict_keys_set_present. congruence.
  - unfold App.section_total. rewrite !py_sum_sigma, !sigma_concat.
    rewrite (sigma_dict_set _ _ _ l) by exact E.
    rewrite map_app, sigma_app. cbn [map]. rewrite sigma_cons.
    change (sigma []) with 0. lia.
Qed.

Lemma file_entry_absent (s : App.Sections) (c : string) (e : string * Decimal) :
  ~ In c (dict_keys s) -> App.file_entry s c e = Raise (KeyError c).
Proof.
  intros Hin. unfold App.file_entry.
  destruct (dict_get c s) as [l|] eqn:E; [|reflexivity].
  exfalso. apply Hin. apply dict_get_in_keys. congruence.
Qed.

Lemma sheet_step_cases (cut : option date) (A L E : App.Sections) (x : App.Account) :
  App.sheet_step cut (A, L, E) x
  = match App.type x with
    | Asset =>
        A' <- App.file_entry A (App.category x) (App.name x, App.balance_as_of cut x) ;;
        Ok (A', L, E)
    | Liability =>
        L' <- App.file_entry L (App.category x) (App.name x, App.balance_as_of cut x) ;;
        Ok (A, L', E)
    | Equity =>
        E' <- App.file_entry E (App.category x) (App.name x, App.balance_as_of cut x) ;;
        Ok (A, L, E')
    | Revenue | Expense => Ok (A, L, E)
    end.
Proof. unfold App.sheet_step. destruct (App.type x); reflexivity. Qed.

Lemma has_type_test (t : AccountType) (x : App.Account) :
  has_type t x = String.eqb (type_name (App.type x)) (type_name t).
Proof. reflexivity. Qed.

Lemma filter_type_cons (t : AccountType) (x : App.Account) (l : list App.Account) :
  filter (has_type t) (x :: l)
  = if has_type t x then x :: filter (has_type t) l else filter (has_type t) l.
Proof. reflexivity. Qed.

(** The loop of [balance_sheet] over accounts that all have a section. *)
Lemma sheet_loop (cut : option date) (l : list App.Account) :
  Forall (fun a => filed a = true) l ->
  forall A L E : App.Sections,
    dict_keys A = sheet_sections Asset ->
    dict_keys L = sheet_sections Liability ->
    dict_keys E = sheet_sections Equity ->
    exists A' L' E',
      for_each (App.sheet_step cut) l (A, L, E) = Ok (A', L', E')
      /\ App.section_total A'
         = App.section_total A
           + sigma (map (App.balance_as_of cut) (filter (has_type Asset) l))
      /\ App.section_total L'
         = App.section_total L
           + sigma (map (App.balance_as_of cut) (filter (has_type Liability) l))
      /\ App.section_total E'
         = App.section_total E
           + sigma (map (App.balance_as_of cut) (filter (has_type Equity) l)).
Proof.
  induction 1 as [|x l Hx _ IH]; intros A L E KA KL KE.
  - exists A, L, E. cbn [for_each filter map]. change (sigma []) with 0.
    repeat split; lia.
  - cbn [for_each]. rewrite sheet_step_cases, !filter_type_cons.
    unfold filed in Hx. rewrite !has_type_test.
    destruct (App.type x); type_tests; cbn [map]; rewrite ?sigma_cons.
    + apply section_in in Hx. rewrite <- KA in Hx.
      destruct (file_entry_present A (App.category x)
                  (App.name x, App.balance_as_of cut x) Hx) as (A1 & -> & K1 & T1).
      cbn [bind]. rewrite <- K1 in KA.
      destruct (IH A1 L E KA KL KE) as (A' & L' & E' & -> & HA & HL & HE).
      exists A', L', E'. cbn [snd] in T1. repeat split; lia.
    + apply section_in in Hx. rewrite <- KL in Hx.
      destruct (file_entry_present L (App.category x)
                  (App.name x, App.balance_as_of cut x) Hx) as (L1 & -> & K1 & T1).
      cbn [bind]. rewrite <- K1 in KL.
      destruct (IH A L1 E KA KL KE) as (A' & L' & E' & -> & HA & HL & HE).
      exists A', L', E'. cbn [snd] in T1. repeat split; lia.
    + apply section_in in Hx. rewrite <- KE in Hx.
      destruct (file_entry_present E (App.category x)
                  (App.name x, App.balance_as_of cut x) Hx) as (E1 & -> & K1 & T1).
      cbn [bind]. rewrite <- K1 in KE.
      destruct (IH A L E1 KA KL KE) as (A' & L' & E' & -> & HA & HL & HE).
      exists A', L', E'. cbn [snd] in T1. repeat split; lia.
    + cbn [bind]. apply IH; assumption.
    + cbn [bind]. apply IH; assumption.
Qed.

(** The loop stops at the first account whose category is no section of
    its type. *)
Lemma sheet_loop_unfiled (cut : option date) (l : list App.Account) :
  Exists (fun a => filed a = false) l ->
  forall A L E : App.Sections,
    dict_keys A = sheet_sections Asset ->
    dict_keys L = sheet_sections Liability ->
    dict_keys E = sheet_sections Equity ->
    exists before b after,
      l = before ++ b :: after
      /\ Forall (fun a => filed a = true) before
      /\ filed b = false
      /\ for_each (App.sheet_step cut) l (A, L, E) = Raise (KeyError (App.category b)).
Proof.
  induction l as [|x l IH]; intros Hex A L E KA KL KE.
  - inversion Hex.
  - destruct (filed x) eqn:Fx.
    + assert (Hl : Exists (fun a => filed a = false) l).
      { inversion Hex as [? ? H|? ? H]; subst; [congruence | exact H]. }
      destruct (sheet_loop cut [x] (Forall_cons x Fx (Forall_nil _)) A L E KA KL KE)
        as (A1 & L1 & E1 & Hstep & _).
      cbn [for_each] in Hstep |- *.
      destruct (App.sheet_step cut (A, L, E) x) as [[[A2 L2] E2]|e] eqn:S;
        [|discriminate].
      cbn [bind] in Hstep |- *.
      assert (K : dict_keys A2 = sheet_sections Asset
                  /\ dict_keys L2 = sheet_sections Liability
                  /\ dict_keys E2 = sheet_sections Equity).
      { rewrite sheet_step_cases in S. unfold filed in Fx.
        destruct (App.type x); apply section_in in Fx || clear Fx.
        - rewrite <- KA in Fx.
          destruct (file_entry_present A (App.category x)
                      (App.name x, App.balance_as_of cut x) Fx) as (s & Hs & K1 & _).
          rewrite Hs in S. injection S as <- <- <-. rewrite K1. auto.
        - rewrite <- KL in Fx.
          destruct (file_entry_present L (App.category x)
                      (App.name x, App.balance_as_of cut x) Fx) as (s & Hs & K1 & _).
          rewrite Hs in S. injection S as <- <- <-. rewrite K1. auto.
        - rewrite <- KE in Fx.
          destruct (file_entry_present E (App.category x)
                      (App.name x, App.balance_as_of cut x) Fx) as (s & Hs & K1 & _).
          rewrite Hs in S. injection S as <- <- <-. rewrite K1. auto.
        - injection S as <- <- <-. auto.
        - injection S as <- <- <-. auto. }
      destruct K as (KA2 & KL2 & KE2).
      destruct (IH Hl A2 L2 E2 KA2 KL2 KE2)
        as (before & b & after & -> & Hbefore & Fb & Hrun).
      exists (x :: before), b, after. split; [reflexivity|].
      split; [constructor; assumption|]. split; [exact Fb | exact Hrun].
    + exists [], x, l. split; [reflexivity|]. split; [constructor|].
      split; [exact Fx|].
      cbn [for_each]. rewrite sheet_step_cases. unfold filed in Fx.
      destruct (App.type x); try discriminate.
      * rewrite file_entry_absent; [reflexivity|].
        rewrite KA. intros H. apply section_in in H. congruence.
      * rewrite file_entry_absent; [reflexivity|].
        rewrite KL. intros H. apply section_in in H. congruence.
      * rewrite file_entry_absent; [reflexivity|].
        rewrite KE. intros H. apply section_in in H. congruence.
Qed.

Lemma sigma_by_type (f : App.Account -> Decimal) (l : list App.Account) :
  sigma (map f l)
  = sigma (map f (filter (has_type Asset) l))
    + sigma (map f (filter (has_type Liability) l))
    + sigma (map f (filter (has_type Equity) l))
    + sigma (map f (filter (has_type Revenue) l))
    + sigma (map f (filter (has_type Expense) l)).
Proof.
  induction l as [|x l IH]; [reflexivity|].
  rewrite !filter_type_cons, !has_type_test.
  destruct (App.type x); type_tests; cbn [map]; rewrite ?sigma_cons; lia.
Qed.

Lemma app_reachable_chart (strftime : string -> date -> string) (w : App.World) :
  app_reachable strftime w -> chart_kept (App.accounts w).
Proof.
  unfold chart_kept.
  induction 1 as [today | today debits credits description when w tx w' _ IH H
                 | today as_of_date w w' _ IH H].
  - split; [reflexivity|]. vm_compute. repeat constructor.
  - destruct IH as [Hk Hf]. unfold App.post_transaction in H.
    destruct (App.validate_transaction debits credits) as [[]|e]; [|discriminate].
    pose proof (post_lines_keeps (App.debit today) (fun a => filed a = true)
                  description (date_or when today) (fun a amt Ha => Ha)
                  debits (App.accounts w) Hf) as H1.
    destruct (App.post_lines (App.debit today) debits description
                (date_or when today) (App.accounts w)) as [r1 accts1].
    cbn [snd] in H1. destruct H1 as [Hk1 Hv1].
    destruct r1 as [[]|e1]; [|discriminate].
    pose proof (post_lines_keeps (App.credit today) (fun a => filed a = true)
                  description (date_or when today) (fun a amt Ha => Ha)
                  credits accts1 Hv1) as H2.
    destruct (App.post_lines (App.credit today) credits description
                (date_or when today) accts1) as [r2 accts2].
    cbn [snd] in H2. destruct H2 as [Hk2 Hv2].
    destruct r2 as [[]|e2]; [|discriminate].
    injection H as _ <-. cbn [App.accounts].
    split; [rewrite Hk2, Hk1; exact Hk | exact Hv2].
  - destruct IH as [Hk Hf]. unfold App.calculate_depreciation in H.
    destruct (dict_get "Equipment" (App.accounts w)) as [equipment|]; [|discriminate].
    destruct (dict_get "Depreciation Expense" (App.accounts w)) as [expense|] eqn:E1;
      [|discriminate].
    match type of H with
    | context [dict_get "Accumulated Depreciation" ?d] =>
        destruct (dict_get "Accumulated Depreciation" d) as [accumulated|] eqn:E2;
        [|discriminate]
    end.
    injection H as <-. cbn [App.accounts]. split.
    + rewrite dict_keys_set_present.
      * rewrite dict_keys_set_present; [exact Hk | rewrite E1; discriminate].
      * intros Hn. pose proof (eq_trans (eq_sym E2) Hn) as X. discriminate X.
    + assert (Hin : forall k a d, dict_get k d = Some a ->
                Forall (fun a => filed a = true) (dict_values d) -> filed a = true).
      { intros k a d Hget HF. rewrite Forall_forall in HF. apply HF.
        eapply dict_get_in_values. exact Hget. }
      assert (Hf1 : Forall (fun a => filed a = true)
                      (dict_values
                         (dict_set "Depreciation Expense"
                            (snd (App.debit today expense
                                    (round_half_even
                                       (round_half_even (App.balance equipment) 5) 12)
                                    ("Monthly depreciation for "
                                     ++ strftime "%B %Y" (date_or as_of_date today))
                                    (Some (date_or as_of_date today))))
                            (App.accounts w)))).
      { apply forall_values_set; [|exact Hf]. exact (Hin _ _ _ E1 Hf). }
      apply forall_values_set; [|exact Hf1]. exact (Hin _ _ _ E2 Hf1).
Qed.

Lemma sheet_net_income (cut : option date) (accounts : dict App.Account) :
  match cut with
  | Some d => App.net_income (App.income_statement None (Some d) accounts)
  | None => App.net_income (App.income_statement None None accounts)
  end
  = sigma (map (fun a => - app_net cut a)
             (filter (has_type Revenue) (dict_values accounts)))
    - sigma (map (app_net cut) (filter (has_type Expense) (dict_values accounts))).
Proof.
  assert (E : match cut with
              | Some d => App.net_income (App.income_statement None (Some d) accounts)
              | None => App.net_income (App.income_statement None None accounts)
              end = App.net_income (App.income_statement None cut accounts))
    by (destruct cut; reflexivity).
  rewrite E.
  destruct (income_totals None cut accounts) as (Hrev & Hexp & Hnet).
  rewrite Hnet, Hrev, Hexp. reflexivity.
Qed.

(** What [balance_sheet] returns on a chart whose accounts all have a
    section. *)
Lemma balance_sheet_filed (today : date) (cut : option date)
    (accounts : dict App.Account) :
  Forall (fun a => filed a = true) (dict_values accounts) ->
  let chart := dict_values accounts in
  let net_income :=
    sigma (map (fun a => - app_net cut a) (filter (has_type Revenue) chart))
    - sigma (map (app_net cut) (filter (has_type Expense) chart)) in
  exists sheet,
    App.balance_sheet today cut accounts = Ok sheet
    /\ App.sheet_assets sheet
       = sigma (map (app_net cut) (filter (has_type Asset) chart))
    /\ App.sheet_liabilities sheet
       = sigma (map (fun a => - app_net cut a) (filter (has_type Liability) chart))
    /\ App.sheet_equity sheet
       = sigma (map (fun a => - app_net cut a) (filter (has_type Equity) chart))
         + net_income
    /\ App.liabilities_and_equity sheet
       = App.sheet_liabilities sheet + App.sheet_equity sheet
    /\ App.sheet_is_balanced sheet
       = (App.sheet_assets sheet =? App.liabilities_and_equity sheet).
Proof.
  intros Hf chart net_income. unfold App.balance_sheet.
  destruct (sheet_loop cut chart Hf
              [("Current Assets", []); ("Fixed Assets", []); ("Other Assets", [])]
              [("Current Liabilities", []); ("Long Term Liabilities", [])]
              [("Owner's Equity", []); ("Retained Earnings", [])]
              eq_refl eq_refl eq_refl) as (A & L & E & Hrun & HA & HL & HE).
  match goal with
  | |- context [bind ?r _] => replace r with (Ok (A, L, E)) by (symmetry; exact Hrun)
  end.
  cbn [bind]. rewrite sheet_net_income. fold chart. fold net_income.
  change (App.section_total [("Current Assets", []); ("Fixed Assets", []);
                             ("Other Assets", [])]) with 0 in HA.
  change (App.section_total [("Current Liabilities", []);
                             ("Long Term Liabilities", [])]) with 0 in HL.
  change (App.section_total [("Owner's Equity", []); ("Retained Earnings", [])])
    with 0 in HE.
  rewrite (sigma_filter_ext _ (app_net cut) (has_type Asset)) in HA.
  2:{ intros x H. apply has_type_spec in H. rewrite balance_as_of_net, H.
      unfold signed. cbn [credit_normal_type]. lia. }
  rewrite (sigma_filter_ext _ (fun a => - app_net cut a) (has_type Liability)) in HL.
  2:{ intros x H. apply has_type_spec in H. rewrite balance_as_of_net, H.
      unfold signed. cbn [credit_normal_type]. lia. }
  rewrite (sigma_filter_ext _ (fun a => - app_net cut a) (has_type Equity)) in HE.
  2:{ intros x H. apply has_type_spec in H. rewrite balance_as_of_net, H.
      unfold signed. cbn [credit_normal_type]. lia. }
  eexists. split; [reflexivity|].
  cbn [App.sheet_assets App.sheet_liabilities App.sheet_equity
       App.liabilities_and_equity App.sheet_is_balanced].
  rewrite Z.add_0_l in HA, HL, HE. rewrite HA, HL, HE.
  split; [reflexivity|]. split; [reflexivity|]. split; [reflexivity|].
  split; [rewrite Z.add_assoc|]; reflexivity.
Qed.

Lemma sigma_opp {A} (f : A -> Decimal) (l : list A) :
  sigma (map (fun a => - f a) l) = - sigma (map f l).
Proof.
  induction l as [|x l IH]; [reflexivity|]. cbn [map]. rewrite !sigma_cons, IH. lia.
Qed.

(** On a chart that keeps the double-entry invariant the sheet balances. *)
Lemma balance_sheet_double_entry (today : date) (cut : option date)
    (accounts : dict App.Account) :
  Forall (fun a => filed a = true) (dict_values accounts) ->
  app_double_entry accounts ->
  let chart := dict_values accounts in
  let owed t := sigma (map (fun a => - app_net cut a) (filter (has_type t) chart)) in
  exists sheet,
    App.balance_sheet today cut accounts = Ok sheet
    /\ App.sheet_assets sheet
       = sigma (map (app_net cut) (filter (has_type Asset) chart))
    /\ App.sheet_liabilities sheet = owed Liability
    /\ App.sheet_equity sheet
       = owed Equity
         + (owed Revenue
            - sigma (map (app_net cut) (filter (has_type Expense) chart)))
    /\ App.liabilities_and_equity sheet
       = App.sheet_liabilities sheet + App.sheet_equity sheet
    /\ App.sheet_assets sheet = App.liabilities_and_equity sheet
    /\ App.sheet_is_balanced sheet = true.
Proof.
  intros Hf Hdouble chart owed. pose proof (Hdouble cut) as Hinv.
  destruct (balance_sheet_filed today cut accounts Hf)
    as (sheet & Hrun & HA & HL & HE & HLE & Hflag).
  exists sheet. fold chart in HA, HL, HE, Hinv.
  assert (Heq : App.sheet_assets sheet = App.liabilities_and_equity sheet).
  { rewrite HLE, HA, HL, HE.
    rewrite (sigma_by_type (app_net cut) chart) in Hinv.
    rewrite !sigma_opp. lia. }
  split; [exact Hrun|]. split; [exact HA|]. split; [exact HL|].
  split; [exact HE|]. split; [exact HLE|]. split; [exact Heq|].
  rewrite Hflag. apply Z.eqb_eq. exact Heq.
Qed.

(** In every state reached from the first-run chart by successful postings
    and depreciation runs, [balance_sheet], with or without a date, returns
    a sheet: assets are the debits minus the credits of the asset accounts
    dated up to the date, liabilities the credits minus the debits of the
    liability accounts, and equity those of the equity accounts plus the
    net income (revenue less expenses) up to the date, which no equity
    account holds.  Assets equal liabilities plus equity, and the sheet
    says it is balanced. *)
Theorem balance_sheet_balances (strftime : string -> date -> string)
    (today : date) (cut : option date) (w : App.World)
    (Hreach : app_reachable strftime w) :
  let chart := dict_values (App.accounts w) in
  let owed t := sigma (map (fun a => - app_net cut a) (filter (has_type t) chart)) in
  exists sheet,
    App.balance_sheet today cut (App.accounts w) = Ok sheet
    /\ App.sheet_assets sheet
       = sigma (map (app_net cut) (filter (has_type Asset) chart))
    /\ App.sheet_liabilities sheet = owed Liability
    /\ App.sheet_equity sheet
       = owed Equity
         + (owed Revenue
            - sigma (map (app_net cut) (filter (has_type Expense) chart)))
    /\ App.liabilities_and_equity sheet
       = App.sheet_liabilities sheet + App.sheet_equity sheet
    /\ App.sheet_assets sheet = App.liabilities_and_equity sheet
    /\ App.sheet_is_balanced sheet = true.
Proof.
  apply balance_sheet_double_entry.
  - apply (app_reachable_chart strftime w Hreach).
  - apply (app_reachable_invariant strftime w Hreach).
Qed.

Lemma balance_sheet_balances_witness :
  exists sheet,
    App.balance_sheet day0 None (App.accounts app_world1) = Ok sheet
    /\ App.sheet_assets sheet = 2000000
    /\ App.sheet_is_balanced sheet = true.
Proof.
  destruct (balance_sheet_balances month_year day0 None app_world1 app_world1_reachable)
    as (sheet & Hrun & HA & _ & _ & _ & _ & Hflag).
  exists sheet. split; [exact Hrun|]. split; [rewrite HA; reflexivity | exact Hflag].
Defined.

(** [balance_sheet] opens three asset sections, two liability
    sections and two equity sections.  If an asset, liability or equity
    account has a category that is not a section of its type, the call
    raises [KeyError] with the category of the first such account of the
    chart (every account before it has a section), and no sheet is
    returned. *)
Theorem balance_sheet_unknown_category (today : date) (cut : option date)
    (accounts : dict App.Account)
    (Hunfiled : Exists (fun a => filed a = false) (dict_values accounts)) :
  exists before b after,
    dict_values accounts = before ++ b :: after
    /\ Forall (fun a => filed a = true) before
    /\ filed b = false
    /\ App.balance_sheet today cut accounts = Raise (KeyError (App.category b)).
Proof.
  destruct (sheet_loop_unfiled cut (dict_values accounts) Hunfiled
              [("Current Assets", []); ("Fixed Assets", []); ("Other Assets", [])]
              [("Current Liabilities", []); ("Long Term Liabilities", [])]
              [("Owner's Equity", []); ("Retained Earnings", [])]
              eq_refl eq_refl eq_refl) as (before & b & after & Hl & Hbefore & Fb & Hrun).
  exists before, b, after. split; [exact Hl|]. split; [exact Hbefore|].
  split; [exact Fb|].
  unfold App.balance_sheet.
  match goal with
  | |- context [bind ?r _] =>
      replace r with (@Raise (App.Sections * App.Sections * App.Sections)
                        (KeyError (App.category b)))
        by (symmetry; exact Hrun)
  end.
  reflexivity.
Qed.

Lemma balance_sheet_unknown_category_witness :
  exists before b after,
    dict_values app_chart_goodwill = before ++ b :: after
    /\ Forall (fun a => filed a = true) before
    /\ filed b = false
    /\ App.balance_sheet day0 None app_chart_goodwill
       = Raise (KeyError (App.category b)).
Proof.
  apply (balance_sheet_unknown_category day0 None app_chart_goodwill).
  apply Exists_exists.
  exists (App.mkAccount "Goodwill" Asset "Intangible Assets" [] [] day0).
  split; [vm_compute; tauto | reflexivity].
Defined.

(** On the chart with Goodwill and, after it, Deferred Tax, the category
    reported is that of Goodwill. *)
Lemma balance_sheet_goodwill_first :
  App.balance_sheet day0 None app_chart_goodwill
  = Raise (KeyError "Intangible Assets").
Proof. vm_compute. reflexivity. Qed.

(** Every view of the reports page first posts the depreciation of the
    month: in a state reached from the first-run chart the handler appends
    one debit to Depreciation Expense and one credit to Accumulated
    Depreciation, dated today, even when the amount is 0; the history and
    the data file stay as they were.  The three reports are those of the
    state after that posting, and both the trial balance and the balance
    sheet balance. *)
Theorem reports_posts_depreciation (strftime : string -> date -> string)
    (today : date) (w : App.World)
    (Hreach : app_reachable strftime w) :
  exists tb isr bs w' equipment expense accumulated,
    App.reports today strftime w = (Ok (tb, isr, bs), w')
    /\ dict_get "Equipment" (App.accounts w) = Some equipment
    /\ dict_get "Depreciation Expense" (App.accounts w) = Some expense
    /\ dict_get "Accumulated Depreciation" (App.accounts w) = Some accumulated
    /\ (let entry :=
          App.mkEntry (monthly_of (App.balance equipment))
            ("Monthly depreciation for " ++ strftime "%B %Y" today) today in
        App.accounts w'
        = dict_set "Accumulated Depreciation"
            (App.with_credits accumulated (App.credits accumulated ++ [entry]))
            (dict_set "Depreciation Expense"
               (App.with_debits expense (App.debits expense ++ [entry]))
               (App.accounts w)))
    /\ App.transactions w' = App.transactions w
    /\ App.data_file w' = App.data_file w
    /\ tb = App.trial_balance None (App.accounts w')
    /\ isr = App.income_statement None None (App.accounts w')
    /\ App.balance_sheet today None (App.accounts w') = Ok bs
    /\ App.is_balanced tb = true
    /\ App.sheet_is_balanced bs = true.
Proof.
  destruct (app_reachable_chart strftime w Hreach) as [Hk _].
  assert (Hget : forall k, In k (dict_keys (app_seed day0)) ->
                           exists a, dict_get k (App.accounts w) = Some a).
  { intros k Hin. rewrite <- Hk in Hin. apply dict_get_in_keys in Hin.
    destruct (dict_get k (App.accounts w)) as [a|]; [exists a; reflexivity | congruence]. }
  destruct (Hget "Equipment") as [equipment He]; [vm_compute; tauto|].
  destruct (Hget "Depreciation Expense") as [expense Hx]; [vm_compute; tauto|].
  destruct (Hget "Accumulated Depreciation") as [accumulated Ha]; [vm_compute; tauto|].
  pose proof (app_depreciation_step today strftime None w equipment expense accumulated
                He Hx Ha) as Hdep.
  cbv zeta in Hdep. cbn [date_or] in Hdep.
  match type of Hdep with _ = (_, ?x) => set (w' := x) in * end.
  assert (Hreach' : app_reachable strftime w').
  { eapply app_reach_depreciation; [exact Hreach | exact Hdep]. }
  destruct (app_reachable_chart strftime w' Hreach') as [_ Hf'].
  pose proof (app_reachable_invariant strftime w' Hreach') as Hinv'.
  destruct (balance_sheet_double_entry today None (App.accounts w') Hf' Hinv')
    as (bs & Hbs & _ & _ & _ & _ & _ & Hflag).
  exists (App.trial_balance None (App.accounts w')),
         (App.income_statement None None (App.accounts w')), bs, w',
         equipment, expense, accumulated.
  split.
  { unfold App.reports. rewrite Hdep, Hbs. reflexivity. }
  split; [exact He|]. split; [exact Hx|]. split; [exact Ha|].
  split; [reflexivity|]. split; [reflexivity|]. split; [reflexivity|].
  split; [reflexivity|]. split; [reflexivity|]. split; [exact Hbs|].
  split; [|exact Hflag].
  apply (app_double_entry_balanced None (App.accounts w') Hinv').
Qed.

Lemma reports_posts_depreciation_witness :
  exists tb isr bs w',
    App.reports day0 month_year app_world1 = (Ok (tb, isr, bs), w')
    /\ App.data_file w' = App.data_file app_world1
    /\ App.is_balanced tb = true
    /\ App.sheet_is_balanced bs = true.
Proof.
  destruct (reports_posts_depreciation month_year day0 app_world1 app_world1_reachable)
    as (tb & isr & bs & w' & _ & _ & _ & Hrun & _ & _ & _ & _ & _ & Hfile & _ & _ & _
        & Htb & Hbs).
  exists tb, isr, bs, w'.
  split; [exact Hrun|]. split; [exact Hfile|]. split; [exact Htb | exact Hbs].
Defined.

(** ** Posting to the [Ledger] of [double_entry.py] *)

Lemma apply_lines_ok_iff (je_id : string) (ls : list DoubleEntry.EntryLine)
    (accts : dict DoubleEntry.Account) :
  fst (DoubleEntry.apply_lines je_id ls accts) = Ok tt
  <-> Forall (fun l => dict_mem (DoubleEntry.account l) accts = true) ls.
Proof.
  revert accts. induction ls as [|l ls IH]; intros accts; cbn [DoubleEntry.apply_lines].
  - split; [constructor | reflexivity].
  - unfold dict_mem at 1.
    destruct (dict_get (DoubleEntry.account l) accts) as [acct|] eqn:E.
    + rewrite IH. split.
      * intros H. constructor; [unfold dict_mem; rewrite E; reflexivity|].
        eapply Forall_impl; [|exact H]. intros x Hx. cbn beta in *.
        apply dict_mem_in_keys in Hx. apply dict_mem_in_keys.
        rewrite dict_keys_set_present in Hx by congruence. exact Hx.
      * intros H. inversion H as [|? ? _ Hrest]; subst.
        eapply Forall_impl; [|exact Hrest]. intros x Hx. cbn beta in *.
        apply dict_mem_in_keys in Hx. apply dict_mem_in_keys.
        rewrite dict_keys_set_present by congruence. exact Hx.
    + cbn [fst]. split; [discriminate|].
      intros H. inversion H as [|? ? Hm _]; subst.
      unfold dict_mem in Hm. rewrite E in Hm. discriminate.
Qed.

Lemma ledger_posted_nil (je_id k : string) (a : DoubleEntry.Account) :
  ledger_posted je_id k [] a = a.
Proof.
  unfold ledger_posted, ledger_entries_for. cbn [filter map].
  rewrite !app_nil_r. destruct a; reflexivity.
Qed.

Lemma apply_lines_result (je_id : string) (ls : list DoubleEntry.EntryLine)
    (accts accts' : dict DoubleEntry.Account) :
  DoubleEntry.apply_lines je_id ls accts = (Ok tt, accts') ->
  dict_keys accts' = dict_keys accts
  /\ forall k, dict_get k accts'
               = option_map (ledger_posted je_id k ls) (dict_get k accts).
Proof.
  revert accts. induction ls as [|l ls IH]; intros accts H;
    cbn [DoubleEntry.apply_lines] in H.
  - injection H as <-. split; [reflexivity|]. intros k.
    destruct (dict_get k accts) as [a|]; [|reflexivity].
    cbn [option_map]. rewrite ledger_posted_nil. reflexivity.
  - destruct (dict_get (DoubleEntry.account l) accts) as [acct|] eqn:E; [|discriminate].
    apply IH in H. destruct H as [Hk Hg]. split.
    + rewrite Hk. apply dict_keys_set_present. congruence.
    + intros k. rewrite Hg.
      destruct (String.eqb_spec (DoubleEntry.account l) k) as [Heq|Hne].
      * subst k. rewrite dict_get_set_same, E. cbn [option_map]. f_equal.
        unfold ledger_posted, ledger_entries_for. cbn [filter].
        rewrite String.eqb_refl. cbn [andb].
        destruct (DoubleEntry.is_debit l);
          cbn [Bool.eqb map DoubleEntry.code DoubleEntry.name DoubleEntry.type
                 DoubleEntry.debits DoubleEntry.credits];
          rewrite <- ?app_assoc; reflexivity.
      * rewrite dict_get_set_other by congruence.
        destruct (dict_get k accts) as [a|]; [|reflexivity].
        cbn [option_map]. f_equal.
        unfold ledger_posted, ledger_entries_for. cbn [filter].
        apply String.eqb_neq in Hne. rewrite Hne. reflexivity.
Qed.

Lemma dict_set_set {V : Type} (k : string) (v v' : V) (d : dict V) :
  dict_set k v' (dict_set k v d) = dict_set k v' d.
Proof.
  induction d as [|[k0 v0] d IH]; cbn [dict_set].
  - rewrite String.eqb_refl. reflexivity.
  - destruct (String.eqb_spec k k0) as [->|Hne]; cbn [dict_set].
    + rewrite String.eqb_refl. reflexivity.
    + apply String.eqb_neq in Hne. rewrite Hne, IH. reflexivity.
Qed.

(** What [post_transaction] returns once the entry has passed validation. *)
Lemma ledger_post_validated (today : date) (uuid4 : nat -> string)
    (L : DoubleEntry.Ledger) (description : string)
    (lines : list DoubleEntry.EntryLine) :
  Forall (fun l => 0 < DoubleEntry.amount l) lines ->
  debit_total lines = credit_total lines ->
  let je_id := uuid4 (DoubleEntry.draws L) in
  let je := DoubleEntry.mkJournalEntry je_id today description lines in
  DoubleEntry.post_transaction today uuid4 L description lines
  = match DoubleEntry.apply_lines je_id lines (DoubleEntry.accounts L) with
    | (Raise e, accts) =>
        (Raise e,
         DoubleEntry.mkLedger accts (dict_set je_id (je false) (DoubleEntry.journal L))
           (S (DoubleEntry.draws L)))
    | (Ok _, accts) =>
        (Ok (je true),
         DoubleEntry.mkLedger accts (dict_set je_id (je true) (DoubleEntry.journal L))
           (S (DoubleEntry.draws L)))
    end.
Proof.
  intros Hpos Hbal je_id je. unfold DoubleEntry.post_transaction.
  rewrite ledger_new_entry_ok by assumption.
  unfold DoubleEntry.post_entry.
  cbn [DoubleEntry.id DoubleEntry.journal DoubleEntry.accounts DoubleEntry.draws].
  rewrite dict_get_set_same.
  cbn [DoubleEntry.posted DoubleEntry.id DoubleEntry.lines DoubleEntry.entry_date
         DoubleEntry.description].
  fold je_id.
  destruct (DoubleEntry.apply_lines je_id lines (DoubleEntry.accounts L)) as [[[]|e] accts].
  - rewrite dict_set_set. reflexivity.
  - reflexivity.
Qed.

(** [Ledger.post_transaction] returns an entry exactly when every line has
    a positive amount, the debit lines and the credit lines have the same
    total, and every line names an account of the ledger. *)
Theorem ledger_post_transaction_succeeds_iff (today : date) (uuid4 : nat -> string)
    (L : DoubleEntry.Ledger) (description : string)
    (lines : list DoubleEntry.EntryLine) :
  (exists je L',
      DoubleEntry.post_transaction today uuid4 L description lines = (Ok je, L'))
  <-> (Forall (fun l => 0 < DoubleEntry.amount l) lines
       /\ debit_total lines = credit_total lines
       /\ Forall (fun l => dict_mem (DoubleEntry.account l) (DoubleEntry.accounts L) = true)
            lines).
Proof.
  split.
  - intros (je & L' & H).
    assert (Hv : Forall (fun l => 0 < DoubleEntry.amount l) lines
                 /\ debit_total lines = credit_total lines).
    { unfold DoubleEntry.post_transaction in H.
      destruct (DoubleEntry.new_journal_entry today uuid4 L description lines)
        as [[j|e] L1] eqn:E; [|discriminate].
      apply ledger_new_entry_inv in E. destruct E as (Hp & Hb & _). auto. }
    destruct Hv as [Hpos Hbal]. split; [exact Hpos|]. split; [exact Hbal|].
    rewrite (ledger_post_validated today uuid4 L description lines Hpos Hbal) in H.
    apply (apply_lines_ok_iff (uuid4 (DoubleEntry.draws L))).
    destruct (DoubleEntry.apply_lines _ lines (DoubleEntry.accounts L)) as [[[]|e] accts];
      [reflexivity | discriminate].
  - intros (Hpos & Hbal & Hacc).
    rewrite (ledger_post_validated today uuid4 L description lines Hpos Hbal).
    apply (apply_lines_ok_iff (uuid4 (DoubleEntry.draws L))) in Hacc.
    destruct (DoubleEntry.apply_lines _ lines (DoubleEntry.accounts L)) as [[[]|e] accts];
      [|discriminate].
    eexists. eexists. reflexivity.
Qed.

(** A successful [Ledger.post_transaction] draws one identifier, returns
    the entry marked as posted and stores it in the journal under that
    identifier; the chart keeps its codes, and every account receives, in
    the order of the lines, one (identifier, amount) pair on the debit side
    per debit line that names it and one on the credit side per credit
    line. *)
Theorem ledger_post_transaction_appends_lines (today : date) (uuid4 : nat -> string)
    (L L' : DoubleEntry.Ledger) (description : string)
    (lines : list DoubleEntry.EntryLine) (je : DoubleEntry.JournalEntry)
    (Hpost : DoubleEntry.post_transaction today uuid4 L description lines = (Ok je, L')) :
  let je_id := uuid4 (DoubleEntry.draws L) in
  je = DoubleEntry.mkJournalEntry je_id today description lines true
  /\ dict_keys (DoubleEntry.accounts L') = dict_keys (DoubleEntry.accounts L)
  /\ (forall k, dict_get k (DoubleEntry.accounts L')
                = option_map (ledger_posted je_id k lines)
                    (dict_get k (DoubleEntry.accounts L)))
  /\ (forall k a, dict_get k (DoubleEntry.accounts L) = Some a ->
                  DoubleEntry.balance (ledger_posted je_id k lines a)
                  = DoubleEntry.balance a
                    + (if DoubleEntry.debit_normal (DoubleEntry.type a) then 1 else -1)
                      * (sigma (map snd (ledger_entries_for je_id k true lines))
                         - sigma (map snd (ledger_entries_for je_id k false lines))))
  /\ DoubleEntry.journal L' = dict_set je_id je (DoubleEntry.journal L)
  /\ DoubleEntry.draws L' = S (DoubleEntry.draws L).
Proof.
  intros je_id.
  assert (Hv : Forall (fun l => 0 < DoubleEntry.amount l) lines
               /\ debit_total lines = credit_total lines).
  { unfold DoubleEntry.post_transaction in Hpost.
    destruct (DoubleEntry.new_journal_entry today uuid4 L description lines)
      as [[j|e] L1] eqn:E; [|discriminate].
    apply ledger_new_entry_inv in E. destruct E as (Hp & Hb & _). auto. }
  destruct Hv as [Hpos Hbal].
  rewrite (ledger_post_validated today uuid4 L description lines Hpos Hbal) in Hpost.
  fold je_id in Hpost.
  destruct (DoubleEntry.apply_lines je_id lines (DoubleEntry.accounts L))
    as [[[]|e] accts] eqn:A; [|discriminate].
  injection Hpost as <- <-.
  destruct (apply_lines_result _ _ _ _ A) as [Hk Hg].
  cbn [DoubleEntry.accounts DoubleEntry.journal DoubleEntry.draws].
  split; [reflexivity|]. split; [exact Hk|]. split; [exact Hg|].
  split; [|split; reflexivity].
  intros k a _. rewrite !ledger_balance_lists. unfold ledger_posted, signed.
  cbn [DoubleEntry.type DoubleEntry.debits DoubleEntry.credits].
  rewrite !map_app, !sigma_app.
  destruct (DoubleEntry.debit_normal (DoubleEntry.type a)); cbn [negb]; lia.
Qed.

Lemma ledger_post_transaction_appends_witness :
  dict_get "1000" (DoubleEntry.accounts ledger1)
  = Some (DoubleEntry.mkAccount "1000" "Cash" "Asset" [(ids 0, 200000000)] []).
Proof.
  destruct (DoubleEntry.post_transaction day0 ids DoubleEntry.new_ledger
              "Owner investment"
              [ DoubleEntry.mkEntryLine "1000" 200000000 true;
                DoubleEntry.mkEntryLine "3000" 200000000 false ])
    as [[je|e] L'] eqn:E; [|vm_compute in E; discriminate].
  destruct (ledger_post_transaction_appends_lines day0 ids _ _ _ _ _ E)
    as (_ & _ & Hg & _).
  unfold ledger1. rewrite E. cbn [snd]. rewrite Hg. reflexivity.
Defined.

(** A journal entry is applied at most once: after [post_entry] has
    returned it, marked as posted, a second [post_entry] of the same
    identifier raises [ValueError] and leaves the ledger as it is. *)
Theorem post_entry_only_once (L L' : DoubleEntry.Ledger) (je_id : string)
    (je : DoubleEntry.JournalEntry)
    (Hpost : DoubleEntry.post_entry L je_id = (Ok je, L')) :
  DoubleEntry.posted je = true
  /\ dict_get je_id (DoubleEntry.journal L') = Some je
  /\ DoubleEntry.post_entry L' je_id = (Raise (ValueError "Entry already posted"), L').
Proof.
  unfold DoubleEntry.post_entry in Hpost.
  destruct (dict_get je_id (DoubleEntry.journal L)) as [j|] eqn:E; [|discriminate].
  destruct (DoubleEntry.posted j); [discriminate|].
  destruct (DoubleEntry.apply_lines (DoubleEntry.id j) (DoubleEntry.lines j)
              (DoubleEntry.accounts L)) as [[[]|e] accts]; [|discriminate].
  injection Hpost as <- <-.
  split; [reflexivity|]. split; [apply dict_get_set_same|].
  unfold DoubleEntry.post_entry. cbn [DoubleEntry.journal].
  rewrite dict_get_set_same. reflexivity.
Qed.

Lemma post_entry_only_once_witness :
  DoubleEntry.post_entry (snd (DoubleEntry.post_entry ledger_recorded (ids 0))) (ids 0)
  = (Raise (ValueError "Entry already posted"),
     snd (DoubleEntry.post_entry ledger_recorded (ids 0))).
Proof.
  destruct (DoubleEntry.post_entry ledger_recorded (ids 0)) as [[je|e] L'] eqn:E;
    [|vm_compute in E; discriminate].
  apply (post_entry_only_once ledger_recorded L' (ids 0) je E).
Defined.

(** ** Amounts in whole cents on the [Ledger] *)

Lemma apply_lines_whole_cents (je_id : string) (ls : list DoubleEntry.EntryLine) :
  Forall (fun l => whole_cents (DoubleEntry.amount l)) ls ->
  forall accts : dict DoubleEntry.Account,
    Forall (fun a => Forall (fun e => whole_cents (snd e))
                       (DoubleEntry.debits a ++ DoubleEntry.credits a))
      (dict_values accts) ->
    Forall (fun a => Forall (fun e => whole_cents (snd e))
                       (DoubleEntry.debits a ++ DoubleEntry.credits a))
      (dict_values (snd (DoubleEntry.apply_lines je_id ls accts))).
Proof.
  induction 1 as [|l ls Hl _ IH]; intros accts Ha; cbn [DoubleEntry.apply_lines].
  - exact Ha.
  - destruct (dict_get (DoubleEntry.account l) accts) as [acct|] eqn:E; [|exact Ha].
    apply IH. apply forall_values_set; [|exact Ha].
    rewrite Forall_forall in Ha.
    pose proof (Ha acct (dict_get_in_values _ _ _ E)) as Hacct.
    apply Forall_app in Hacct. destruct Hacct as [Hd Hc].
    destruct (DoubleEntry.is_debit l); cbn [DoubleEntry.debits DoubleEntry.credits];
      apply Forall_app; split; try assumption;
      apply Forall_app; split; try assumption; repeat constructor; exact Hl.
Qed.

(** A posting of amounts in whole cents, successful or not, leaves a ledger
    that holds whole cents: so do all the postings of the console, which
    passes every amount through [D]. *)
Lemma post_transaction_whole_cents (today : date) (uuid4 : nat -> string)
    (L : DoubleEntry.Ledger) (description : string)
    (lines : list DoubleEntry.EntryLine) :
  ledger_whole_cents L ->
  Forall (fun l => whole_cents (DoubleEntry.amount l)) lines ->
  ledger_whole_cents
    (snd (DoubleEntry.post_transaction today uuid4 L description lines)).
Proof.
  intros HL Hlines. unfold DoubleEntry.post_transaction, DoubleEntry.new_journal_entry.
  destruct (existsb _ lines); [exact HL|]. cbv zeta.
  destruct (negb _); [exact HL|].
  unfold DoubleEntry.post_entry.
  cbn [DoubleEntry.id DoubleEntry.journal DoubleEntry.accounts DoubleEntry.draws].
  rewrite dict_get_set_same.
  cbn [DoubleEntry.posted DoubleEntry.id DoubleEntry.lines].
  pose proof (apply_lines_whole_cents (uuid4 (DoubleEntry.draws L)) lines Hlines
                (DoubleEntry.accounts L) HL) as H.
  destruct (DoubleEntry.apply_lines (uuid4 (DoubleEntry.draws L)) lines
              (DoubleEntry.accounts L)) as [[[]|e] accts]; exact H.
Qed.

Lemma new_ledger_whole_cents : ledger_whole_cents DoubleEntry.new_ledger.
Proof. vm_compute. repeat constructor. Qed.

(** ** Depreciation on the [Ledger] *)

(** A quotient rounded to the cent, taken any number of times, is in whole
    cents. *)
Lemma whole_cents_months (x : Decimal) (n months : Z) :
  whole_cents (DoubleEntry.divide_quantize x n * months).
Proof.
  unfold whole_cents, DoubleEntry.divide_quantize.
  replace (round_half_up x (n * DoubleEntry.CENT) * DoubleEntry.CENT * months)
    with (round_half_up x (n * DoubleEntry.CENT) * months * DoubleEntry.CENT) by ring.
  apply D_cents.
Qed.

Lemma divide_quantize_positive (x : Decimal) (n : Z) :
  0 < n -> 0 < DoubleEntry.divide_quantize x n -> 0 < x.
Proof.
  intros Hn H. unfold DoubleEntry.divide_quantize, DoubleEntry.CENT in H.
  destruct (Z.leb_spec x 0) as [Hle|Hgt]; [|exact Hgt].
  exfalso. unfold round_half_up in H.
  pose proof (Z.div_le_upper_bound x (n * 100) 0 ltac:(lia) ltac:(lia)).
  pose proof (Z.mod_pos_bound x (n * 100) ltac:(lia)).
  pose proof (Z.div_mod x (n * 100) ltac:(lia)).
  destruct (Z.ltb_spec (2 * (x mod (n * 100))) (n * 100)); [lia|].
  destruct (Z.ltb_spec (n * 100) (2 * (x mod (n * 100)))); [nia|].
  destruct (Z.leb_spec 0 x); nia.
Qed.

(** The run of [calculate_depreciation] once the equipment account and
    the accumulated-depreciation account have been found. *)
Lemma ledger_depreciation_found (today : date) (uuid4 : nat -> string)
    (L : DoubleEntry.Ledger) (equipment_code accum_code expense_code : string)
    (months life_years : Z) (salvage : Decimal) (equip accum : DoubleEntry.Account) :
  dict_get equipment_code (DoubleEntry.accounts L) = Some equip ->
  dict_get accum_code (DoubleEntry.accounts L) = Some accum ->
  let amt := DoubleEntry.divide_quantize (equipment_cost equip - DoubleEntry.D salvage)
               (life_years * 12) * months in
  DoubleEntry.calculate_depreciation today uuid4 L equipment_code accum_code
    expense_code months life_years salvage
  = if life_years * 12 <=? 0
    then (Raise (ValueError "life_years must be > 0"), L)
    else if equipment_cost equip - DoubleEntry.D salvage <=? 0 then (Ok 0, L)
    else if amt >? 0
    then match DoubleEntry.post_transaction today uuid4 L
                 ("Depreciation for " ++ DoubleEntry.str_int months ++ " month(s)")
                 [ DoubleEntry.mkEntryLine expense_code amt true;
                   DoubleEntry.mkEntryLine accum_code amt false ] with
         | (Raise e, L') => (Raise e, L')
         | (Ok _, L') => (Ok amt, L')
         end
    else (Ok amt, L).
Proof.
  intros He Ha amt. unfold DoubleEntry.calculate_depreciation, DoubleEntry.get_account.
  rewrite He, Ha. cbv zeta. change (DoubleEntry.D 0) with 0.
  fold (equipment_cost equip). fold amt.
  replace (DoubleEntry.D amt) with amt
    by (symmetry; apply whole_cents_months). reflexivity.
Qed.

(** [Ledger.calculate_depreciation] on a ledger that has the three
    accounts.  A life of no months raises [ValueError]; a cost that does
    not exceed the salvage value (rounded to the cent) gives 0; otherwise
    the monthly amount is the depreciable cost divided by the months of the
    life, rounded half up to the cent, and the result is that amount times
    [months].  A result
    that is not positive (a negative or zero [months], or a monthly amount
    that rounds to 0) is returned without any posting; a positive one is
    debited to the expense account and credited to the accumulated
    depreciation, whatever has been accumulated before. *)
Theorem ledger_depreciation_cases (today : date) (uuid4 : nat -> string)
    (L : DoubleEntry.Ledger) (equipment_code accum_code expense_code : string)
    (months life_years : Z) (salvage : Decimal)
    (equip accum expense : DoubleEntry.Account)
    (Hequip : dict_get equipment_code (DoubleEntry.accounts L) = Some equip)
    (Haccum : dict_get accum_code (DoubleEntry.accounts L) = Some accum)
    (Hexpense : dict_get expense_code (DoubleEntry.accounts L) = Some expense)
    (Hcodes : accum_code <> expense_code) :
  let cost := if String.eqb (DoubleEntry.type equip) "Asset"
              then DoubleEntry.balance equip else 0 in
  let depreciable := cost - DoubleEntry.D salvage in
  let amt := DoubleEntry.divide_quantize depreciable (life_years * 12) * months in
  let run := DoubleEntry.calculate_depreciation today uuid4 L equipment_code
               accum_code expense_code months life_years salvage in
  let je_id := uuid4 (DoubleEntry.draws L) in
  (life_years * 12 <= 0 -> run = (Raise (ValueError "life_years must be > 0"), L))
  /\ (0 < life_years * 12 -> depreciable <= 0 -> run = (Ok 0, L))
  /\ (0 < life_years * 12 -> 0 < depreciable -> amt <= 0 -> run = (Ok amt, L))
  /\ (0 < life_years * 12 -> 0 < depreciable -> 0 < amt ->
      exists journal',
        run = (Ok amt,
               DoubleEntry.mkLedger
                 (dict_set accum_code (credited je_id amt accum)
                    (dict_set expense_code (debited je_id amt expense)
                       (DoubleEntry.accounts L)))
                 journal' (S (DoubleEntry.draws L)))).
Proof.
  intros cost depreciable amt run je_id. subst run.
  rewrite (ledger_depreciation_found today uuid4 L equipment_code accum_code
             expense_code months life_years salvage equip accum Hequip Haccum).
  fold (equipment_cost equip) in cost. fold cost. fold depreciable. fold amt.
  split; [|split; [|split]].
  - intros H. apply Z.leb_le in H. rewrite H. reflexivity.
  - intros H1 H2. apply Z.leb_gt in H1. apply Z.leb_le in H2.
    rewrite H1, H2. reflexivity.
  - intros H1 H2 H3. apply Z.leb_gt in H1. apply Z.leb_gt in H2.
    rewrite H1, H2. destruct (Z.gtb_spec amt 0); [lia | reflexivity].
  - intros H1 H2 H3. apply Z.leb_gt in H1. apply Z.leb_gt in H2.
    rewrite H1, H2. destruct (Z.gtb_spec amt 0); [|lia].
    destruct (ledger_post_pair today uuid4 L
                ("Depreciation for " ++ DoubleEntry.str_int months ++ " month(s)")
                expense_code accum_code amt expense accum H3 Hcodes Hexpense Haccum)
      as (je & jn & Hrun).
    rewrite Hrun. exists jn. reflexivity.
Qed.

Lemma ledger_depreciation_cases_witness :
  exists journal',
    DoubleEntry.calculate_depreciation day0 ids ledger_machine
      "1040" "1045" "5300" 12 5 0
    = (Ok 15999600,
       DoubleEntry.mkLedger
         (dict_set "1045"
            (credited (ids 1) 15999600
               (DoubleEntry.mkAccount "1045" "Accumulated Depreciation" "Asset" [] []))
            (dict_set "5300"
               (debited (ids 1) 15999600
                  (DoubleEntry.mkAccount "5300" "Depreciation Expense" "Expense" [] []))
               (DoubleEntry.accounts ledger_machine)))
         journal' 2).
Proof.
  destruct (ledger_depreciation_cases day0 ids ledger_machine "1040" "1045" "5300"
              12 5 0
              (DoubleEntry.mkAccount "1040" "Equipment" "Asset" [(ids 0, 80000000)] [])
              (DoubleEntry.mkAccount "1045" "Accumulated Depreciation" "Asset" [] [])
              (DoubleEntry.mkAccount "5300" "Depreciation Expense" "Expense" [] [])
              eq_refl eq_refl eq_refl) as (_ & _ & _ & H).
  - discriminate.
  - apply H; vm_compute; reflexivity.
Defined.

(** When the expense code names no account, a positive depreciation is not
    posted: [calculate_depreciation] raises [KeyError] for that code, no
    account is changed, and the journal keeps the entry it has just
    recorded, unposted. *)
Theorem ledger_depreciation_unknown_expense (today : date) (uuid4 : nat -> string)
    (L : DoubleEntry.Ledger) (equipment_code accum_code expense_code : string)
    (months life_years : Z) (salvage : Decimal) (equip accum : DoubleEntry.Account)
    (Hequip : dict_get equipment_code (DoubleEntry.accounts L) = Some equip)
    (Haccum : dict_get accum_code (DoubleEntry.accounts L) = Some accum)
    (Hexpense : dict_get expense_code (DoubleEntry.accounts L) = None)
    (Hlife : 0 < life_years * 12) :
  let cost := if String.eqb (DoubleEntry.type equip) "Asset"
              then DoubleEntry.balance equip else 0 in
  let depreciable := cost - DoubleEntry.D salvage in
  let amt := DoubleEntry.divide_quantize depreciable (life_years * 12) * months in
  let je_id := uuid4 (DoubleEntry.draws L) in
  0 < depreciable -> 0 < amt ->
  DoubleEntry.calculate_depreciation today uuid4 L equipment_code accum_code
    expense_code months life_years salvage
  = (Raise (KeyError expense_code),
     DoubleEntry.mkLedger (DoubleEntry.accounts L)
       (dict_set je_id
          (DoubleEntry.mkJournalEntry je_id today
             ("Depreciation for " ++ DoubleEntry.str_int months ++ " month(s)")
             [ DoubleEntry.mkEntryLine expense_code amt true;
               DoubleEntry.mkEntryLine accum_code amt false ] false)
          (DoubleEntry.journal L))
       (S (DoubleEntry.draws L))).
Proof.
  intros cost depreciable amt je_id Hdep Hamt.
  rewrite (ledger_depreciation_found today uuid4 L equipment_code accum_code
             expense_code months life_years salvage equip accum Hequip Haccum).
  fold (equipment_cost equip) in cost. fold cost. fold depreciable. fold amt.
  apply Z.leb_gt in Hlife. apply Z.leb_gt in Hdep. rewrite Hlife, Hdep.
  destruct (Z.gtb_spec amt 0); [|lia].
  rewrite ledger_post_validated.
  - cbn [DoubleEntry.apply_lines DoubleEntry.account]. rewrite Hexpense. reflexivity.
  - repeat constructor; assumption.
  - unfold debit_total, credit_total. cbn. reflexivity.
Qed.

Lemma ledger_depreciation_unknown_expense_witness :
  DoubleEntry.calculate_depreciation day0 ids ledger_no_expense
    "1040" "1045" "5300" 1 5 0
  = (Raise (KeyError "5300"),
     DoubleEntry.mkLedger (DoubleEntry.accounts ledger_no_expense)
       [ (ids 1,
          DoubleEntry.mkJournalEntry (ids 1) day0 "Depreciation for 1 month(s)"
            [ DoubleEntry.mkEntryLine "5300" 1333300 true;
              DoubleEntry.mkEntryLine "1045" 1333300 false ] false) ]
       2).
Proof.
  apply (ledger_depreciation_unknown_expense day0 ids ledger_no_expense
           "1040" "1045" "5300" 1 5 0
           (DoubleEntry.mkAccount "1040" "Equipment" "Asset" [("0", 80000000)] [])
           (DoubleEntry.mkAccount "1045" "Accumulated Depreciation" "Asset" [] [])
           eq_refl eq_refl eq_refl); vm_compute; reflexivity.
Defined.

Lemma ledger_depreciation_step (today : date) (uuid4 : nat -> string)
    (L : DoubleEntry.Ledger) (equip accum expense : DoubleEntry.Account) :
  dict_get "1040" (DoubleEntry.accounts L) = Some equip ->
  dict_get "1045" (DoubleEntry.accounts L) = Some accum ->
  dict_get "5300" (DoubleEntry.accounts L) = Some expense ->
  0 < equipment_cost equip ->
  0 < DoubleEntry.divide_quantize (equipment_cost equip) 60 ->
  let monthly := DoubleEntry.divide_quantize (equipment_cost equip) 60 in
  let je_id := uuid4 (DoubleEntry.draws L) in
  exists L',
    DoubleEntry.calculate_depreciation today uuid4 L "1040" "1045" "5300" 1 5 0
    = (Ok monthly, L')
    /\ dict_get "1040" (DoubleEntry.accounts L') = Some equip
    /\ dict_get "1045" (DoubleEntry.accounts L') = Some (credited je_id monthly accum)
    /\ dict_get "5300" (DoubleEntry.accounts L') = Some (debited je_id monthly expense).
Proof.
  intros He Ha Hx Hcost Hm monthly je_id.
  rewrite (ledger_depreciation_found today uuid4 L "1040" "1045" "5300" 1 5 0
             equip accum He Ha).
  change (5 * 12) with 60. change (60 <=? 0) with false. cbv iota.
  change (DoubleEntry.D 0) with 0. rewrite Z.sub_0_r, Z.mul_1_r. fold monthly.
  destruct (Z.leb_spec (equipment_cost equip) 0); [lia|].
  destruct (Z.gtb_spec monthly 0); [|subst monthly; lia].
  destruct (ledger_post_pair today uuid4 L
              ("Depreciation for " ++ DoubleEntry.str_int 1 ++ " month(s)")
              "5300" "1045" monthly expense accum Hm ltac:(discriminate) Hx Ha)
    as (je & jn & Hrun).
  rewrite Hrun. eexists. split; [reflexivity|].
  cbn [DoubleEntry.accounts]. split; [|split].
  - rewrite !dict_get_set_other by discriminate. exact He.
  - apply dict_get_set_same.
  - rewrite dict_get_set_other by discriminate. apply dict_get_set_same.
Qed.

(** [Ledger.calculate_depreciation] never looks at what has been
    accumulated: with the default arguments every call posts the same
    monthly amount again, so after [n] calls the accumulated depreciation
    has been credited, and the expense debited, [n] times that amount,
    for every [n], also beyond the cost of the equipment. *)
Theorem ledger_depreciation_repeats (today : date) (uuid4 : nat -> string) (n : nat)
    (L : DoubleEntry.Ledger) (equip accum expense : DoubleEntry.Account)
    (Hequip : dict_get "1040" (DoubleEntry.accounts L) = Some equip)
    (Haccum : dict_get "1045" (DoubleEntry.accounts L) = Some accum)
    (Hexpense : dict_get "5300" (DoubleEntry.accounts L) = Some expense)
    (Hmonthly : 0 < DoubleEntry.divide_quantize (equipment_cost equip) 60) :
  let monthly := DoubleEntry.divide_quantize (equipment_cost equip) 60 in
  exists L' accum' expense',
    ledger_depreciations today uuid4 n L = (Ok tt, L')
    /\ dict_get "1040" (DoubleEntry.accounts L') = Some equip
    /\ dict_get "1045" (DoubleEntry.accounts L') = Some accum'
    /\ dict_get "5300" (DoubleEntry.accounts L') = Some expense'
    /\ sigma (map snd (DoubleEntry.credits accum'))
       = sigma (map snd (DoubleEntry.credits accum)) + Z.of_nat n * monthly
    /\ DoubleEntry.debits accum' = DoubleEntry.debits accum
    /\ sigma (map snd (DoubleEntry.debits expense'))
       = sigma (map snd (DoubleEntry.debits expense)) + Z.of_nat n * monthly
    /\ DoubleEntry.credits expense' = DoubleEntry.credits expense.
Proof.
  intros monthly.
  assert (Hcost : 0 < equipment_cost equip).
  { apply (divide_quantize_positive _ 60); [lia | exact Hmonthly]. }
  revert L accum expense Hequip Haccum Hexpense.
  induction n as [|n IH]; intros L accum expense He Ha Hx.
  - exists L, accum, expense. cbn [ledger_depreciations].
    repeat split; try assumption; cbn; lia.
  - cbn [ledger_depreciations].
    destruct (ledger_depreciation_step today uuid4 L equip accum expense
                He Ha Hx Hcost Hmonthly) as (L1 & Hrun & He1 & Ha1 & Hx1).
    rewrite Hrun.
    destruct (IH L1 _ _ He1 Ha1 Hx1)
      as (L' & accum' & expense' & Hruns & He' & Ha' & Hx' & Hc & Hd & Hdx & Hcx).
    exists L', accum', expense'.
    split; [exact Hruns|]. split; [exact He'|]. split; [exact Ha'|].
    split; [exact Hx'|].
    unfold credited, debited in Hc, Hd, Hdx, Hcx.
    cbn [DoubleEntry.credits DoubleEntry.debits] in Hc, Hd, Hdx, Hcx.
    rewrite map_app, sigma_app in Hc, Hdx. cbn [map snd] in Hc, Hdx.
    rewrite sigma_cons in Hc, Hdx. change (sigma []) with 0 in Hc, Hdx.
    fold monthly in Hc, Hdx.
    split; [lia|]. split; [exact Hd|]. split; [lia | exact Hcx].
Qed.

Lemma ledger_depreciation_repeats_witness :
  exists L' accum',
    ledger_depreciations day0 ids 61 ledger_machine = (Ok tt, L')
    /\ dict_get "1045" (DoubleEntry.accounts L') = Some accum'
    /\ sigma (map snd (DoubleEntry.credits accum')) = 81331300.
Proof.
  destruct (ledger_depreciation_repeats day0 ids 61 ledger_machine
              (DoubleEntry.mkAccount "1040" "Equipment" "Asset" [(ids 0, 80000000)] [])
              (DoubleEntry.mkAccount "1045" "Accumulated Depreciation" "Asset" [] [])
              (DoubleEntry.mkAccount "5300" "Depreciation Expense" "Expense" [] [])
              eq_refl eq_refl eq_refl eq_refl)
    as (L' & accum' & expense' & Hrun & _ & Ha & _ & Hc & _).
  exists L', accum'. split; [exact Hrun|]. split; [exact Ha | exact Hc].
Defined.

(** ** The balance sheet and the income statement of the [Ledger] *)

(** Tests of a literal type against a literal type. *)
Ltac literal_tests :=
  repeat match goal with
         | |- context [String.eqb ?s ?t] =>
             first [ is_var s; fail 1
                   | let b := eval vm_compute in (String.eqb s t) in
                     change (String.eqb s t) with b ]
         end.

Lemma ledger_has_type_test (t : string) (a : DoubleEntry.Account) :
  ledger_has_type t a = String.eqb (DoubleEntry.type a) t.
Proof. reflexivity. Qed.

Lemma ledger_filter_cons (t : string) (a : DoubleEntry.Account)
    (l : list DoubleEntry.Account) :
  filter (ledger_has_type t) (a :: l)
  = if ledger_has_type t a then a :: filter (ledger_has_type t) l
    else filter (ledger_has_type t) l.
Proof. reflexivity. Qed.

Lemma ledger_sheet_fold (l : list DoubleEntry.Account)
    (A B C : list DoubleEntry.SheetLine) :
  fold_left DoubleEntry.sheet_step l (A, B, C)
  = (A ++ map sheet_line (filter (ledger_has_type "Asset") l),
     B ++ map sheet_line (filter (ledger_has_type "Liability") l),
     C ++ map sheet_line (filter (ledger_has_type "Equity") l)).
Proof.
  revert A B C. induction l as [|a l IH]; intros A B C.
  - cbn [fold_left filter map]. rewrite !app_nil_r. reflexivity.
  - cbn [fold_left]. rewrite !ledger_filter_cons, !ledger_has_type_test.
    unfold DoubleEntry.sheet_step at 2. fold (sheet_line a).
    generalize (DoubleEntry.type a). intros t.
    destruct (String.eqb_spec t "Asset") as [->|H1].
    { literal_tests. rewrite IH. cbn [map]. rewrite <- app_assoc. reflexivity. }
    destruct (String.eqb_spec t "Liability") as [->|H2].
    { literal_tests. rewrite IH. cbn [map]. rewrite <- app_assoc. reflexivity. }
    destruct (String.eqb_spec t "Equity") as [->|H3].
    { literal_tests. rewrite IH. cbn [map]. rewrite <- app_assoc. reflexivity. }
    rewrite IH. reflexivity.
Qed.

Lemma ledger_balance_net (a : DoubleEntry.Account) :
  DoubleEntry.balance a
  = if DoubleEntry.debit_normal (DoubleEntry.type a) then ledger_net a
    else - ledger_net a.
Proof.
  rewrite ledger_balance_lists. unfold signed, ledger_net.
  destruct (DoubleEntry.debit_normal (DoubleEntry.type a)); cbn [negb]; lia.
Qed.

Lemma sigma_filter_cons {A} (f : A -> Decimal) (p : A -> bool) (a : A) (l : list A) :
  sigma (map f (filter p (a :: l)))
  = (if p a then f a else 0) + sigma (map f (filter p l)).
Proof. cbn [filter]. destruct (p a); [apply sigma_cons | reflexivity]. Qed.

Lemma ledger_net_class (a : DoubleEntry.Account) :
  ledger_net a
  = (if ledger_has_type "Asset" a then DoubleEntry.balance a else 0)
    - (if ledger_has_type "Liability" a then DoubleEntry.balance a else 0)
    - (if ledger_has_type "Equity" a then DoubleEntry.balance a else 0)
    + (if ledger_has_type "Expense" a then DoubleEntry.balance a else 0)
    - (if ledger_income_type a then DoubleEntry.balance a else 0).
Proof.
  pose proof (ledger_balance_net a) as Hb. revert Hb.
  unfold ledger_income_type, ledger_has_type, DoubleEntry.debit_normal.
  generalize (DoubleEntry.balance a) (ledger_net a). intros b n.
  generalize (DoubleEntry.type a). intros t.
  destruct (String.eqb_spec t "Asset") as [->|H1];
    [literal_tests; cbn [andb negb orb]; lia|].
  destruct (String.eqb_spec t "Liability") as [->|H2];
    [literal_tests; cbn [andb negb orb]; lia|].
  destruct (String.eqb_spec t "Equity") as [->|H3];
    [literal_tests; cbn [andb negb orb]; lia|].
  destruct (String.eqb_spec t "Expense") as [->|H4]; cbn [andb negb orb]; lia.
Qed.

Lemma ledger_net_by_type (l : list DoubleEntry.Account) :
  sigma (map ledger_net l)
  = sigma (map DoubleEntry.balance (filter (ledger_has_type "Asset") l))
    - sigma (map DoubleEntry.balance (filter (ledger_has_type "Liability") l))
    - sigma (map DoubleEntry.balance (filter (ledger_has_type "Equity") l))
    + sigma (map DoubleEntry.balance (filter (ledger_has_type "Expense") l))
    - sigma (map DoubleEntry.balance (filter ledger_income_type l)).
Proof.
  induction l as [|a l IH]; [reflexivity|].
  rewrite !sigma_filter_cons. cbn [map]. rewrite sigma_cons, IH, ledger_net_class.
  lia.
Qed.

Lemma sigma_sheet_lines (l : list DoubleEntry.Account) :
  side_total (map sheet_line l) = sigma (map DoubleEntry.balance l).
Proof. unfold side_total. rewrite map_map. reflexivity. Qed.

(** [Ledger.balance_sheet] lists the asset, liability and equity accounts
    with their balances, in the order of the chart.  In every state reached
    from the seeded ledger the total of the assets equals the total of the
    liabilities plus the total of the equity plus the income not yet closed:
    the balances of the accounts that are neither on the sheet nor expenses,
    less the balances of the expense accounts.  The two sides of the sheet
    agree only when that income is 0. *)
Theorem ledger_balance_sheet_equation (uuid4 : nat -> string) (L : DoubleEntry.Ledger)
    (Hreach : ledger_reachable uuid4 L) :
  let chart := dict_values (DoubleEntry.accounts L) in
  let '(assets, liabilities, equity) := DoubleEntry.balance_sheet L in
  assets = map sheet_line (filter (ledger_has_type "Asset") chart)
  /\ liabilities = map sheet_line (filter (ledger_has_type "Liability") chart)
  /\ equity = map sheet_line (filter (ledger_has_type "Equity") chart)
  /\ side_total assets
     = side_total liabilities + side_total equity
       + (sigma (map DoubleEntry.balance (filter ledger_income_type chart))
          - sigma (map DoubleEntry.balance (filter (ledger_has_type "Expense") chart))).
Proof.
  intros chart. unfold DoubleEntry.balance_sheet. fold chart.
  rewrite ledger_sheet_fold. cbn [app].
  split; [reflexivity|]. split; [reflexivity|]. split; [reflexivity|].
  rewrite !sigma_sheet_lines.
  destruct (ledger_reachable_invariant uuid4 L Hreach) as [Hnet _].
  fold chart in Hnet. rewrite ledger_net_by_type in Hnet. lia.
Qed.

Lemma ledger_balance_sheet_witness :
  let '(assets, liabilities, equity) := DoubleEntry.balance_sheet ledger_demo in
  side_total assets = 235000000
  /\ side_total liabilities + side_total equity = 212000000.
Proof.
  pose proof (ledger_balance_sheet_equation ids ledger_demo ledger_demo_reachable) as H.
  cbv zeta in H.
  destruct (DoubleEntry.balance_sheet ledger_demo) as [[assets liabilities] equity].
  destruct H as (-> & -> & -> & H). vm_compute. split; reflexivity.
Defined.

Lemma same_chart_refl (L : DoubleEntry.Ledger) : same_chart L L.
Proof. split; reflexivity. Qed.

Lemma same_chart_accounts (L L' : DoubleEntry.Ledger) :
  DoubleEntry.accounts L' = DoubleEntry.accounts L -> same_chart L L'.
Proof. intros H. unfold same_chart. rewrite H. split; reflexivity. Qed.

Lemma same_chart_trans (L1 L2 L3 : DoubleEntry.Ledger) :
  same_chart L1 L2 -> same_chart L2 L3 -> same_chart L1 L3.
Proof.
  intros [K1 T1] [K2 T2]. split; [congruence|].
  intros k. rewrite T2. apply T1.
Qed.

(** Whatever it returns, [post_transaction] leaves the codes of the chart
    and the type of every account as they are. *)
Lemma post_transaction_same_chart (today : date) (uuid4 : nat -> string)
    (L : DoubleEntry.Ledger) (description : string)
    (lines : list DoubleEntry.EntryLine) :
  same_chart L (snd (DoubleEntry.post_transaction today uuid4 L description lines)).
Proof.
  unfold DoubleEntry.post_transaction.
  destruct (DoubleEntry.new_journal_entry today uuid4 L description lines)
    as [[je|e] L1] eqn:E.
  - apply ledger_new_entry_inv in E. destruct E as (_ & _ & _ & ->).
    unfold DoubleEntry.post_entry. cbn [DoubleEntry.journal DoubleEntry.accounts].
    destruct (dict_get _ _) as [j|]; [|apply same_chart_accounts; reflexivity].
    destruct (DoubleEntry.posted j); [apply same_chart_accounts; reflexivity|].
    pose proof (apply_lines_chart (DoubleEntry.id j) (DoubleEntry.lines j)
                  (DoubleEntry.accounts L)) as Hc.
    destruct (DoubleEntry.apply_lines _ _ _) as [[[]|e] accts]; exact Hc.
  - unfold DoubleEntry.new_journal_entry in E.
    destruct (existsb _ lines); [injection E as _ <-; apply same_chart_refl|].
    destruct (negb _); [injection E as _ <-; apply same_chart_refl | discriminate].
Qed.

Lemma close_expenses_same_chart (today : date) (uuid4 : nat -> string)
    (items : list (string * DoubleEntry.Account)) :
  forall L, same_chart L (snd (DoubleEntry.close_expenses today uuid4 L items)).
Proof.
  induction items as [|[code snapshot] items IH]; intros L;
    cbn [DoubleEntry.close_expenses].
  - apply same_chart_refl.
  - destruct (dict_get code (DoubleEntry.accounts L)) as [acct|]; [|apply IH].
    destruct (String.eqb (DoubleEntry.type acct) "Expense"); [|apply IH].
    destruct (negb _); [|apply IH].
    match goal with
    | |- context [DoubleEntry.post_transaction ?t ?u ?l ?d ?ls] =>
        pose proof (post_transaction_same_chart t u l d ls) as Hp;
        destruct (DoubleEntry.post_transaction t u l d ls) as [[je|e] L1]
    end; cbn [snd] in Hp |- *.
    + eapply same_chart_trans; [exact Hp | apply IH].
    + exact Hp.
Qed.

Lemma close_books_same_chart (today : date) (uuid4 : nat -> string)
    (L : DoubleEntry.Ledger) :
  same_chart L (snd (DoubleEntry.close_books today uuid4 L)).
Proof.
  unfold DoubleEntry.close_books.
  match goal with
  | |- context [if ?c then _ else _] => destruct c
  end.
  - match goal with
    | |- context [DoubleEntry.post_transaction ?t ?u ?l ?d ?ls] =>
        pose proof (post_transaction_same_chart t u l d ls) as Hp;
        destruct (DoubleEntry.post_transaction t u l d ls) as [[je|e] L1]
    end; cbn [snd] in Hp |- *; [|exact Hp].
    pose proof (close_expenses_same_chart today uuid4 (DoubleEntry.accounts L1) L1) as Hc.
    destruct (DoubleEntry.close_expenses today uuid4 L1 (DoubleEntry.accounts L1))
      as [[[]|e] L2]; cbn [snd] in Hc |- *;
      eapply same_chart_trans; eassumption.
  - pose proof (close_expenses_same_chart today uuid4 (DoubleEntry.accounts L) L) as Hc.
    destruct (DoubleEntry.close_expenses today uuid4 L (DoubleEntry.accounts L))
      as [[[]|e] L2]; exact Hc.
Qed.

Lemma chart_lookup (k : string) (accts : dict DoubleEntry.Account) :
  option_map DoubleEntry.type (dict_get k accts)
  = dict_get k (map (fun kv => (fst kv, DoubleEntry.type (snd kv))) accts).
Proof.
  induction accts as [|[k0 a] accts IH]; [reflexivity|].
  cbn [map dict_get fst snd]. destruct (String.eqb k k0); [reflexivity | exact IH].
Qed.

Lemma seeded_lookup (L : DoubleEntry.Ledger) (k : string) :
  seeded_chart L ->
  option_map DoubleEntry.type (dict_get k (DoubleEntry.accounts L))
  = dict_get k (ledger_chart DoubleEntry.new_ledger).
Proof. intros H. rewrite chart_lookup. fold (ledger_chart L). rewrite H. reflexivity. Qed.

Lemma seeded_chart_ok (L : DoubleEntry.Ledger) : seeded_chart L -> ledger_chart_ok L.
Proof.
  intros H. split; [|split].
  - assert (E : dict_keys (DoubleEntry.accounts L)
                = map fst (ledger_chart DoubleEntry.new_ledger)).
    { rewrite <- H. unfold ledger_chart, dict_keys. rewrite map_map. reflexivity. }
    rewrite E. vm_compute.
    repeat (constructor; [simpl; intuition discriminate|]). constructor.
  - pose proof (seeded_lookup L "3000" H) as H3.
    change (dict_get "3000" (ledger_chart DoubleEntry.new_ledger))
      with (Some "Equity") in H3.
    destruct (dict_get "3000" (DoubleEntry.accounts L)) as [a|]; [|discriminate].
    exists a. split; [reflexivity|]. injection H3 as H3. exact H3.
  - pose proof (seeded_lookup L "4000" H) as H4.
    change (dict_get "4000" (ledger_chart DoubleEntry.new_ledger))
      with (Some "Revenue") in H4.
    destruct (dict_get "4000" (DoubleEntry.accounts L)) as [a|]; [|discriminate].
    exists a. split; [reflexivity|]. injection H4 as H4. exact H4.
Qed.

Lemma seed_chart_types :
  ledger_chart DoubleEntry.new_ledger
  = map (fun s => let '(code, _, typ) := s in (code, typ)) DoubleEntry.SEED.
Proof. vm_compute. reflexivity. Qed.

Lemma seeded_expense (L : DoubleEntry.Ledger) (k : string) :
  seeded_chart L ->
  dict_get k (map (fun s => let '(code, _, typ) := s in (code, typ)) DoubleEntry.SEED)
  = Some "Expense" ->
  expense_of (DoubleEntry.accounts L) k = DoubleEntry.balance_or_zero L k.
Proof.
  intros H Hk. pose proof (seeded_lookup L k H) as Hl.
  rewrite seed_chart_types, Hk in Hl.
  unfold expense_of, is_expense, DoubleEntry.balance_or_zero.
  destruct (dict_get k (DoubleEntry.accounts L)) as [a|]; [|reflexivity].
  injection Hl as ->. reflexivity.
Qed.

Lemma seeded_not_expense (L : DoubleEntry.Ledger) (k t : string) :
  seeded_chart L ->
  dict_get k (map (fun s => let '(code, _, typ) := s in (code, typ)) DoubleEntry.SEED)
  = Some t ->
  String.eqb t "Expense" = false ->
  expense_of (DoubleEntry.accounts L) k = 0.
Proof.
  intros H Hk Ht. pose proof (seeded_lookup L k H) as Hl.
  rewrite seed_chart_types, Hk in Hl.
  unfold expense_of, is_expense.
  destruct (dict_get k (DoubleEntry.accounts L)) as [a|]; [|reflexivity].
  injection Hl as ->. rewrite Ht. reflexivity.
Qed.

(** On the seeded chart the expense accounts are the six that
    [income_statement] reads. *)
Lemma seeded_expense_total (L : DoubleEntry.Ledger) :
  seeded_chart L ->
  expense_total (DoubleEntry.accounts L)
  = DoubleEntry.balance_or_zero L "5000" + DoubleEntry.balance_or_zero L "5100"
    + DoubleEntry.balance_or_zero L "5200" + DoubleEntry.balance_or_zero L "5300"
    + DoubleEntry.balance_or_zero L "5400" + DoubleEntry.balance_or_zero L "6000".
Proof.
  intros H.
  destruct (seeded_chart_ok L H) as [Hnd _].
  rewrite <- (expense_total_keys _ Hnd).
  assert (E : dict_keys (DoubleEntry.accounts L)
              = map (fun s => let '(code, _, _) := s in code) DoubleEntry.SEED).
  { transitivity (map fst (ledger_chart L)).
    - unfold ledger_chart, dict_keys. rewrite map_map. reflexivity.
    - rewrite H, seed_chart_types. reflexivity. }
  rewrite E. cbn [map DoubleEntry.SEED]. rewrite !sigma_cons. change (sigma []) with 0.
  rewrite (seeded_not_expense L "1000" "Asset" H eq_refl eq_refl).
  rewrite (seeded_not_expense L "1010" "Asset" H eq_refl eq_refl).
  rewrite (seeded_not_expense L "1020" "Asset" H eq_refl eq_refl).
  rewrite (seeded_not_expense L "1030" "Asset" H eq_refl eq_refl).
  rewrite (seeded_not_expense L "1040" "Asset" H eq_refl eq_refl).
  rewrite (seeded_not_expense L "1045" "Asset" H eq_refl eq_refl).
  rewrite (seeded_not_expense L "2000" "Liability" H eq_refl eq_refl).
  rewrite (seeded_not_expense L "2100" "Liability" H eq_refl eq_refl).
  rewrite (seeded_not_expense L "2200" "Liability" H eq_refl eq_refl).
  rewrite (seeded_not_expense L "3000" "Equity" H eq_refl eq_refl).
  rewrite (seeded_not_expense L "4000" "Revenue" H eq_refl eq_refl).
  rewrite (seeded_not_expense L "4100" "Revenue" H eq_refl eq_refl).
  rewrite (seeded_expense L "5000" H eq_refl), (seeded_expense L "5100" H eq_refl).
  rewrite (seeded_expense L "5200" H eq_refl), (seeded_expense L "5300" H eq_refl).
  rewrite (seeded_expense L "5400" H eq_refl), (seeded_expense L "6000" H eq_refl).
  lia.
Qed.

Lemma closed_expense (L L' : DoubleEntry.Ledger) (k : string) :
  seeded_chart L -> same_chart L L' ->
  dict_get k (ledger_chart DoubleEntry.new_ledger) = Some "Expense" ->
  expense_of (DoubleEntry.accounts L') k = 0 ->
  DoubleEntry.balance_or_zero L' k = 0.
Proof.
  intros Hs [_ Ht] Hk Hz. pose proof (seeded_lookup L k Hs) as Hl.
  rewrite Hk, <- Ht in Hl. unfold expense_of, is_expense in Hz.
  unfold DoubleEntry.balance_or_zero.
  destruct (dict_get k (DoubleEntry.accounts L')) as [a|]; [|reflexivity].
  injection Hl as Hl. rewrite Hl in Hz. exact Hz.
Qed.

Lemma closable_net_income (L : DoubleEntry.Ledger) :
  seeded_chart L -> closable L ->
  whole_cents (balance_of (DoubleEntry.accounts L) "4000"
               - expense_total (DoubleEntry.accounts L)).
Proof.
  intros H [[_ Hrev] Hexp]. destruct (seeded_chart_ok L H) as [Hnd _].
  apply whole_cents_sub; [exact Hrev|].
  rewrite <- expense_total_keys by exact Hnd.
  apply whole_cents_sigma, Forall_map, Forall_forall. intros k _. apply Hexp.
Qed.

Lemma seeded_net_income (L : DoubleEntry.Ledger) :
  seeded_chart L -> closable L ->
  DoubleEntry.net_income (DoubleEntry.income_statement L)
  = balance_of (DoubleEntry.accounts L) "4000" - expense_total (DoubleEntry.accounts L).
Proof.
  intros H Hc. pose proof (closable_net_income L H Hc) as Hnet.
  rewrite (seeded_expense_total L H) in *.
  unfold DoubleEntry.income_statement. cbn [DoubleEntry.net_income].
  change (balance_of (DoubleEntry.accounts L) "4000")
    with (DoubleEntry.balance_or_zero L "4000") in *.
  unfold whole_cents in Hnet. rewrite <- Hnet. f_equal. ring.
Qed.

(** On a ledger with the seeded chart, on which account 4000 and the
    expense accounts have non-negative balances in whole cents,
    [close_books] returns the net income that [income_statement] shows, and the income statement of
    the closed ledger has 0 on every line.  The statement reads account
    4000 and the six seeded expense accounts only: Sales Returns (4100)
    is on no line. *)
Theorem close_books_returns_net_income (today : date) (uuid4 : nat -> string)
    (L : DoubleEntry.Ledger)
    (Hchart : seeded_chart L) (Hclosable : closable L) :
  let isr := DoubleEntry.income_statement L in
  DoubleEntry.net_income isr
  = balance_of (DoubleEntry.accounts L) "4000"
    - (balance_of (DoubleEntry.accounts L) "5000"
       + balance_of (DoubleEntry.accounts L) "5100"
       + balance_of (DoubleEntry.accounts L) "5200"
       + balance_of (DoubleEntry.accounts L) "5300"
       + balance_of (DoubleEntry.accounts L) "5400"
       + balance_of (DoubleEntry.accounts L) "6000")
  /\ exists L',
       DoubleEntry.close_books today uuid4 L = (Ok (DoubleEntry.net_income isr), L')
       /\ DoubleEntry.income_statement L' = income_zero.
Proof.
  intros isr. subst isr. split.
  - rewrite (seeded_net_income L Hchart Hclosable), (seeded_expense_total L Hchart).
    reflexivity.
  - destruct (close_books_spec today uuid4 L (seeded_chart_ok L Hchart) Hclosable)
      as (L' & Hrun & _ & H4 & Hz & _).
    exists L'. rewrite (seeded_net_income L Hchart Hclosable). split; [exact Hrun|].
    pose proof (close_books_same_chart today uuid4 L) as Hsame.
    rewrite Hrun in Hsame. cbn [snd] in Hsame.
    unfold DoubleEntry.income_statement.
    change (DoubleEntry.balance_or_zero L' "4000")
      with (balance_of (DoubleEntry.accounts L') "4000").
    rewrite H4.
    rewrite (closed_expense L L' "5000" Hchart Hsame eq_refl (Hz "5000")).
    rewrite (closed_expense L L' "5100" Hchart Hsame eq_refl (Hz "5100")).
    rewrite (closed_expense L L' "5200" Hchart Hsame eq_refl (Hz "5200")).
    rewrite (closed_expense L L' "5300" Hchart Hsame eq_refl (Hz "5300")).
    rewrite (closed_expense L L' "5400" Hchart Hsame eq_refl (Hz "5400")).
    rewrite (closed_expense L L' "6000" Hchart Hsame eq_refl (Hz "6000")).
    reflexivity.
Qed.

Lemma close_books_returns_net_income_witness :
  exists L',
    DoubleEntry.close_books day0 ids ledger_demo = (Ok 23000000, L')
    /\ DoubleEntry.income_statement L' = income_zero.
Proof.
  assert (Hchart : seeded_chart ledger_demo) by (vm_compute; reflexivity).
  assert (Hclosable : closable ledger_demo)
    by (apply closable_check; vm_compute; reflexivity).
  destruct (close_books_returns_net_income day0 ids ledger_demo Hchart Hclosable)
    as (_ & L' & Hrun & Hzero).
  exists L'. split; [exact Hrun | exact Hzero].
Defined.

(** ** Journal identifiers *)

Lemma ledger_post_ok_inv (today : date) (uuid4 : nat -> string)
    (L L' : DoubleEntry.Ledger) (description : string)
    (lines : list DoubleEntry.EntryLine) (je : DoubleEntry.JournalEntry) :
  DoubleEntry.post_transaction today uuid4 L description lines = (Ok je, L') ->
  let je_id := uuid4 (DoubleEntry.draws L) in
  je = DoubleEntry.mkJournalEntry je_id today description lines true
  /\ DoubleEntry.journal L' = dict_set je_id je (DoubleEntry.journal L)
  /\ DoubleEntry.draws L' = S (DoubleEntry.draws L)
  /\ (forall k, dict_get k (DoubleEntry.accounts L')
                = option_map (ledger_posted je_id k lines)
                    (dict_get k (DoubleEntry.accounts L))).
Proof.
  intros Hpost je_id.
  assert (Hv : Forall (fun l => 0 < DoubleEntry.amount l) lines
               /\ debit_total lines = credit_total lines).
  { unfold DoubleEntry.post_transaction in Hpost.
    destruct (DoubleEntry.new_journal_entry today uuid4 L description lines)
      as [[j|e] L1] eqn:E; [|discriminate].
    apply ledger_new_entry_inv in E. destruct E as (Hp & Hb & _). auto. }
  destruct Hv as [Hpos Hbal].
  rewrite (ledger_post_validated today uuid4 L description lines Hpos Hbal) in Hpost.
  fold je_id in Hpost.
  destruct (DoubleEntry.apply_lines je_id lines (DoubleEntry.accounts L))
    as [[[]|e] accts] eqn:A; [|discriminate].
  injection Hpost as <- <-.
  destruct (apply_lines_result _ _ _ _ A) as [_ Hg].
  cbn [DoubleEntry.accounts DoubleEntry.journal DoubleEntry.draws].
  split; [reflexivity|]. split; [reflexivity|]. split; [reflexivity | exact Hg].
Qed.

Lemma ledger_posted_app (je_id k : string) (ls1 ls2 : list DoubleEntry.EntryLine)
    (a : DoubleEntry.Account) :
  ledger_posted je_id k ls2 (ledger_posted je_id k ls1 a)
  = ledger_posted je_id k (ls1 ++ ls2) a.
Proof.
  unfold ledger_posted, ledger_entries_for.
  cbn [DoubleEntry.code DoubleEntry.name DoubleEntry.type DoubleEntry.debits
         DoubleEntry.credits].
  rewrite !filter_app, !map_app, <- !app_assoc. reflexivity.
Qed.

(** Nothing checks that a drawn identifier is new.  When the second of two
    successful postings draws the identifier of the first, the journal
    keeps its size and holds the second entry under that identifier in
    place of the first, while every account holds the lines of both
    entries under the one identifier. *)
Theorem colliding_identifier_replaces_entry (today : date) (uuid4 : nat -> string)
    (L L1 L2 : DoubleEntry.Ledger) (description1 description2 : string)
    (lines1 lines2 : list DoubleEntry.EntryLine) (je1 je2 : DoubleEntry.JournalEntry)
    (Hfirst : DoubleEntry.post_transaction today uuid4 L description1 lines1
              = (Ok je1, L1))
    (Hsecond : DoubleEntry.post_transaction today uuid4 L1 description2 lines2
               = (Ok je2, L2))
    (Hsame : uuid4 (S (DoubleEntry.draws L)) = uuid4 (DoubleEntry.draws L)) :
  DoubleEntry.id je2 = DoubleEntry.id je1
  /\ dict_get (DoubleEntry.id je1) (DoubleEntry.journal L1) = Some je1
  /\ dict_get (DoubleEntry.id je1) (DoubleEntry.journal L2) = Some je2
  /\ DoubleEntry.lines je2 = lines2
  /\ dict_keys (DoubleEntry.journal L2) = dict_keys (DoubleEntry.journal L1)
  /\ (forall k, dict_get k (DoubleEntry.accounts L2)
                = option_map (ledger_posted (DoubleEntry.id je1) k (lines1 ++ lines2))
                    (dict_get k (DoubleEntry.accounts L))).
Proof.
  destruct (ledger_post_ok_inv _ _ _ _ _ _ _ Hfirst) as (E1 & J1 & D1 & G1).
  destruct (ledger_post_ok_inv _ _ _ _ _ _ _ Hsecond) as (E2 & J2 & D2 & G2).
  rewrite D1, Hsame in E2, J2, G2.
  assert (I1 : DoubleEntry.id je1 = uuid4 (DoubleEntry.draws L))
    by (rewrite E1; reflexivity).
  assert (I2 : DoubleEntry.id je2 = uuid4 (DoubleEntry.draws L))
    by (rewrite E2; reflexivity).
  rewrite I1. split; [exact I2|]. split; [|split; [|split; [|split]]].
  - rewrite J1. apply dict_get_set_same.
  - rewrite J2. apply dict_get_set_same.
  - rewrite E2. reflexivity.
  - rewrite J2. apply dict_keys_set_present.
    rewrite J1, dict_get_set_same. discriminate.
  - intros k. rewrite G2, G1.
    destruct (dict_get k (DoubleEntry.accounts L)) as [a|]; [|reflexivity].
    cbn [option_map]. rewrite ledger_posted_app. reflexivity.
Qed.

Lemma colliding_identifier_witness :
  dict_keys (DoubleEntry.journal ledger_collision)
  = dict_keys (DoubleEntry.journal ledger_first)
  /\ dict_get "1f0c9a3e" (DoubleEntry.journal ledger_collision)
     = Some (DoubleEntry.mkJournalEntry "1f0c9a3e" day0 "Bank loan taken"
               [ DoubleEntry.mkEntryLine "1000" 50000000 true;
                 DoubleEntry.mkEntryLine "2200" 50000000 false ] true).
Proof.
  destruct (colliding_identifier_replaces_entry day0 same_id
              DoubleEntry.new_ledger ledger_first ledger_collision
              "Owner investment" "Bank loan taken"
              [ DoubleEntry.mkEntryLine "1000" 200000000 true;
                DoubleEntry.mkEntryLine "3000" 200000000 false ]
              [ DoubleEntry.mkEntryLine "1000" 50000000 true;
                DoubleEntry.mkEntryLine "2200" 50000000 false ]
              (DoubleEntry.mkJournalEntry "1f0c9a3e" day0 "Owner investment"
                 [ DoubleEntry.mkEntryLine "1000" 200000000 true;
                   DoubleEntry.mkEntryLine "3000" 200000000 false ] true)
              (DoubleEntry.mkJournalEntry "1f0c9a3e" day0 "Bank loan taken"
                 [ DoubleEntry.mkEntryLine "1000" 50000000 true;
                   DoubleEntry.mkEntryLine "2200" 50000000 false ] true)
              eq_refl eq_refl eq_refl) as (_ & _ & H2 & _ & Hk & _).
  split; [exact Hk | exact H2].
Defined.
